(** * Entra MCP server: the request-execution core

    A shallow embedding of the TypeScript sources
    [src/utils/error-handler.ts], [src/utils/validation.ts],
    [src/utils/retry.ts], the query builders under [src/tools/] and the
    handler of tool calls of [src/index.ts], followed by the properties
    established about them.

    Conventions of the embedding:
    - an untyped JavaScript value is a [JsValue]; a JavaScript number is a
      [JsNumber], whose finite values are rationals (every finite double is
      one, and the comparisons and integer tests the code performs on them
      are exact);
    - [numberValue] rounds a real to the nearest double: the result of
      [parseInt] and the products of [getRetryAfterDelay] are rounded with
      it, while [calculateDelay] and the dates are kept in exact
      arithmetic;
    - a string is the [string] of the UTF-8 bytes of the JavaScript string
      (a lone surrogate as its three bytes); [trim] and [parseInt] skip the
      white space of ECMAScript, whatever its length in bytes, and
      [toLowerCase] acts on the letters of the ASCII range, the only ones
      that the tokens it is tested against contain;
    - a thrown exception is the [Throw] branch of [Result];
    - an asynchronous operation is a function of the history of events so
      far that returns its outcome together with the requests it issued. *)

From Stdlib Require Import String Ascii List ZArith QArith Qminmax Bool Lia.
From Stdlib Require Import Lqa Qpower Qabs Qround.
Import ListNotations.

Local Close Scope Q_scope.
Local Open Scope string_scope.

(* ------------------------------------------------------------------ *)
(** ** JavaScript values *)

Module Js.

Inductive JsNumber : Type :=
| NaN
| Inf (negative : bool)
| Fin (q : Q).

#[warnings="-register-all"]
Inductive JsValue : Type :=
| JUndefined
| JNull
| JBool (b : bool)
| JNum (n : JsNumber)
| JStr (s : string)
| JArr (items : list JsValue)
| JObj (fields : list (string * JsValue)).

Definition isZero (n : JsNumber) : bool :=
  match n with
  | Fin q => Qeq_bool q 0%Q
  | _ => false
  end.

(** [ToBoolean]: what [if (v)], [!v] and [v || w] test. *)
Definition truthy (v : JsValue) : bool :=
  match v with
  | JUndefined | JNull => false
  | JBool b => b
  | JNum NaN => false
  | JNum n => negb (isZero n)
  | JStr s => negb (String.eqb s EmptyString)
  | JArr _ | JObj _ => true
  end.

(** [v === undefined || v === null] *)
Definition nullish (v : JsValue) : bool :=
  match v with
  | JUndefined | JNull => true
  | _ => false
  end.

(** [Number.isInteger] *)
Definition isInteger (n : JsNumber) : bool :=
  match n with
  | Fin q => (Qnum q mod Zpos (Qden q) =? 0)%Z
  | _ => false
  end.

(** [a < b] on numbers; any comparison with [NaN] is false. *)
Definition lt (a b : JsNumber) : bool :=
  match a, b with
  | NaN, _ | _, NaN => false
  | Fin x, Fin y => negb (Qle_bool y x)
  | Inf true, Inf true => false
  | Inf true, _ => true
  | Inf false, _ => false
  | Fin _, Inf negative => negb negative
  end.

(** [a > b] is [b < a]. *)
Definition gt (a b : JsNumber) : bool := lt b a.

Definition sign_negative (q : Q) : bool := negb (Qle_bool 0%Q q).

(** [isNaN] on a number. *)
Definition isNaN (n : JsNumber) : bool :=
  match n with
  | NaN => true
  | _ => false
  end.

(** The exponent [e] with [2^e <= a < 2^(e+1)], for a positive [a]. *)
Definition binaryExponent (a : Q) : Z :=
  let e := (Z.log2 (Qnum a) - Z.log2 (Zpos (Qden a)))%Z in
  if Qle_bool (2 ^ e)%Q a then e else (e - 1)%Z.

(** The Number value for a real: the nearest double, a tie going to the
    even significand, and an infinity once the rounded magnitude reaches
    [2^1024].  The unit of the last place is [2^(e - 52)], and [2^-1074]
    for a subnormal; both zeros are [Fin 0]. *)
Definition numberValue (x : Q) : JsNumber :=
  let x := Qred x in
  if Qeq_bool x 0%Q then Fin 0%Q
  else
    let a := Qabs x in
    let ulp := (2 ^ Z.max (binaryExponent a - 52) (-1074))%Q in
    let scaled := (a / ulp)%Q in
    let m := Qfloor scaled in
    let rest := (scaled - inject_Z m)%Q in
    let up :=
      negb (Qle_bool rest (1 # 2)) || (Qeq_bool rest (1 # 2) && Z.odd m) in
    let r := (inject_Z (if up then m + 1 else m) * ulp)%Q in
    if Qle_bool (2 ^ 1024)%Q r then Inf (sign_negative x)
    else Fin (Qred (if sign_negative x then - r else r)%Q).

(** [a * b] on numbers: the product, rounded. *)
Definition mul (a b : JsNumber) : JsNumber :=
  match a, b with
  | NaN, _ | _, NaN => NaN
  | Fin x, Fin y => numberValue (x * y)%Q
  | Inf s, Fin y | Fin y, Inf s =>
      if Qeq_bool y 0%Q then NaN else Inf (xorb s (sign_negative y))
  | Inf s, Inf t => Inf (xorb s t)
  end.

Definition ofZ (z : Z) : JsNumber := Fin (inject_Z z).

(** Property lookup [o.key] on an object literal: the first binding wins in
    this representation. *)
Fixpoint lookup (key : string) (fields : list (string * JsValue)) : option JsValue :=
  match fields with
  | [] => None
  | (k, v) :: rest => if String.eqb k key then Some v else lookup key rest
  end.

End Js.

Import Js.

(* ------------------------------------------------------------------ *)
(** ** String primitives used by the sources *)

Module Str.

Definition quote : ascii := "'"%char.
Definition dquote : ascii := ascii_of_nat 34.

(** A string is the sequence of the UTF-8 bytes of the JavaScript string:
    U+00A0 is the two bytes 194 160, U+2028 the three bytes 226 128 168.

    The white space that [String.prototype.trim] and [parseInt] skip is
    the WhiteSpace and LineTerminator of ECMAScript.  In one byte: TAB, LF,
    VT, FF, CR and SPACE. *)
Definition isSpace (c : ascii) : bool :=
  let n := nat_of_ascii c in
  (((9 <=? n) && (n <=? 13)) || (n =? 32))%nat.

(** In two bytes: U+00A0 (194 160). *)
Definition isSpace2 (a b : ascii) : bool :=
  ((nat_of_ascii a =? 194) && (nat_of_ascii b =? 160))%nat.

(** In three bytes: U+1680 (225 154 128), U+2000 to U+200A (226 128 128
    to 226 128 138), U+2028 and U+2029 (226 128 168 and 169), U+202F
    (226 128 175), U+205F (226 129 159), U+3000 (227 128 128) and U+FEFF
    (239 187 191). *)
Definition isSpace3 (a b c : ascii) : bool :=
  let x := nat_of_ascii a in
  let y := nat_of_ascii b in
  let z := nat_of_ascii c in
  (((x =? 225) && (y =? 154) && (z =? 128))
   || ((x =? 226) && (y =? 128)
       && (((128 <=? z) && (z <=? 138)) || (z =? 168) || (z =? 169) || (z =? 175)))
   || ((x =? 226) && (y =? 129) && (z =? 159))
   || ((x =? 227) && (y =? 128) && (z =? 128))
   || ((x =? 239) && (y =? 187) && (z =? 191)))%nat.

Fixpoint trimStart (s : string) : string :=
  match s with
  | EmptyString => EmptyString
  | String a rest =>
      if isSpace a then trimStart rest
      else match rest with
           | String b rest2 =>
               if isSpace2 a b then trimStart rest2
               else match rest2 with
                    | String c rest3 =>
                        if isSpace3 a b c then trimStart rest3 else s
                    | EmptyString => s
                    end
           | EmptyString => s
           end
  end.

(** The string is made of white space only. *)
Fixpoint allSpace (s : string) : bool :=
  match s with
  | EmptyString => true
  | String a rest =>
      if isSpace a then allSpace rest
      else match rest with
           | String b rest2 =>
               if isSpace2 a b then allSpace rest2
               else match rest2 with
                    | String c rest3 => isSpace3 a b c && allSpace rest3
                    | EmptyString => false
                    end
           | EmptyString => false
           end
  end.

(** Drops the white space at the end: what is left from the first position
    on after which there is white space only. *)
Fixpoint trimEnd (s : string) : string :=
  match s with
  | EmptyString => EmptyString
  | String c rest => if allSpace s then EmptyString else String c (trimEnd rest)
  end.

(** [s.trim()] *)
Definition trim (s : string) : string := trimEnd (trimStart s).

Definition lowerChar (c : ascii) : ascii :=
  let n := nat_of_ascii c in
  if ((65 <=? n) && (n <=? 90))%nat then ascii_of_nat (n + 32) else c.

(** [s.toLowerCase()] on the letters of the ASCII range; the other bytes
    are kept.  The sources search the result for tokens made of [$] and
    the letters a, c, e, f, h, l, m, n, o, p, r, s, t, u and y: no character
    outside the ASCII range lower-cases to one of these, so the search
    finds what it finds in the code. *)
Fixpoint toLowerCase (s : string) : string :=
  match s with
  | EmptyString => EmptyString
  | String c rest => String (lowerChar c) (toLowerCase rest)
  end.

(** [s.startsWith(p)] *)
Fixpoint startsWith (p s : string) : bool :=
  match p, s with
  | EmptyString, _ => true
  | String _ _, EmptyString => false
  | String a p', String b s' => Ascii.eqb a b && startsWith p' s'
  end.

(** [s.includes(p)]: [p] occurs at some position of [s]. *)
Fixpoint includes (s p : string) : bool :=
  startsWith p s ||
  match s with
  | EmptyString => false
  | String _ rest => includes rest p
  end.

(** [s.replace(/c/g, rep)] for a one-character pattern and a replacement
    without [$]. *)
Fixpoint replaceAll (c : ascii) (rep : string) (s : string) : string :=
  match s with
  | EmptyString => EmptyString
  | String a rest =>
      if Ascii.eqb a c then rep ++ replaceAll c rep rest
      else String a (replaceAll c rep rest)
  end.

(** [items.join(sep)] *)
Fixpoint join (sep : string) (items : list string) : string :=
  match items with
  | [] => EmptyString
  | [x] => x
  | x :: rest => x ++ sep ++ join sep rest
  end.

Definition isDigit (c : ascii) : bool :=
  let n := nat_of_ascii c in ((48 <=? n) && (n <=? 57))%nat.

Definition digitValue (c : ascii) : Z := Z.of_nat (nat_of_ascii c - 48).

(** The longest prefix of decimal digits, read as a number; [None] when the
    string does not start with a digit. *)
Fixpoint digits (acc : option Z) (s : string) : option Z :=
  match s with
  | String c rest =>
      if isDigit c
      then digits (Some (match acc with
                         | Some a => 10 * a + digitValue c
                         | None => digitValue c
                         end)%Z) rest
      else acc
  | EmptyString => acc
  end.

(** The integer that [parseInt(s, 10)] reads: the digits that follow the
    white space and the sign, with the sign; [None] when there is no
    digit. *)
Definition mathInt (s : string) : option Z :=
  match trimStart s with
  | String "-" rest => option_map Z.opp (digits None rest)
  | String "+" rest => digits None rest
  | t => digits None t
  end.

(** [parseInt(s, 10)]: the Number value for that integer, [NaN] when there
    is none.  (ECMAScript lets an engine replace the digits after the
    twentieth significant one by zeros; Node rounds the integer itself.) *)
Definition parseInt (s : string) : JsNumber :=
  match mathInt s with
  | Some n => numberValue (inject_Z n)
  | None => NaN
  end.

End Str.

(* ------------------------------------------------------------------ *)
(** ** error-handler.ts *)

Module ErrorHandler.

Inductive ErrorCode : Type :=
| INTERNAL_ERROR
| UNKNOWN_ERROR
| GRAPH_API_ERROR
| INVALID_PARAMETER
| MISSING_PARAMETER
| UNAUTHORIZED
| FORBIDDEN
| NOT_FOUND
| INVALID_RESPONSE
| RATE_LIMITED
| NETWORK_ERROR
| TIMEOUT.

(** The string value of each member of the enum. *)
Definition codeString (c : ErrorCode) : string :=
  match c with
  | INTERNAL_ERROR => "INTERNAL_ERROR"
  | UNKNOWN_ERROR => "UNKNOWN_ERROR"
  | GRAPH_API_ERROR => "GRAPH_API_ERROR"
  | INVALID_PARAMETER => "INVALID_PARAMETER"
  | MISSING_PARAMETER => "MISSING_PARAMETER"
  | UNAUTHORIZED => "UNAUTHORIZED"
  | FORBIDDEN => "FORBIDDEN"
  | NOT_FOUND => "NOT_FOUND"
  | INVALID_RESPONSE => "INVALID_RESPONSE"
  | RATE_LIMITED => "RATE_LIMITED"
  | NETWORK_ERROR => "NETWORK_ERROR"
  | TIMEOUT => "TIMEOUT"
  end.

Definition ErrorCode_eqb (a b : ErrorCode) : bool :=
  String.eqb (codeString a) (codeString b).

(** [class MCPError extends Error] *)
Record MCPError : Type := mkMCPError {
  message : string;
  code : ErrorCode;
  details : option (list (string * JsValue))
}.

(** The vendor envelope [{ code, message, innerError }]. *)
Record GraphError : Type := mkGraphError {
  ge_code : option string;
  ge_message : option string;
  ge_innerError : JsValue
}.

(** [error.response]: the fields the sources read. *)
Record Response : Type := mkResponse {
  r_error : option GraphError;
  r_status : option Z;
  r_headers : option (list (string * JsValue))
}.

(** A thrown value that is not an [MCPError]: a transport failure or a
    runtime exception.  [e_string] is [String(error)]. *)
Record RawError : Type := mkRawError {
  e_response : option Response;
  e_code : option string;
  e_message : option string;
  e_string : string
}.

(** Whatever a [catch (error)] can bind. *)
Inductive Thrown : Type :=
| ThrownMCP (e : MCPError)
| ThrownRaw (e : RawError).

Inductive Result (A : Type) : Type :=
| Ok (a : A)
| Throw (e : Thrown).
Arguments Ok {A} a.
Arguments Throw {A} e.

(** [error instanceof MCPError] *)
Definition isMCPError (e : Thrown) : bool :=
  match e with
  | ThrownMCP _ => true
  | ThrownRaw _ => false
  end.

(** [error?.response]; an [MCPError] has no such property. *)
Definition response (e : Thrown) : option Response :=
  match e with
  | ThrownMCP _ => None
  | ThrownRaw r => e_response r
  end.

(** [error?.code]; on an [MCPError] it is the enum's string. *)
Definition errCode (e : Thrown) : option string :=
  match e with
  | ThrownMCP m => Some (codeString (code m))
  | ThrownRaw r => e_code r
  end.

(** [error?.message] *)
Definition errMessage (e : Thrown) : option string :=
  match e with
  | ThrownMCP m => Some (message m)
  | ThrownRaw r => e_message r
  end.

(** [String(error)]; for an [Error] it is the name, then the message when
    there is one. *)
Definition errString (e : Thrown) : string :=
  match e with
  | ThrownMCP m =>
      if String.eqb (message m) EmptyString then "MCPError"
      else "MCPError: " ++ message m
  | ThrownRaw r => e_string r
  end.

(** A possibly absent string as a value, and as a template literal renders
    it. *)
Definition optStr (o : option string) : JsValue :=
  match o with
  | Some s => JStr s
  | None => JUndefined
  end.

Definition render (o : option string) : string :=
  match o with
  | Some s => s
  | None => "undefined"
  end.

(** [o || fallback] on strings: the empty string is falsy. *)
Definition orElse (o : option string) (fallback : string) : string :=
  match o with
  | Some s => if String.eqb s EmptyString then fallback else s
  | None => fallback
  end.

Definition codeIs (e : Thrown) (s : string) : bool :=
  match errCode e with
  | Some c => String.eqb c s
  | None => false
  end.

Definition oneOf (s : string) (candidates : list string) : bool :=
  existsb (String.eqb s) candidates.

Definition mapGraphErrorCode (graphCode : string) : ErrorCode :=
  if oneOf graphCode ["Unauthorized"; "AuthenticationFailed"; "AuthenticationCanceled"]
  then UNAUTHORIZED
  else if oneOf graphCode ["Forbidden"; "AuthorizationFailed"]
  then FORBIDDEN
  else if oneOf graphCode ["Request_ResourceNotFound"; "ResourceNotFound";
                           "UserNotFound"; "GroupNotFound"; "ApplicationNotFound"]
  then NOT_FOUND
  else if oneOf graphCode ["TooManyRequests"; "RateLimitExceeded"; "ThrottledRequest"]
  then RATE_LIMITED
  else if oneOf graphCode ["BadRequest"; "InvalidRequest"; "InvalidFilter";
                           "InvalidQueryParameter"]
  then INVALID_PARAMETER
  else if oneOf graphCode ["Timeout"; "RequestTimeout"]
  then TIMEOUT
  else GRAPH_API_ERROR.

(** [if (error?.response?.status)]: present and not zero. *)
Definition truthyStatus (e : Thrown) : option Z :=
  match response e with
  | Some r =>
      match r_status r with
      | Some s => if (s =? 0)%Z then None else Some s
      | None => None
      end
  | None => None
  end.

Definition httpStatus (s : Z) : option (list (string * JsValue)) :=
  Some [("httpStatus", JNum (ofZ s))].

(** The status branch of [handleGraphError]; [None] when no [throw] of the
    branch is reached. *)
Definition classifyStatus (status : Z) : option MCPError :=
  if ((status =? 401) || (status =? 403))%Z
  then Some (mkMCPError "Authentication or authorization failed"
               (if (status =? 401)%Z then UNAUTHORIZED else FORBIDDEN)
               (httpStatus status))
  else if (status =? 404)%Z
  then Some (mkMCPError "Resource not found" NOT_FOUND (httpStatus status))
  else if (status =? 429)%Z
  then Some (mkMCPError "Too many requests - rate limit exceeded" RATE_LIMITED
               (httpStatus status))
  else if (status >=? 500)%Z
  then Some (mkMCPError "Microsoft Graph API server error" GRAPH_API_ERROR
               (httpStatus status))
  else None.

Definition classifyNetwork (error : Thrown) : MCPError :=
  if codeIs error "ECONNREFUSED" || codeIs error "ENOTFOUND" || codeIs error "ETIMEDOUT"
  then mkMCPError "Network error connecting to Microsoft Graph API" NETWORK_ERROR
         (Some [("originalCode", optStr (errCode error))])
  else mkMCPError (orElse (errMessage error) "An unexpected error occurred")
         UNKNOWN_ERROR
         (Some [("originalError",
                 JStr (orElse (errMessage error) (errString error)))]).

(** [handleGraphError(error): never].  The function always throws; the value
    here is the [MCPError] it throws. *)
Definition handleGraphError (error : Thrown) : MCPError :=
  match response error with
  | Some {| r_error := Some graphError |} =>
      mkMCPError
        ("Microsoft Graph API Error: " ++ render (ge_message graphError))
        (mapGraphErrorCode (orElse (ge_code graphError) EmptyString))
        (Some (("graphCode", optStr (ge_code graphError))
               :: (if truthy (ge_innerError graphError)
                   then [("innerError", ge_innerError graphError)]
                   else [])))
  | _ =>
      match truthyStatus error with
      | Some status =>
          match classifyStatus status with
          | Some thrown => thrown
          | None => classifyNetwork error
          end
      | None => classifyNetwork error
      end
  end.

End ErrorHandler.

Import ErrorHandler.

(* ------------------------------------------------------------------ *)
(** ** The Graph client, as the query builders use it *)

Module Graph.

(** A request under construction: [client.api(path)] followed by the
    modifiers [.top], [.filter], [.select], [.expand] and [.orderby]. *)
Record Request : Type := mkRequest {
  path : string;
  top : option JsNumber;
  filter : option string;
  select : option string;
  expand : option string;
  orderby : option JsValue
}.

Definition api (p : string) : Request := mkRequest p None None None None None.

Definition withTop (n : JsNumber) (r : Request) : Request :=
  mkRequest (path r) (Some n) (filter r) (select r) (expand r) (orderby r).

Definition withFilter (f : string) (r : Request) : Request :=
  mkRequest (path r) (top r) (Some f) (select r) (expand r) (orderby r).

Definition withSelect (s : string) (r : Request) : Request :=
  mkRequest (path r) (top r) (filter r) (Some s) (expand r) (orderby r).

Definition withExpand (e : string) (r : Request) : Request :=
  mkRequest (path r) (top r) (filter r) (select r) (Some e) (orderby r).

Definition withOrderby (o : JsValue) (r : Request) : Request :=
  mkRequest (path r) (top r) (filter r) (select r) (expand r) (Some o).

(** What can be observed of a run: an invocation of the retried operation,
    a request sent to the remote API ([request.get()]), a [sleep(ms)]. *)
Inductive Event : Type :=
| Invoked
| Requested (r : Request)
| Slept (ms : JsNumber).

Definition History := list Event.

(** The collaborators outside the sources: the JavaScript runtime and the
    remote API.  Each may depend on everything that happened before. *)
Record Runtime : Type := mkRuntime {
  (** how a template literal renders a number *)
  numberToString : JsNumber -> string;
  (** [Date.now()], in milliseconds *)
  dateNow : History -> Z;
  (** [Math.random()] *)
  mathRandom : History -> Q;
  (** [new Date(s).getTime()]; [None] when it is [NaN] *)
  dateParse : string -> option Z;
  (** [new Date(ms).toISOString()] *)
  toISOString : Z -> string;
  (** the answer of the remote API to [request.get()]: a body or a failure *)
  graphGet : History -> Request -> Result JsValue
}.

(** An asynchronous operation: given the history so far, an outcome and the
    requests it sent, in order. *)
Definition Op (A : Type) : Type := History -> Result A * list Request.

Definition ret {A} (a : A) : Op A := fun _ => (Ok a, []).

Definition throw {A} (e : Thrown) : Op A := fun _ => (Throw e, []).

Definition pure {A} (r : Result A) : Op A := fun _ => (r, []).

Definition bind {A B} (m : Op A) (k : A -> Op B) : Op B :=
  fun h =>
    match m h with
    | (Ok a, sent) =>
        let (r, sent') := k a (h ++ map Requested sent)%list in
        (r, (sent ++ sent')%list)
    | (Throw e, sent) => (Throw e, sent)
    end.

(** [await request.get()] *)
Definition get (rt : Runtime) (r : Request) : Op JsValue :=
  fun h => (graphGet rt h r, [r]).

(** [try { body } catch (error) { handleGraphError(error); }] *)
Definition tryCatch {A} (body : Op A) : Op A :=
  fun h =>
    match body h with
    | (Throw error, sent) => (Throw (ThrownMCP (handleGraphError error)), sent)
    | done => done
    end.

(** A run of the retry engine: the outcome and every event it produced. *)
Definition Run (A : Type) : Type := History -> Result A * list Event.

End Graph.

Import Graph.

Declare Scope op_scope.
Delimit Scope op_scope with op.
Notation "x <- m ;; k" := (bind m (fun x => k))
  (at level 61, m at next level, right associativity) : op_scope.

(* ------------------------------------------------------------------ *)
(** ** validation.ts *)

Module Validation.

Definition DEFAULT_TOP_SMALL : JsNumber := ofZ 10.
Definition DEFAULT_TOP_MEDIUM : JsNumber := ofZ 50.
Definition DEFAULT_TOP_LARGE : JsNumber := ofZ 100.
Definition MAX_TOP : JsNumber := ofZ 999.
Definition DEFAULT_DAYS : JsNumber := ofZ 30.
Definition MAX_DAYS : JsNumber := ofZ 365.

Definition invalid {A} (msg : string) : Result A :=
  Throw (ThrownMCP (mkMCPError msg INVALID_PARAMETER None)).

Definition escapeODataString (input : JsValue) : Result string :=
  match input with
  | JStr s => Ok (Str.replaceAll Str.quote "''" s)
  | _ => invalid "Input must be a string"
  end.

Definition validateString (value : JsValue) (fieldName : string) (allowEmpty : bool)
  : Result string :=
  if nullish value then invalid (fieldName ++ " is required")
  else match value with
       | JStr s =>
           if negb allowEmpty && String.eqb (Str.trim s) EmptyString
           then invalid (fieldName ++ " cannot be empty")
           else Ok s
       | _ => invalid (fieldName ++ " must be a string")
       end.

Definition validateOptionalString (value : JsValue) (fieldName : string)
  : Result (option string) :=
  if nullish value then Ok None
  else match validateString value fieldName false with
       | Ok s => Ok (Some s)
       | Throw e => Throw e
       end.

Section WithRuntime.

Variable rt : Runtime.

Definition validateTop (value : JsValue) (defaultValue maxValue : JsNumber)
  : Result JsNumber :=
  let fieldName := "top" in
  if nullish value then Ok defaultValue
  else match value with
       | JNum n =>
           if negb (isInteger n) then invalid (fieldName ++ " must be an integer")
           else if lt n (ofZ 1) then invalid (fieldName ++ " must be at least 1")
           else if gt n maxValue
           then invalid (fieldName ++ " cannot exceed " ++ numberToString rt maxValue)
           else Ok n
       | _ => invalid (fieldName ++ " must be a number")
       end.

Definition validateDays (value : JsValue) (defaultValue : JsNumber)
  : Result JsNumber :=
  if nullish value then Ok defaultValue
  else match value with
       | JNum n =>
           if negb (isInteger n) then invalid "days must be an integer"
           else if lt n (ofZ 1) then invalid "days must be at least 1"
           else if gt n MAX_DAYS
           then invalid ("days cannot exceed " ++ numberToString rt MAX_DAYS)
           else Ok n
       | _ => invalid "days must be a number"
       end.

End WithRuntime.

(** [typeof item === 'string'], with the string when it is one. *)
Definition asString (v : JsValue) : option string :=
  match v with
  | JStr s => Some s
  | _ => None
  end.

Fixpoint allStrings (items : list JsValue) : option (list string) :=
  match items with
  | [] => Some []
  | v :: rest =>
      match asString v, allStrings rest with
      | Some s, Some l => Some (s :: l)
      | _, _ => None
      end
  end.

Definition validateStringArray (value : JsValue) (fieldName : string)
  : Result (option (list string)) :=
  if nullish value then Ok None
  else match value with
       | JArr items =>
           match allStrings items with
           | None => invalid ("All items in " ++ fieldName ++ " must be strings")
           | Some [] => Ok None
           | Some l => Ok (Some l)
           end
       | _ => invalid (fieldName ++ " must be an array")
       end.

Definition dangerous : list string :=
  ["$count"; "$search"; "$format"; "$compute"; "$apply"].

(** The [for (const d of dangerous)] loop of [validateFilter]: the first
    token found, if any. *)
Fixpoint firstDangerous (lowerValue : string) (tokens : list string) : option string :=
  match tokens with
  | [] => None
  | d :: rest =>
      if Str.includes lowerValue (Str.toLowerCase d) then Some d
      else firstDangerous lowerValue rest
  end.

Definition validateFilter (value : JsValue) : Result (option string) :=
  if nullish value then Ok None
  else match value with
       | JStr s =>
           if String.eqb (Str.trim s) EmptyString then Ok None
           else
             let lowerValue := Str.toLowerCase s in
             match firstDangerous lowerValue dangerous with
             | Some d => invalid ("filter cannot contain " ++ d)
             | None => Ok (Some s)
             end
       | _ => invalid "filter must be a string"
       end.

Section WithRuntime.

Variable rt : Runtime.

(** [JSON.stringify] of an ISO-8601 string: the string between double
    quotes (none of its characters needs an escape). *)
Definition formatODataDate (date : Z) : string :=
  String Str.dquote (toISOString rt date ++ String Str.dquote EmptyString).

(** The number of days of a validated [days] value (an integer). *)
Definition wholeDays (days : JsNumber) : Z :=
  match days with
  | Fin q => (Qnum q / Zpos (Qden q))%Z
  | _ => 0%Z
  end.

Definition getDateOffset (h : History) (days : JsNumber) : Z :=
  (dateNow rt h - wholeDays days * 24 * 60 * 60 * 1000)%Z.

End WithRuntime.

Definition invalidResponse {A} (msg : string) : Result A :=
  Throw (ThrownMCP (mkMCPError msg INVALID_RESPONSE None)).

Definition validateResponse (response : JsValue) (expectArray : bool)
  : Result JsValue :=
  match response with
  | JObj fields =>
      if expectArray
      then match lookup "value" fields with
           | Some (JArr _) => Ok response
           | _ => invalidResponse "Response does not contain expected value array"
           end
      else Ok response
  | JArr _ =>
      if expectArray
      then invalidResponse "Response does not contain expected value array"
      else Ok response
  | _ => invalidResponse "Invalid response from Graph API"
  end.

End Validation.

Import Validation.

(* ------------------------------------------------------------------ *)
(** ** retry.ts *)

Module Retry.

(** [interface RetryOptions], for callers that keep to it: every field is
    absent or holds a value of its declared type (never an explicit
    [undefined]), [maxRetries] is a whole number that is not negative, and
    [shouldRetry] returns a boolean without throwing.  What the engine does
    with other option bags (a negative, fractional or [NaN] [maxRetries], a
    field set to [undefined], a callback that throws) is outside the
    model. *)
Record RetryOptions : Type := mkRetryOptions {
  o_maxRetries : option nat;
  o_baseDelay : option Q;
  o_maxDelay : option Q;
  o_useJitter : option bool;
  o_retryOnStatus : option (list Z);
  o_shouldRetry : option (Thrown -> bool)
}.

(** [Required<RetryOptions>] *)
Record RequiredRetryOptions : Type := mkRequired {
  maxRetries : nat;
  baseDelay : Q;
  maxDelay : Q;
  useJitter : bool;
  retryOnStatus : list Z;
  shouldRetry : Thrown -> bool
}.

Definition DEFAULT_RETRY_OPTIONS : RequiredRetryOptions :=
  mkRequired 3 1000 30000 true [429; 500; 502; 503; 504]%Z (fun _ => false).

(** The [options = {}] of a call that passes none. *)
Definition noOptions : RetryOptions :=
  mkRetryOptions None None None None None None.

Definition override {A} (o : option A) (d : A) : A :=
  match o with
  | Some a => a
  | None => d
  end.

(** [{ ...DEFAULT_RETRY_OPTIONS, ...options }]: a field that is present
    replaces the default. *)
Definition withDefaults (options : RetryOptions) : RequiredRetryOptions :=
  let d := DEFAULT_RETRY_OPTIONS in
  mkRequired
    (override (o_maxRetries options) (maxRetries d))
    (override (o_baseDelay options) (baseDelay d))
    (override (o_maxDelay options) (maxDelay d))
    (override (o_useJitter options) (useJitter d))
    (override (o_retryOnStatus options) (retryOnStatus d))
    (override (o_shouldRetry options) (shouldRetry d)).

(** [calculateDelay], in exact arithmetic; [random] is the value
    [Math.random()] returns when the jitter is enabled. *)
Definition calculateDelay (attempt : nat) (baseDelay maxDelay : Q)
  (useJitter : bool) (random : Q) : Q :=
  let exponentialDelay := (baseDelay * 2 ^ Z.of_nat attempt)%Q in
  let jitter :=
    if useJitter then ((random - (1 # 2)) * (1 # 2) * exponentialDelay)%Q else 0%Q in
  Qmin (exponentialDelay + jitter)%Q maxDelay.

Definition includesStatus (statuses : list Z) (s : Z) : bool :=
  existsb (Z.eqb s) statuses.

Definition isRetryable (error : Thrown) (options : RequiredRetryOptions) : bool :=
  if shouldRetry options error then true
  else if match error with
          | ThrownMCP m =>
              ErrorCode_eqb (code m) RATE_LIMITED || ErrorCode_eqb (code m) TIMEOUT
          | ThrownRaw _ => false
          end
  then true
  else match truthyStatus error with
       | Some status => includesStatus (retryOnStatus options) status
       | None =>
           codeIs error "ECONNRESET" || codeIs error "ECONNREFUSED"
           || codeIs error "ETIMEDOUT" || codeIs error "ENOTFOUND"
           || codeIs error "EAI_AGAIN"
       end.

(** [error?.response?.headers?.['retry-after']] *)
Definition retryAfterHeader (error : Thrown) : JsValue :=
  match response error with
  | Some r =>
      match r_headers r with
      | Some headers =>
          match lookup "retry-after" headers with
          | Some v => v
          | None => JUndefined
          end
      | None => JUndefined
      end
  | None => JUndefined
  end.

Section WithRuntime.

Variable rt : Runtime.

(** [getRetryAfterDelay]; [None] is [null]. *)
Definition getRetryAfterDelay (h : History) (error : Thrown) : option JsNumber :=
  let retryAfter := retryAfterHeader error in
  if negb (truthy retryAfter) then None
  else match retryAfter with
       | JNum n => Some (mul n (ofZ 1000))
       | JStr s =>
           let seconds := Str.parseInt s in
           if negb (isNaN seconds) then Some (mul seconds (ofZ 1000))
           else match dateParse rt s with
                | Some time => Some (ofZ (Z.max 0 (time - dateNow rt h)))
                | None => None
                end
       | _ => None
       end.

(** The delay the loop sleeps after a retryable failure of attempt
    [attempt]: the retry-after hint when there is one, the computed backoff
    otherwise. *)
Definition nextDelay (opts : RequiredRetryOptions) (attempt : nat) (h : History)
  (error : Thrown) : JsNumber :=
  match getRetryAfterDelay h error with
  | Some retryAfterDelay => retryAfterDelay
  | None =>
      Fin (calculateDelay attempt (baseDelay opts) (maxDelay opts) (useJitter opts)
             (mathRandom rt h))
  end.

(** What the engine throws for a failure it gives up on: an [MCPError] as
    it is, anything else as [handleGraphError] classifies it. *)
Definition surface (error : Thrown) : Thrown :=
  if isMCPError error then error else ThrownMCP (handleGraphError error).

(** [lastError] before the first failure is [undefined]. *)
Definition undefinedError : Thrown :=
  ThrownRaw (mkRawError None None None "undefined").

Definition lastOr (lastError : option Thrown) : Thrown :=
  match lastError with
  | Some e => e
  | None => undefinedError
  end.

(** The [for] loop of [retryWithBackoff] from [attempt] on, with [budget]
    iterations before [attempt <= opts.maxRetries] fails, followed by the
    code after the loop.  The line the loop writes to the error stream
    outside production is not an event of the model. *)
Fixpoint retryLoop {A} (fn : Op A) (opts : RequiredRetryOptions)
  (budget attempt : nat) (lastError : option Thrown) (h : History)
  : Result A * list Event :=
  match budget with
  | O => (Throw (surface (lastOr lastError)), [])
  | S budget' =>
      match fn (h ++ [Invoked])%list with
      | (Ok a, sent) => (Ok a, Invoked :: map Requested sent)
      | (Throw error, sent) =>
          let seen := Invoked :: map Requested sent in
          if (attempt =? maxRetries opts)%nat
          then (Throw (surface error), seen)
          else if negb (isRetryable error opts)
          then (Throw (surface error), seen)
          else
            let delay := nextDelay opts attempt (h ++ seen)%list error in
            let (r, later) :=
              retryLoop fn opts budget' (S attempt) (Some error)
                (h ++ seen ++ [Slept delay])%list in
            (r, (seen ++ Slept delay :: later)%list)
      end
  end.

Definition retryWithBackoff {A} (fn : Op A) (options : RetryOptions) : Run A :=
  fun h =>
    let opts := withDefaults options in
    retryLoop fn opts (S (maxRetries opts)) 0 None h.

End WithRuntime.

(** Observations on the events of a run. *)
Definition invocations (events : list Event) : nat :=
  length (List.filter (fun e => match e with Invoked => true | _ => false end) events).

Fixpoint sleeps (events : list Event) : list JsNumber :=
  match events with
  | [] => []
  | Slept ms :: rest => ms :: sleeps rest
  | _ :: rest => sleeps rest
  end.

Fixpoint requests (events : list Event) : list Request :=
  match events with
  | [] => []
  | Requested r :: rest => r :: requests rest
  | _ :: rest => requests rest
  end.

End Retry.

Import Retry.

(* ------------------------------------------------------------------ *)
(** ** The query builders: what they share *)

Module Tools.

(** A synchronous call that may throw, inside an asynchronous body. *)
Definition bindResult {A B} (r : Result A) (k : A -> Op B) : Op B :=
  fun h =>
    match r with
    | Ok a => k a h
    | Throw e => (Throw e, [])
    end.

(** A synchronous read of the runtime's state (the clock). *)
Definition reading {A B} (f : History -> A) (k : A -> Op B) : Op B :=
  fun h => k (f h) h.

(** [interface UserQueryOptions] and its three copies; an absent field is
    [undefined]. *)
Record QueryOptions : Type := mkQueryOptions {
  opt_top : JsValue;
  opt_filter : JsValue;
  opt_select : JsValue;
  opt_orderBy : JsValue
}.

(** A default parameter [x = d] applies to [undefined] only. *)
Definition defaultArg (v : JsValue) (d : JsNumber) : JsValue :=
  match v with
  | JUndefined => JNum d
  | _ => v
  end.

Definition typeError (msg : string) : Thrown :=
  ThrownRaw (mkRawError None None (Some msg) ("TypeError: " ++ msg)).

(** [response.value]: a [TypeError] on [undefined] and [null], [undefined]
    on a value without the property. *)
Definition getValue (response : JsValue) : Result JsValue :=
  match response with
  | JUndefined =>
      Throw (typeError "Cannot read properties of undefined (reading 'value')")
  | JNull =>
      Throw (typeError "Cannot read properties of null (reading 'value')")
  | JObj fields =>
      Ok (match lookup "value" fields with
          | Some v => v
          | None => JUndefined
          end)
  | _ => Ok JUndefined
  end.

(** [return response.value || [];] *)
Definition valueOrEmpty (response : JsValue) : Result JsValue :=
  match getValue response with
  | Ok v => Ok (if truthy v then v else JArr [])
  | Throw e => Throw e
  end.

(** [if (top) request = request.top(top);] *)
Definition topIf (t : JsNumber) (request : Request) : Request :=
  if truthy (JNum t) then withTop t request else request.

(** [if (filter) request = request.filter(filter);] *)
Definition filterIf (f : option string) (request : Request) : Request :=
  match f with
  | Some s => if truthy (JStr s) then withFilter s request else request
  | None => request
  end.

(** [if (select && select.length > 0) request = request.select(select.join(','));] *)
Definition selectIf (s : option (list string)) (request : Request) : Request :=
  match s with
  | Some (x :: l) => withSelect (Str.join "," (x :: l)) request
  | _ => request
  end.

(** [if (options.orderBy) request = request.orderby(options.orderBy);] *)
Definition orderbyIf (o : JsValue) (request : Request) : Request :=
  if truthy o then withOrderby o request else request.

End Tools.

Import Tools.

Notation "x <~ r ;; k" := (bindResult r (fun x => k))
  (at level 61, r at next level, right associativity) : op_scope.
Notation "x <@ f ;; k" := (reading f (fun x => k))
  (at level 61, f at next level, right associativity) : op_scope.

Local Open Scope op_scope.

(* ------------------------------------------------------------------ *)
(** ** tools/users.ts *)

Module UserTools.
Section WithRuntime.

Variable rt : Runtime.

Definition listUsers (options : QueryOptions) : Run JsValue :=
  retryWithBackoff rt (tryCatch (
    let request := api "/users" in
    top <~ validateTop rt (opt_top options) DEFAULT_TOP_LARGE MAX_TOP ;;
    let request := topIf top request in
    filter <~ validateFilter (opt_filter options) ;;
    let request := filterIf filter request in
    select <~ validateStringArray (opt_select options) "select" ;;
    let request := selectIf select request in
    let request := orderbyIf (opt_orderBy options) request in
    response <- get rt request ;;
    _ <~ validateResponse response true ;;
    pure (valueOrEmpty response))) noOptions.

Definition getUserById (userId select : JsValue) : Run JsValue :=
  retryWithBackoff rt (tryCatch (
    validatedUserId <~ validateString userId "userId" false ;;
    validatedSelect <~ validateStringArray select "select" ;;
    let request := api ("/users/" ++ validatedUserId) in
    let request := selectIf validatedSelect request in
    get rt request)) noOptions.

Definition getUserByPrincipalName (upn select : JsValue) : Run JsValue :=
  getUserById upn select.

Definition searchUsers (searchTerm top : JsValue) : Run JsValue :=
  let top := defaultArg top DEFAULT_TOP_SMALL in
  retryWithBackoff rt (tryCatch (
    validatedSearchTerm <~ validateString searchTerm "searchTerm" false ;;
    validatedTop <~ validateTop rt top DEFAULT_TOP_SMALL MAX_TOP ;;
    escapedTerm <~ escapeODataString (JStr validatedSearchTerm) ;;
    let filter :=
      "startswith(displayName,'" ++ escapedTerm
      ++ "') or startswith(givenName,'" ++ escapedTerm
      ++ "') or startswith(surname,'" ++ escapedTerm
      ++ "') or startswith(mail,'" ++ escapedTerm
      ++ "') or startswith(userPrincipalName,'" ++ escapedTerm ++ "')" in
    response <- get rt (withTop validatedTop (withFilter filter (api "/users"))) ;;
    _ <~ validateResponse response true ;;
    pure (valueOrEmpty response))) noOptions.

Definition getInactiveUsers (days top : JsValue) : Run JsValue :=
  let days := defaultArg days (ofZ 30) in
  let top := defaultArg top DEFAULT_TOP_LARGE in
  retryWithBackoff rt (tryCatch (
    validatedDays <~ validateDays rt days DEFAULT_DAYS ;;
    validatedTop <~ validateTop rt top DEFAULT_TOP_LARGE MAX_TOP ;;
    startDate <@ (fun h => getDateOffset rt h validatedDays) ;;
    let startDateStr := formatODataDate rt startDate in
    response <- get rt
      (withTop validatedTop
        (withSelect "id,displayName,mail,userPrincipalName,signInActivity"
          (withFilter ("signInActivity/lastSignInDateTime le " ++ startDateStr)
            (api "/users")))) ;;
    _ <~ validateResponse response true ;;
    pure (valueOrEmpty response))) noOptions.

Definition getUsersWithMFAStatus (top : JsValue) : Run JsValue :=
  let top := defaultArg top DEFAULT_TOP_LARGE in
  retryWithBackoff rt (tryCatch (
    validatedTop <~ validateTop rt top DEFAULT_TOP_LARGE MAX_TOP ;;
    response <- get rt
      (withTop validatedTop
        (withExpand "authentication($select=id,methodType,displayName)"
          (withSelect "id,displayName,mail,userPrincipalName" (api "/users")))) ;;
    _ <~ validateResponse response true ;;
    pure (valueOrEmpty response))) noOptions.

Definition getUserSignIns (userId days : JsValue) : Run JsValue :=
  let days := defaultArg days (ofZ 30) in
  retryWithBackoff rt (tryCatch (
    validatedUserId <~ validateString userId "userId" false ;;
    validatedDays <~ validateDays rt days DEFAULT_DAYS ;;
    startDate <@ (fun h => getDateOffset rt h validatedDays) ;;
    let startDateStr := formatODataDate rt startDate in
    response <- get rt
      (withOrderby (JStr "createdDateTime desc")
        (withFilter ("userId eq '" ++ validatedUserId
                     ++ "' and createdDateTime ge " ++ startDateStr)
          (api "/auditLogs/signIns"))) ;;
    _ <~ validateResponse response true ;;
    pure (valueOrEmpty response))) noOptions.

End WithRuntime.
End UserTools.

(* ------------------------------------------------------------------ *)
(** ** tools/groups.ts *)

Module GroupTools.
Section WithRuntime.

Variable rt : Runtime.

Definition listGroups (options : QueryOptions) : Run JsValue :=
  retryWithBackoff rt (tryCatch (
    let request := api "/groups" in
    top <~ validateTop rt (opt_top options) DEFAULT_TOP_LARGE MAX_TOP ;;
    let request := topIf top request in
    filter <~ validateFilter (opt_filter options) ;;
    let request := filterIf filter request in
    select <~ validateStringArray (opt_select options) "select" ;;
    let request := selectIf select request in
    let request := orderbyIf (opt_orderBy options) request in
    response <- get rt request ;;
    pure (valueOrEmpty response))) noOptions.

Definition getGroupById (groupId select : JsValue) : Run JsValue :=
  retryWithBackoff rt (tryCatch (
    validatedGroupId <~ validateString groupId "groupId" false ;;
    validatedSelect <~ validateStringArray select "select" ;;
    let request := api ("/groups/" ++ validatedGroupId) in
    let request := selectIf validatedSelect request in
    get rt request)) noOptions.

Definition getGroupMembers (groupId top : JsValue) : Run JsValue :=
  let top := defaultArg top DEFAULT_TOP_MEDIUM in
  retryWithBackoff rt (tryCatch (
    validatedGroupId <~ validateString groupId "groupId" false ;;
    validatedTop <~ validateTop rt top DEFAULT_TOP_MEDIUM MAX_TOP ;;
    response <- get rt
      (withTop validatedTop (api ("/groups/" ++ validatedGroupId ++ "/members"))) ;;
    pure (valueOrEmpty response))) noOptions.

Definition getGroupOwners (groupId top : JsValue) : Run JsValue :=
  let top := defaultArg top DEFAULT_TOP_MEDIUM in
  retryWithBackoff rt (tryCatch (
    validatedGroupId <~ validateString groupId "groupId" false ;;
    validatedTop <~ validateTop rt top DEFAULT_TOP_MEDIUM MAX_TOP ;;
    response <- get rt
      (withTop validatedTop (api ("/groups/" ++ validatedGroupId ++ "/owners"))) ;;
    pure (valueOrEmpty response))) noOptions.

Definition getUserGroups (userId top : JsValue) : Run JsValue :=
  let top := defaultArg top DEFAULT_TOP_MEDIUM in
  retryWithBackoff rt (tryCatch (
    validatedUserId <~ validateString userId "userId" false ;;
    validatedTop <~ validateTop rt top DEFAULT_TOP_MEDIUM MAX_TOP ;;
    response <- get rt
      (withTop validatedTop (api ("/users/" ++ validatedUserId ++ "/memberOf"))) ;;
    pure (valueOrEmpty response))) noOptions.

Definition searchGroups (searchTerm top : JsValue) : Run JsValue :=
  let top := defaultArg top DEFAULT_TOP_SMALL in
  retryWithBackoff rt (tryCatch (
    validatedSearchTerm <~ validateString searchTerm "searchTerm" false ;;
    validatedTop <~ validateTop rt top DEFAULT_TOP_SMALL MAX_TOP ;;
    escapedTerm <~ escapeODataString (JStr validatedSearchTerm) ;;
    let filter :=
      "startswith(displayName,'" ++ escapedTerm
      ++ "') or startswith(mail,'" ++ escapedTerm ++ "')" in
    response <- get rt (withTop validatedTop (withFilter filter (api "/groups"))) ;;
    pure (valueOrEmpty response))) noOptions.

Definition getGroupTransitiveMembers (groupId top : JsValue) : Run JsValue :=
  let top := defaultArg top DEFAULT_TOP_LARGE in
  retryWithBackoff rt (tryCatch (
    validatedGroupId <~ validateString groupId "groupId" false ;;
    validatedTop <~ validateTop rt top DEFAULT_TOP_LARGE MAX_TOP ;;
    response <- get rt
      (withTop validatedTop
        (api ("/groups/" ++ validatedGroupId ++ "/transitiveMembers"))) ;;
    pure (valueOrEmpty response))) noOptions.

End WithRuntime.
End GroupTools.

(* ------------------------------------------------------------------ *)
(** ** tools/applications.ts *)

Module ApplicationTools.
Section WithRuntime.

Variable rt : Runtime.

Definition listApplications (options : QueryOptions) : Run JsValue :=
  retryWithBackoff rt (tryCatch (
    let request := api "/applications" in
    top <~ validateTop rt (opt_top options) DEFAULT_TOP_LARGE MAX_TOP ;;
    let request := topIf top request in
    filter <~ validateFilter (opt_filter options) ;;
    let request := filterIf filter request in
    select <~ validateStringArray (opt_select options) "select" ;;
    let request := selectIf select request in
    let request := orderbyIf (opt_orderBy options) request in
    response <- get rt request ;;
    pure (valueOrEmpty response))) noOptions.

Definition getApplicationById (appId select : JsValue) : Run JsValue :=
  retryWithBackoff rt (tryCatch (
    validatedAppId <~ validateString appId "appId" false ;;
    validatedSelect <~ validateStringArray select "select" ;;
    let request := api ("/applications/" ++ validatedAppId) in
    let request := selectIf validatedSelect request in
    get rt request)) noOptions.

Definition listServicePrincipals (options : QueryOptions) : Run JsValue :=
  retryWithBackoff rt (tryCatch (
    let request := api "/servicePrincipals" in
    top <~ validateTop rt (opt_top options) DEFAULT_TOP_LARGE MAX_TOP ;;
    let request := topIf top request in
    filter <~ validateFilter (opt_filter options) ;;
    let request := filterIf filter request in
    select <~ validateStringArray (opt_select options) "select" ;;
    let request := selectIf select request in
    let request := orderbyIf (opt_orderBy options) request in
    response <- get rt request ;;
    pure (valueOrEmpty response))) noOptions.

Definition getServicePrincipalById (spId select : JsValue) : Run JsValue :=
  retryWithBackoff rt (tryCatch (
    validatedSpId <~ validateString spId "spId" false ;;
    validatedSelect <~ validateStringArray select "select" ;;
    let request := api ("/servicePrincipals/" ++ validatedSpId) in
    let request := selectIf validatedSelect request in
    get rt request)) noOptions.

Definition getApplicationOwners (appId top : JsValue) : Run JsValue :=
  let top := defaultArg top DEFAULT_TOP_MEDIUM in
  retryWithBackoff rt (tryCatch (
    validatedAppId <~ validateString appId "appId" false ;;
    validatedTop <~ validateTop rt top DEFAULT_TOP_MEDIUM MAX_TOP ;;
    response <- get rt
      (withTop validatedTop (api ("/applications/" ++ validatedAppId ++ "/owners"))) ;;
    pure (valueOrEmpty response))) noOptions.

Definition searchApplications (searchTerm top : JsValue) : Run JsValue :=
  let top := defaultArg top DEFAULT_TOP_SMALL in
  retryWithBackoff rt (tryCatch (
    validatedSearchTerm <~ validateString searchTerm "searchTerm" false ;;
    validatedTop <~ validateTop rt top DEFAULT_TOP_SMALL MAX_TOP ;;
    escapedTerm <~ escapeODataString (JStr validatedSearchTerm) ;;
    let filter :=
      "startswith(displayName,'" ++ escapedTerm
      ++ "') or startswith(appId,'" ++ escapedTerm ++ "')" in
    response <- get rt
      (withTop validatedTop (withFilter filter (api "/applications"))) ;;
    pure (valueOrEmpty response))) noOptions.

Definition getApplicationPermissions (appId : JsValue) : Run JsValue :=
  retryWithBackoff rt (tryCatch (
    validatedAppId <~ validateString appId "appId" false ;;
    get rt
      (withSelect "id,displayName,appId,requiredResourceAccess,api,oauth2PermissionScopes"
        (api ("/applications/" ++ validatedAppId))))) noOptions.

End WithRuntime.
End ApplicationTools.

(* ------------------------------------------------------------------ *)
(** ** tools/devices.ts *)

Module DeviceTools.
Section WithRuntime.

Variable rt : Runtime.

Definition listDevices (options : QueryOptions) : Run JsValue :=
  retryWithBackoff rt (tryCatch (
    let request := api "/devices" in
    top <~ validateTop rt (opt_top options) DEFAULT_TOP_LARGE MAX_TOP ;;
    let request := topIf top request in
    filter <~ validateFilter (opt_filter options) ;;
    let request := filterIf filter request in
    select <~ validateStringArray (opt_select options) "select" ;;
    let request := selectIf select request in
    let request := orderbyIf (opt_orderBy options) request in
    response <- get rt request ;;
    pure (valueOrEmpty response))) noOptions.

Definition getDeviceById (deviceId select : JsValue) : Run JsValue :=
  retryWithBackoff rt (tryCatch (
    validatedDeviceId <~ validateString deviceId "deviceId" false ;;
    validatedSelect <~ validateStringArray select "select" ;;
    let request := api ("/devices/" ++ validatedDeviceId) in
    let request := selectIf validatedSelect request in
    get rt request)) noOptions.

Definition getRegisteredOwners (deviceId top : JsValue) : Run JsValue :=
  let top := defaultArg top DEFAULT_TOP_MEDIUM in
  retryWithBackoff rt (tryCatch (
    validatedDeviceId <~ validateString deviceId "deviceId" false ;;
    validatedTop <~ validateTop rt top DEFAULT_TOP_MEDIUM MAX_TOP ;;
    response <- get rt
      (withTop validatedTop
        (api ("/devices/" ++ validatedDeviceId ++ "/registeredOwners"))) ;;
    pure (valueOrEmpty response))) noOptions.

Definition getRegisteredUsers (deviceId top : JsValue) : Run JsValue :=
  let top := defaultArg top DEFAULT_TOP_MEDIUM in
  retryWithBackoff rt (tryCatch (
    validatedDeviceId <~ validateString deviceId "deviceId" false ;;
    validatedTop <~ validateTop rt top DEFAULT_TOP_MEDIUM MAX_TOP ;;
    response <- get rt
      (withTop validatedTop
        (api ("/devices/" ++ validatedDeviceId ++ "/registeredUsers"))) ;;
    pure (valueOrEmpty response))) noOptions.

Definition getUserDevices (userId top : JsValue) : Run JsValue :=
  let top := defaultArg top DEFAULT_TOP_MEDIUM in
  retryWithBackoff rt (tryCatch (
    validatedUserId <~ validateString userId "userId" false ;;
    validatedTop <~ validateTop rt top DEFAULT_TOP_MEDIUM MAX_TOP ;;
    response <- get rt
      (withTop validatedTop (api ("/users/" ++ validatedUserId ++ "/ownedDevices"))) ;;
    pure (valueOrEmpty response))) noOptions.

Definition searchDevices (searchTerm top : JsValue) : Run JsValue :=
  let top := defaultArg top DEFAULT_TOP_SMALL in
  retryWithBackoff rt (tryCatch (
    validatedSearchTerm <~ validateString searchTerm "searchTerm" false ;;
    validatedTop <~ validateTop rt top DEFAULT_TOP_SMALL MAX_TOP ;;
    escapedTerm <~ escapeODataString (JStr validatedSearchTerm) ;;
    let filter :=
      "startswith(displayName,'" ++ escapedTerm
      ++ "') or startswith(deviceId,'" ++ escapedTerm
      ++ "') or startswith(operatingSystem,'" ++ escapedTerm ++ "')" in
    response <- get rt (withTop validatedTop (withFilter filter (api "/devices"))) ;;
    pure (valueOrEmpty response))) noOptions.

Definition getInactiveDevices (days top : JsValue) : Run JsValue :=
  let days := defaultArg days (ofZ 90) in
  let top := defaultArg top DEFAULT_TOP_LARGE in
  retryWithBackoff rt (tryCatch (
    validatedDays <~ validateDays rt days DEFAULT_DAYS ;;
    validatedTop <~ validateTop rt top DEFAULT_TOP_LARGE MAX_TOP ;;
    startDate <@ (fun h => getDateOffset rt h validatedDays) ;;
    let startDateStr := formatODataDate rt startDate in
    response <- get rt
      (withTop validatedTop
        (withSelect
          "id,displayName,deviceId,operatingSystem,operatingSystemVersion,approximateLastSignInDateTime"
          (withFilter ("approximateLastSignInDateTime le " ++ startDateStr)
            (api "/devices")))) ;;
    pure (valueOrEmpty response))) noOptions.

End WithRuntime.
End DeviceTools.

(* ------------------------------------------------------------------ *)
(** ** tools/reports.ts *)

Module ReportTools.
Section WithRuntime.

Variable rt : Runtime.

Definition getMFASummary : Run JsValue :=
  retryWithBackoff rt (tryCatch (
    get rt (api "/reports/authenticationMethods"))) noOptions.

Definition getUserRegistrationDetails (top : JsValue) : Run JsValue :=
  let top := defaultArg top DEFAULT_TOP_LARGE in
  retryWithBackoff rt (tryCatch (
    validatedTop <~ validateTop rt top DEFAULT_TOP_LARGE MAX_TOP ;;
    response <- get rt
      (withTop validatedTop (api "/reports/credentialUserRegistrationDetails")) ;;
    pure (valueOrEmpty response))) noOptions.

Definition getUserAuthMethodsSummary (top : JsValue) : Run JsValue :=
  let top := defaultArg top DEFAULT_TOP_LARGE in
  retryWithBackoff rt (tryCatch (
    validatedTop <~ validateTop rt top DEFAULT_TOP_LARGE MAX_TOP ;;
    response <- get rt
      (withTop validatedTop
        (api "/reports/authenticationMethodsUserRegistrationDetails")) ;;
    pure (valueOrEmpty response))) noOptions.

Definition getSignInsReport (days top : JsValue) : Run JsValue :=
  let days := defaultArg days (ofZ 30) in
  let top := defaultArg top DEFAULT_TOP_LARGE in
  retryWithBackoff rt (tryCatch (
    validatedDays <~ validateDays rt days DEFAULT_DAYS ;;
    validatedTop <~ validateTop rt top DEFAULT_TOP_LARGE MAX_TOP ;;
    startDate <@ (fun h => getDateOffset rt h validatedDays) ;;
    let startDateStr := formatODataDate rt startDate in
    response <- get rt
      (withTop validatedTop
        (withOrderby (JStr "createdDateTime desc")
          (withFilter ("createdDateTime ge " ++ startDateStr)
            (api "/auditLogs/signIns")))) ;;
    pure (valueOrEmpty response))) noOptions.

Definition getFailedSignInsReport (days top : JsValue) : Run JsValue :=
  let days := defaultArg days (ofZ 30) in
  let top := defaultArg top DEFAULT_TOP_LARGE in
  retryWithBackoff rt (tryCatch (
    validatedDays <~ validateDays rt days DEFAULT_DAYS ;;
    validatedTop <~ validateTop rt top DEFAULT_TOP_LARGE MAX_TOP ;;
    startDate <@ (fun h => getDateOffset rt h validatedDays) ;;
    let startDateStr := formatODataDate rt startDate in
    response <- get rt
      (withTop validatedTop
        (withOrderby (JStr "createdDateTime desc")
          (withFilter ("createdDateTime ge " ++ startDateStr
                       ++ " and status/errorCode ne 0")
            (api "/auditLogs/signIns")))) ;;
    pure (valueOrEmpty response))) noOptions.

Definition getAuditLogs (days top category : JsValue) : Run JsValue :=
  let days := defaultArg days (ofZ 30) in
  let top := defaultArg top DEFAULT_TOP_LARGE in
  retryWithBackoff rt (tryCatch (
    validatedDays <~ validateDays rt days DEFAULT_DAYS ;;
    validatedTop <~ validateTop rt top DEFAULT_TOP_LARGE MAX_TOP ;;
    validatedCategory <~ validateOptionalString category "category" ;;
    startDate <@ (fun h => getDateOffset rt h validatedDays) ;;
    let startDateStr := formatODataDate rt startDate in
    let filter := "activityDateTime ge " ++ startDateStr in
    let filter :=
      match validatedCategory with
      | Some c =>
          if truthy (JStr c)
          then
            let escapedCategory := Str.replaceAll Str.quote "''" c in
            filter ++ " and category eq '" ++ escapedCategory ++ "'"
          else filter
      | None => filter
      end in
    response <- get rt
      (withTop validatedTop
        (withOrderby (JStr "activityDateTime desc")
          (withFilter filter (api "/auditLogs/directoryAudits")))) ;;
    pure (valueOrEmpty response))) noOptions.

Definition getRiskyUsers (top : JsValue) : Run JsValue :=
  let top := defaultArg top DEFAULT_TOP_MEDIUM in
  retryWithBackoff rt (tryCatch (
    validatedTop <~ validateTop rt top DEFAULT_TOP_MEDIUM MAX_TOP ;;
    response <- get rt
      (withTop validatedTop (api "/identityProtection/riskyUsers")) ;;
    pure (valueOrEmpty response))) noOptions.

Definition getRoleAssignments (top : JsValue) : Run JsValue :=
  let top := defaultArg top DEFAULT_TOP_LARGE in
  retryWithBackoff rt (tryCatch (
    validatedTop <~ validateTop rt top DEFAULT_TOP_LARGE MAX_TOP ;;
    response <- get rt
      (withTop validatedTop
        (withExpand "principal,roleDefinition"
          (api "/roleManagement/directory/roleAssignments"))) ;;
    pure (valueOrEmpty response))) noOptions.

Definition getRoleDefinitions (top : JsValue) : Run JsValue :=
  let top := defaultArg top DEFAULT_TOP_LARGE in
  retryWithBackoff rt (tryCatch (
    validatedTop <~ validateTop rt top DEFAULT_TOP_LARGE MAX_TOP ;;
    response <- get rt
      (withTop validatedTop (api "/roleManagement/directory/roleDefinitions")) ;;
    pure (valueOrEmpty response))) noOptions.

Definition getUsersWithAdminRoles (top : JsValue) : Run JsValue :=
  let top := defaultArg top DEFAULT_TOP_LARGE in
  retryWithBackoff rt (tryCatch (
    validatedTop <~ validateTop rt top DEFAULT_TOP_LARGE MAX_TOP ;;
    response <- get rt
      (withTop validatedTop
        (withExpand
          "principal($select=id,displayName,userPrincipalName,mail),roleDefinition($select=id,displayName,description)"
          (api "/roleManagement/directory/roleAssignments"))) ;;
    pure (valueOrEmpty response))) noOptions.

Definition getLicenseUsageSummary : Run JsValue :=
  retryWithBackoff rt (tryCatch (
    response <- get rt (api "/subscribedSkus") ;;
    pure (valueOrEmpty response))) noOptions.

Definition getConditionalAccessPolicies (top : JsValue) : Run JsValue :=
  let top := defaultArg top DEFAULT_TOP_LARGE in
  retryWithBackoff rt (tryCatch (
    validatedTop <~ validateTop rt top DEFAULT_TOP_LARGE MAX_TOP ;;
    response <- get rt
      (withTop validatedTop (api "/identity/conditionalAccess/policies")) ;;
    pure (valueOrEmpty response))) noOptions.

End WithRuntime.
End ReportTools.

(* ------------------------------------------------------------------ *)
(** ** The builder operations as one catalogue *)

Module Catalog.

(** A call of a builder method with its arguments. *)
Inductive Operation : Type :=
| ListUsers (options : QueryOptions)
| GetUserById (userId select : JsValue)
| GetUserByPrincipalName (upn select : JsValue)
| SearchUsers (searchTerm top : JsValue)
| GetInactiveUsers (days top : JsValue)
| GetUsersWithMFAStatus (top : JsValue)
| GetUserSignIns (userId days : JsValue)
| ListGroups (options : QueryOptions)
| GetGroupById (groupId select : JsValue)
| GetGroupMembers (groupId top : JsValue)
| GetGroupOwners (groupId top : JsValue)
| GetUserGroups (userId top : JsValue)
| SearchGroups (searchTerm top : JsValue)
| GetGroupTransitiveMembers (groupId top : JsValue)
| ListApplications (options : QueryOptions)
| GetApplicationById (appId select : JsValue)
| ListServicePrincipals (options : QueryOptions)
| GetServicePrincipalById (spId select : JsValue)
| GetApplicationOwners (appId top : JsValue)
| SearchApplications (searchTerm top : JsValue)
| GetApplicationPermissions (appId : JsValue)
| ListDevices (options : QueryOptions)
| GetDeviceById (deviceId select : JsValue)
| GetRegisteredOwners (deviceId top : JsValue)
| GetRegisteredUsers (deviceId top : JsValue)
| GetUserDevices (userId top : JsValue)
| SearchDevices (searchTerm top : JsValue)
| GetInactiveDevices (days top : JsValue)
| GetMFASummary
| GetUserRegistrationDetails (top : JsValue)
| GetUserAuthMethodsSummary (top : JsValue)
| GetSignInsReport (days top : JsValue)
| GetFailedSignInsReport (days top : JsValue)
| GetAuditLogs (days top category : JsValue)
| GetRiskyUsers (top : JsValue)
| GetRoleAssignments (top : JsValue)
| GetRoleDefinitions (top : JsValue)
| GetUsersWithAdminRoles (top : JsValue)
| GetLicenseUsageSummary
| GetConditionalAccessPolicies (top : JsValue).

Definition run (rt : Runtime) (op : Operation) : Run JsValue :=
  match op with
  | ListUsers o => UserTools.listUsers rt o
  | GetUserById u s => UserTools.getUserById rt u s
  | GetUserByPrincipalName u s => UserTools.getUserByPrincipalName rt u s
  | SearchUsers t n => UserTools.searchUsers rt t n
  | GetInactiveUsers d n => UserTools.getInactiveUsers rt d n
  | GetUsersWithMFAStatus n => UserTools.getUsersWithMFAStatus rt n
  | GetUserSignIns u d => UserTools.getUserSignIns rt u d
  | ListGroups o => GroupTools.listGroups rt o
  | GetGroupById g s => GroupTools.getGroupById rt g s
  | GetGroupMembers g n => GroupTools.getGroupMembers rt g n
  | GetGroupOwners g n => GroupTools.getGroupOwners rt g n
  | GetUserGroups u n => GroupTools.getUserGroups rt u n
  | SearchGroups t n => GroupTools.searchGroups rt t n
  | GetGroupTransitiveMembers g n => GroupTools.getGroupTransitiveMembers rt g n
  | ListApplications o => ApplicationTools.listApplications rt o
  | GetApplicationById a s => ApplicationTools.getApplicationById rt a s
  | ListServicePrincipals o => ApplicationTools.listServicePrincipals rt o
  | GetServicePrincipalById a s => ApplicationTools.getServicePrincipalById rt a s
  | GetApplicationOwners a n => ApplicationTools.getApplicationOwners rt a n
  | SearchApplications t n => ApplicationTools.searchApplications rt t n
  | GetApplicationPermissions a => ApplicationTools.getApplicationPermissions rt a
  | ListDevices o => DeviceTools.listDevices rt o
  | GetDeviceById d s => DeviceTools.getDeviceById rt d s
  | GetRegisteredOwners d n => DeviceTools.getRegisteredOwners rt d n
  | GetRegisteredUsers d n => DeviceTools.getRegisteredUsers rt d n
  | GetUserDevices u n => DeviceTools.getUserDevices rt u n
  | SearchDevices t n => DeviceTools.searchDevices rt t n
  | GetInactiveDevices d n => DeviceTools.getInactiveDevices rt d n
  | GetMFASummary => ReportTools.getMFASummary rt
  | GetUserRegistrationDetails n => ReportTools.getUserRegistrationDetails rt n
  | GetUserAuthMethodsSummary n => ReportTools.getUserAuthMethodsSummary rt n
  | GetSignInsReport d n => ReportTools.getSignInsReport rt d n
  | GetFailedSignInsReport d n => ReportTools.getFailedSignInsReport rt d n
  | GetAuditLogs d n c => ReportTools.getAuditLogs rt d n c
  | GetRiskyUsers n => ReportTools.getRiskyUsers rt n
  | GetRoleAssignments n => ReportTools.getRoleAssignments rt n
  | GetRoleDefinitions n => ReportTools.getRoleDefinitions rt n
  | GetUsersWithAdminRoles n => ReportTools.getUsersWithAdminRoles rt n
  | GetLicenseUsageSummary => ReportTools.getLicenseUsageSummary rt
  | GetConditionalAccessPolicies n => ReportTools.getConditionalAccessPolicies rt n
  end.

(** The operations declared to return a list ([Promise<any[]>]). *)
Definition listShaped (op : Operation) : bool :=
  match op with
  | GetUserById _ _ | GetUserByPrincipalName _ _ | GetGroupById _ _
  | GetApplicationById _ _ | GetServicePrincipalById _ _
  | GetApplicationPermissions _ | GetDeviceById _ _ | GetMFASummary => false
  | _ => true
  end.

(** The operations of [UserTools] that call [validateResponse(response)]
    before they unwrap the page. *)
Definition checksEnvelope (op : Operation) : bool :=
  match op with
  | ListUsers _ | SearchUsers _ _ | GetInactiveUsers _ _
  | GetUsersWithMFAStatus _ | GetUserSignIns _ _ => true
  | _ => false
  end.

(** A runtime for examples: numbers print as [n], the clock stands at
    [clock], every date prints as [iso], and the remote API answers every
    request with [answer]. *)
Definition fixedRuntime (clock : Z) (iso : string) (answer : Result JsValue)
  : Runtime :=
  mkRuntime (fun _ => "n") (fun _ => clock) (fun _ => (1 # 2)%Q)
    (fun _ => None) (fun _ => iso) (fun _ _ => answer).

End Catalog.

Import Catalog.

(* ------------------------------------------------------------------ *)
(** ** error-handler.ts: withErrorHandling *)

Module Wrappers.

(** [withErrorHandling(fn)]: the wrapped function, called with [args]. *)
Definition withErrorHandling {X A} (fn : X -> Op A) : X -> Op A :=
  fun args h =>
    match fn args h with
    | (Throw error, sent) =>
        (Throw (if isMCPError error then error
                else ThrownMCP (handleGraphError error)), sent)
    | done => done
    end.

End Wrappers.

Import Wrappers.

(* ------------------------------------------------------------------ *)
(** ** index.ts: the handler of tool calls *)

Module Server.

(** The two built-ins the handler applies to values it does not control:
    [String(v)] and [JSON.stringify(v, null, 2)] (a string, or [undefined]
    when there is nothing to print).  Either may throw. *)
Record Host : Type := mkHost {
  jsString : JsValue -> Result string;
  jsonStringify : JsValue -> Result JsValue
}.

(** [params.key] *)
Definition param (params : list (string * JsValue)) (key : string) : JsValue :=
  match lookup key params with
  | Some v => v
  | None => JUndefined
  end.

(** [params] read as query options. *)
Definition optionsOf (params : list (string * JsValue)) : QueryOptions :=
  mkQueryOptions (param params "top") (param params "filter")
    (param params "select") (param params "orderBy").

(** A call whose first argument is [String(v)]. *)
Definition withString (host : Host) (v : JsValue) (call : JsValue -> Run JsValue)
  : Run JsValue :=
  fun h =>
    match jsString host v with
    | Ok s => call (JStr s) h
    | Throw e => (Throw e, [])
    end.

(** The [switch (name)]: the call of the case that matches, [None] for
    [default]. *)
Definition selectTool (rt : Runtime) (host : Host) (name : string)
  (params : list (string * JsValue)) : option (Run JsValue) :=
  let p := param params in
  let named := String.eqb name in
  if named "list_users" then Some (UserTools.listUsers rt (optionsOf params))
  else if named "get_user"
  then Some (withString host (p "userId") (fun userId =>
               UserTools.getUserById rt userId (p "select")))
  else if named "search_users"
  then Some (withString host (p "searchTerm") (fun searchTerm =>
               UserTools.searchUsers rt searchTerm (p "top")))
  else if named "get_inactive_users"
  then Some (UserTools.getInactiveUsers rt (p "days") (p "top"))
  else if named "get_users_mfa_status"
  then Some (UserTools.getUsersWithMFAStatus rt (p "top"))
  else if named "get_user_sign_ins"
  then Some (withString host (p "userId") (fun userId =>
               UserTools.getUserSignIns rt userId (p "days")))
  else if named "list_groups" then Some (GroupTools.listGroups rt (optionsOf params))
  else if named "get_group_members"
  then Some (withString host (p "groupId") (fun groupId =>
               GroupTools.getGroupMembers rt groupId (p "top")))
  else if named "get_user_groups"
  then Some (withString host (p "userId") (fun userId =>
               GroupTools.getUserGroups rt userId (p "top")))
  else if named "search_groups"
  then Some (withString host (p "searchTerm") (fun searchTerm =>
               GroupTools.searchGroups rt searchTerm (p "top")))
  else if named "list_applications"
  then Some (ApplicationTools.listApplications rt (optionsOf params))
  else if named "list_service_principals"
  then Some (ApplicationTools.listServicePrincipals rt (optionsOf params))
  else if named "search_applications"
  then Some (withString host (p "searchTerm") (fun searchTerm =>
               ApplicationTools.searchApplications rt searchTerm (p "top")))
  else if named "get_application_permissions"
  then Some (withString host (p "appId") (fun appId =>
               ApplicationTools.getApplicationPermissions rt appId))
  else if named "list_devices" then Some (DeviceTools.listDevices rt (optionsOf params))
  else if named "search_devices"
  then Some (withString host (p "searchTerm") (fun searchTerm =>
               DeviceTools.searchDevices rt searchTerm (p "top")))
  else if named "get_inactive_devices"
  then Some (DeviceTools.getInactiveDevices rt (p "days") (p "top"))
  else if named "get_user_devices"
  then Some (withString host (p "userId") (fun userId =>
               DeviceTools.getUserDevices rt userId (p "top")))
  else if named "get_mfa_summary" then Some (ReportTools.getMFASummary rt)
  else if named "get_user_registration_details"
  then Some (ReportTools.getUserRegistrationDetails rt (p "top"))
  else if named "get_sign_ins_report"
  then Some (ReportTools.getSignInsReport rt (p "days") (p "top"))
  else if named "get_failed_sign_ins"
  then Some (ReportTools.getFailedSignInsReport rt (p "days") (p "top"))
  else if named "get_audit_logs"
  then Some (ReportTools.getAuditLogs rt (p "days") (p "top") (p "category"))
  else if named "get_risky_users" then Some (ReportTools.getRiskyUsers rt (p "top"))
  else if named "get_users_with_admin_roles"
  then Some (ReportTools.getUsersWithAdminRoles rt (p "top"))
  else if named "get_license_usage" then Some (ReportTools.getLicenseUsageSummary rt)
  else if named "get_conditional_access_policies"
  then Some (ReportTools.getConditionalAccessPolicies rt (p "top"))
  else if named "get_role_definitions"
  then Some (ReportTools.getRoleDefinitions rt (p "top"))
  else None.

(** [error instanceof Error ? error.message : String(error)]; a thrown
    value that has a message is taken for an [Error]. *)
Definition describe (error : Thrown) : string :=
  match errMessage error with
  | Some m => m
  | None => errString error
  end.

(** The handler of [CallToolRequestSchema]: the text of the answer, or what
    the handler throws. *)
Definition callTool (rt : Runtime) (host : Host) (name : string)
  (args : option (list (string * JsValue))) : Run JsValue :=
  fun h =>
    let params := match args with Some a => a | None => [] end in
    let tried :=
      match selectTool rt host name params with
      | Some call =>
          match call h with
          | (Ok value, events) => (jsonStringify host value, events)
          | (Throw e, events) => (Throw e, events)
          end
      | None =>
          (Throw (ThrownMCP (mkMCPError ("Unknown tool: " ++ name)
                               INVALID_PARAMETER None)), [])
      end in
    match tried with
    | (Throw error, events) =>
        (Throw (if isMCPError error then error
                else ThrownMCP (mkMCPError
                       ("Error executing tool " ++ name ++ ": " ++ describe error)
                       INTERNAL_ERROR None)), events)
    | done => done
    end.

(** The names the handler's [switch] knows. *)
Definition toolNames : list string :=
  ["list_users"; "get_user"; "search_users"; "get_inactive_users";
   "get_users_mfa_status"; "get_user_sign_ins"; "list_groups";
   "get_group_members"; "get_user_groups"; "search_groups"; "list_applications";
   "list_service_principals"; "search_applications";
   "get_application_permissions"; "list_devices"; "search_devices";
   "get_inactive_devices"; "get_user_devices"; "get_mfa_summary";
   "get_user_registration_details"; "get_sign_ins_report"; "get_failed_sign_ins";
   "get_audit_logs"; "get_risky_users"; "get_users_with_admin_roles";
   "get_license_usage"; "get_conditional_access_policies"; "get_role_definitions"].

(** A host whose built-ins never throw: [String] prints [undefined],
    [null] and strings as JavaScript does and everything else as [?], and
    the JSON printer prints everything as [json]. *)
Definition plainHost : Host :=
  mkHost
    (fun v => Ok (match v with
                  | JUndefined => "undefined"
                  | JNull => "null"
                  | JStr s => s
                  | _ => "?"
                  end))
    (fun _ => Ok (JStr "json")).

End Server.

Import Server.

(* ================================================================== *)
(** * Properties *)

(** ** Vocabulary of the statements *)

(** The operation throws an [MCPError] of the given kind. *)
Definition failsWith {A} (r : Result A) (kind : ErrorCode) : Prop :=
  exists m, r = Throw (ThrownMCP m) /\ code m = kind.

(** The number of single quotes of a string. *)
Fixpoint countQuotes (s : string) : nat :=
  match s with
  | EmptyString => 0
  | String c rest =>
      if Ascii.eqb c Str.quote then S (countQuotes rest) else countQuotes rest
  end.

(** The characters of a string that are not single quotes, in order. *)
Fixpoint withoutQuotes (s : string) : string :=
  match s with
  | EmptyString => EmptyString
  | String c rest =>
      if Ascii.eqb c Str.quote then withoutQuotes rest
      else String c (withoutQuotes rest)
  end.

(** Reading an escaped literal back: each pair of quotes stands for one. *)
Fixpoint unescape (s : string) : string :=
  match s with
  | EmptyString => EmptyString
  | String c rest =>
      String c (if Ascii.eqb c Str.quote
                then match rest with
                     | String d rest' =>
                         if Ascii.eqb d Str.quote then unescape rest' else unescape rest
                     | EmptyString => EmptyString
                     end
                else unescape rest)
  end.

(** A rational that is a whole number. *)
Definition isWhole (q : Q) : Prop := exists z : Z, (q == inject_Z z)%Q.

(** The string with the given bytes. *)
Definition bytes (codes : list nat) : string :=
  string_of_list_ascii (map ascii_of_nat codes).

(** The white space of ECMAScript, each character as its UTF-8 bytes: TAB,
    LF, VT, FF, CR, SPACE, U+00A0, U+1680, U+2000 to U+200A, U+2028,
    U+2029, U+202F, U+205F, U+3000 and U+FEFF. *)
Definition whiteSpace : list string :=
  map bytes
    [[9]; [10]; [11]; [12]; [13]; [32];
     [194; 160];
     [225; 154; 128];
     [226; 128; 128]; [226; 128; 129]; [226; 128; 130]; [226; 128; 131];
     [226; 128; 132]; [226; 128; 133]; [226; 128; 134]; [226; 128; 135];
     [226; 128; 136]; [226; 128; 137]; [226; 128; 138];
     [226; 128; 168]; [226; 128; 169]; [226; 128; 175];
     [226; 129; 159];
     [227; 128; 128];
     [239; 187; 191]].

(** A string made of white space only (the empty string included). *)
Inductive blank : string -> Prop :=
| blank_empty : blank EmptyString
| blank_space (w rest : string) :
    In w whiteSpace -> blank rest -> blank (w ++ rest).

(** The bytes that occur in white space. *)
Definition spaceByte (c : ascii) : bool :=
  existsb (fun w => existsb (Ascii.eqb c) (list_ascii_of_string w)) whiteSpace.

(** A capital letter of the ASCII range. *)
Definition isCapital (c : ascii) : Prop :=
  (65 <= nat_of_ascii c <= 90)%nat.

(** The same character, or the capital and the small form of one letter. *)
Definition sameLetter (a b : ascii) : Prop :=
  a = b
  \/ (isCapital a /\ nat_of_ascii b = (nat_of_ascii a + 32)%nat)
  \/ (isCapital b /\ nat_of_ascii a = (nat_of_ascii b + 32)%nat).

(** Equal strings, letter case ignored. *)
Fixpoint equalIgnoringCase (a b : string) : Prop :=
  match a, b with
  | EmptyString, EmptyString => True
  | String x a', String y b' => sameLetter x y /\ equalIgnoringCase a' b'
  | _, _ => False
  end.

(** [s] contains [token] at some position, letter case ignored. *)
Definition containsIgnoringCase (s token : string) : Prop :=
  exists before found after,
    s = before ++ found ++ after /\ equalIgnoringCase found token.

(** A transport failure whose response carries the given HTTP status. *)
Definition hasStatus (e : Thrown) (status : Z) : Prop :=
  exists raw resp,
    e = ThrownRaw raw /\ e_response raw = Some resp /\ r_status resp = Some status.



(** The failure carries a vendor envelope with the given code. *)
Definition hasVendorCode (e : Thrown) (vendorCode : string) : Prop :=
  exists resp graphError,
    response e = Some resp /\ r_error resp = Some graphError
    /\ ge_code graphError = Some vendorCode.

(** The failure's response carries the header [retry-after] with value
    [v]. *)
Definition carriesRetryAfter (e : Thrown) (v : JsValue) : Prop :=
  exists resp headers,
    response e = Some resp /\ r_headers resp = Some headers
    /\ lookup "retry-after" headers = Some v.

(** The number is the finite value [ms]. *)
Definition isMillis (d : JsNumber) (ms : Q) : Prop :=
  match d with
  | Fin q => (q == ms)%Q
  | _ => False
  end.

(** Test doubles: a transport failure with an HTTP status, an optional
    vendor code and an optional [retry-after] header, and the operation
    that fails with it at every invocation. *)
Definition transportFailure (status : Z) (vendorCode : option string)
  (retryAfter : option JsValue) : Thrown :=
  ThrownRaw (mkRawError
    (Some (mkResponse
       (match vendorCode with
        | Some c => Some (mkGraphError (Some c) (Some "vendor message") JUndefined)
        | None => None
        end)
       (Some status)
       (match retryAfter with
        | Some v => Some [("retry-after", v)]
        | None => None
        end)))
    None (Some "request failed") "Error: request failed").

Definition alwaysFailing (e : Thrown) : Op JsValue := fun _ => (Throw e, []).

(** The outcome of a validator: a value, or an [MCPError] of kind
    [INVALID_PARAMETER]. *)
Definition onlyInvalid {A} (r : Result A) : Prop :=
  match r with
  | Ok _ => True
  | Throw e => exists m, e = ThrownMCP m /\ code m = INVALID_PARAMETER
  end.

(** What [UserTools] does with a page: [validateResponse(response)], then
    [response.value || []]. *)
Definition checkedPage (response : JsValue) : Result JsValue :=
  match validateResponse response true with
  | Ok _ => valueOrEmpty response
  | Throw e => Throw e
  end.

(** The shape every builder body has: synchronous validations and reads of
    the clock, then one request, then [post] applied to the response. *)
Inductive Builder (rt : Runtime) : (JsValue -> Result JsValue) -> Op JsValue -> Prop :=
| Builder_validate {A} (post : JsValue -> Result JsValue) (r : Result A)
    (k : A -> Op JsValue) :
    onlyInvalid r -> (forall a, Builder rt post (k a)) ->
    Builder rt post (bindResult r k)
| Builder_reading {A} (post : JsValue -> Result JsValue) (f : History -> A)
    (k : A -> Op JsValue) :
    (forall a, Builder rt post (k a)) -> Builder rt post (reading f k)
| Builder_whole (request : Request) :
    Builder rt Ok (get rt request)
| Builder_page (request : Request) :
    Builder rt valueOrEmpty
      (bind (get rt request) (fun response => pure (valueOrEmpty response)))
| Builder_checked (request : Request) :
    Builder rt checkedPage
      (bind (get rt request) (fun response =>
         bindResult (validateResponse response true) (fun _ =>
           pure (valueOrEmpty response)))).

(** How each operation treats the response. *)
Definition postOf (op : Operation) : JsValue -> Result JsValue :=
  if listShaped op
  then if checksEnvelope op then checkedPage else valueOrEmpty
  else Ok.

(** Query options with every field absent. *)
Definition noQueryOptions : QueryOptions :=
  mkQueryOptions JUndefined JUndefined JUndefined JUndefined.

(** A runtime whose remote API answers every request with the empty
    object: a page envelope without [value]. *)
Definition emptyPageRuntime : Runtime :=
  fixedRuntime 0 EmptyString (Ok (JObj [])).

(** The filter of the first request of a run, when there is one. *)
Definition firstFilter (run : Result JsValue * list Event) : option string :=
  match requests (snd run) with
  | request :: _ => filter request
  | [] => None
  end.

(** The operation throws an [MCPError] (of whatever kind). *)
Definition throwsMCPError {A} (r : Result A) : Prop :=
  exists m, r = Throw (ThrownMCP m).

(** A whole number between 1 and [hi]. *)
Definition wholeBetween1And (hi : Q) (n : JsNumber) : Prop :=
  exists q, n = Fin q /\ isWhole q /\ (1 <= q)%Q /\ (q <= hi)%Q.

(** A page envelope: an object whose [value] is an array. *)
Definition pageEnvelope (response : JsValue) (items : list JsValue) : Prop :=
  exists fields, response = JObj fields /\ lookup "value" fields = Some (JArr items).

(** An object or an array: what [typeof] calls an object, [null] apart. *)
Definition isObjectValue (v : JsValue) : Prop :=
  (exists fields, v = JObj fields) \/ (exists items, v = JArr items).

(** A transport failure without a response: only its network code,
    message and rendering are known. *)
Definition networkFailure (networkCode : option string) (msg : option string)
  (rendering : string) : Thrown :=
  ThrownRaw (mkRawError None networkCode msg rendering).

(** A transport failure whose response carries a status and nothing else
    the classifier reads. *)
Definition statusFailure (status : Z) (networkCode : option string)
  (msg : option string) (rendering : string) : Thrown :=
  ThrownRaw (mkRawError (Some (mkResponse None (Some status) None))
               networkCode msg rendering).

(** The page size of a request, when it has one, is a whole number between
    1 and 999. *)
Definition topInRange (request : Request) : Prop :=
  match top request with
  | Some n => wholeBetween1And 999 n
  | None => True
  end.

(** A body of the builder shape all of whose requests satisfy [P], where
    each validation may be assumed to have passed for what follows it. *)
Inductive Sends (rt : Runtime) (P : Request -> Prop) : Op JsValue -> Prop :=
| Sends_validate {A} (r : Result A) (k : A -> Op JsValue) :
    (forall a, r = Ok a -> Sends rt P (k a)) -> Sends rt P (bindResult r k)
| Sends_reading {A} (f : History -> A) (k : A -> Op JsValue) :
    (forall a, Sends rt P (k a)) -> Sends rt P (reading f k)
| Sends_whole (request : Request) :
    P request -> Sends rt P (get rt request)
| Sends_page (request : Request) :
    P request ->
    Sends rt P (bind (get rt request) (fun response => pure (valueOrEmpty response)))
| Sends_checked (request : Request) :
    P request ->
    Sends rt P
      (bind (get rt request) (fun response =>
         bindResult (validateResponse response true) (fun _ =>
           pure (valueOrEmpty response)))).

(** A delay of at most [cap] milliseconds. *)
Definition atMost (cap : Q) (d : JsNumber) : Prop :=
  exists q, d = Fin q /\ (q <= cap)%Q.

(** The first request of a run, when there is one. *)
Definition firstRequest (run : Result JsValue * list Event) : option Request :=
  match requests (snd run) with
  | request :: _ => Some request
  | [] => None
  end.

(** A runtime whose remote API fails every request with [e]. *)
Definition failingRuntime (e : Thrown) : Runtime :=
  fixedRuntime 0 EmptyString (Throw e).

(** The kinds [handleGraphError] gives to what it throws. *)
Definition handledKinds : list ErrorCode :=
  [UNAUTHORIZED; FORBIDDEN; NOT_FOUND; RATE_LIMITED; INVALID_PARAMETER; TIMEOUT;
   GRAPH_API_ERROR; NETWORK_ERROR; UNKNOWN_ERROR].

(** A thrown value that [handleGraphError] made. *)
Definition handled (e : Thrown) : Prop :=
  exists cause, e = ThrownMCP (handleGraphError cause).

(** One of the host's built-ins throws on some value. *)
Definition hostThrows (host : Host) : Prop :=
  exists v e, jsString host v = Throw e \/ jsonStringify host v = Throw e.

(** The cases of the handler's [switch] call an operation, some of them
    after [String] has printed the first argument. *)
Inductive Dispatched (rt : Runtime) (host : Host) : Run JsValue -> Prop :=
| Dispatched_op (op : Operation) : Dispatched rt host (run rt op)
| Dispatched_string (v : JsValue) (k : JsValue -> Run JsValue) :
    (forall s, exists op, k (JStr s) = run rt op) ->
    Dispatched rt host (withString host v k).

(* ------------------------------------------------------------------ *)
(** ** escapeODataString *)

Section Escaping.

Let escaped (s : string) : string := Str.replaceAll Str.quote "''" s.

Lemma escaped_cons_quote (s : string) :
  escaped (String Str.quote s) = String Str.quote (String Str.quote (escaped s)).
Proof. reflexivity. Qed.

Lemma escaped_cons_other (c : ascii) (s : string) :
  Ascii.eqb c Str.quote = false ->
  escaped (String c s) = String c (escaped s).
Proof. intros Hc. unfold escaped. simpl. rewrite Hc. reflexivity. Qed.

Lemma countQuotes_escaped (s : string) :
  countQuotes (escaped s) = 2 * countQuotes s.
Proof.
  induction s as [|c s IH]; [reflexivity|].
  destruct (Ascii.eqb c Str.quote) eqn:Hc.
  - apply Ascii.eqb_eq in Hc. subst c.
    rewrite escaped_cons_quote. simpl. rewrite IH. lia.
  - rewrite escaped_cons_other by assumption.
    simpl. rewrite Hc. exact IH.
Qed.

Lemma withoutQuotes_escaped (s : string) :
  withoutQuotes (escaped s) = withoutQuotes s.
Proof.
  induction s as [|c s IH]; [reflexivity|].
  destruct (Ascii.eqb c Str.quote) eqn:Hc.
  - apply Ascii.eqb_eq in Hc. subst c.
    rewrite escaped_cons_quote. simpl. exact IH.
  - rewrite escaped_cons_other by assumption.
    simpl. rewrite Hc, IH. reflexivity.
Qed.

Lemma unescape_escaped (s : string) : unescape (escaped s) = s.
Proof.
  induction s as [|c s IH]; [reflexivity|].
  destruct (Ascii.eqb c Str.quote) eqn:Hc.
  - apply Ascii.eqb_eq in Hc. subst c.
    rewrite escaped_cons_quote. simpl. rewrite IH. reflexivity.
  - rewrite escaped_cons_other by assumption.
    simpl. rewrite Hc, IH. reflexivity.
Qed.

Lemma length_escaped (s : string) :
  String.length (escaped s) = String.length s + countQuotes s.
Proof.
  induction s as [|c s IH]; [reflexivity|].
  destruct (Ascii.eqb c Str.quote) eqn:Hc.
  - apply Ascii.eqb_eq in Hc. subst c.
    rewrite escaped_cons_quote. simpl. rewrite IH. lia.
  - rewrite escaped_cons_other by assumption.
    simpl. rewrite Hc, IH. reflexivity.
Qed.

(** C9.  On every string, [escapeODataString] returns a string with
    exactly twice as many single quotes as its input, whose other
    characters are those of the input in the same order, and from which the
    input is read back by taking each pair of quotes for one; it is longer
    than the input by the number of quotes. *)
Theorem escapeODataString_doubles_every_quote (s : string) :
  exists out,
    escapeODataString (JStr s) = Ok out
    /\ countQuotes out = 2 * countQuotes s
    /\ withoutQuotes out = withoutQuotes s
    /\ unescape out = s
    /\ String.length out = String.length s + countQuotes s.
Proof.
  exists (escaped s). split; [reflexivity|].
  repeat split.
  - apply countQuotes_escaped.
  - apply withoutQuotes_escaped.
  - apply unescape_escaped.
  - apply length_escaped.
Qed.

End Escaping.

(* ------------------------------------------------------------------ *)
(** ** validateTop *)

Lemma isInteger_whole (q : Q) : isInteger (Fin q) = true <-> isWhole q.
Proof.
  unfold isInteger, isWhole. rewrite Z.eqb_eq. split.
  - intros Hmod. exists (Qnum q / Zpos (Qden q))%Z.
    unfold Qeq, inject_Z. simpl.
    apply Z.div_exact in Hmod; [|discriminate]. lia.
  - intros [z Hz]. unfold Qeq, inject_Z in Hz. simpl in Hz.
    rewrite Z.mul_1_r in Hz. rewrite Hz. apply Z.mod_mul. discriminate.
Qed.

Lemma lt_Fin (x y : Q) : lt (Fin x) (Fin y) = true <-> (x < y)%Q.
Proof.
  unfold lt. rewrite negb_true_iff. split.
  - intros H. apply Qnot_le_lt. intros Hle.
    apply Qle_bool_iff in Hle. congruence.
  - intros H. destruct (Qle_bool y x) eqn:E; [|reflexivity].
    apply Qle_bool_iff in E. exfalso. exact (Qlt_not_le _ _ H E).
Qed.

Lemma lt_Fin_false (x y : Q) : lt (Fin x) (Fin y) = false <-> (y <= x)%Q.
Proof.
  unfold lt. rewrite negb_false_iff. apply Qle_bool_iff.
Qed.

Lemma invalid_failsWith {A} (msg : string) :
  failsWith (@invalid A msg) INVALID_PARAMETER.
Proof. eexists. split; reflexivity. Qed.

(** C8.  With the maximum 999: a whole number between 1 and 999 is returned
    as it is; zero, a negative number, a number that is not whole
    ([NaN] and the infinities included), a number above 999 and a value that
    is not a number all fail with [INVALID_PARAMETER]; [undefined] and [null]
    give the default. *)
Theorem validateTop_contract (rt : Runtime) (defaultValue : JsNumber) :
  (forall q : Q, isWhole q -> (1 <= q)%Q -> (q <= 999)%Q ->
     validateTop rt (JNum (Fin q)) defaultValue MAX_TOP = Ok (Fin q))
  /\ (forall q : Q, (q == 0 \/ q < 0 \/ ~ isWhole q \/ 999 < q)%Q ->
        failsWith (validateTop rt (JNum (Fin q)) defaultValue MAX_TOP)
          INVALID_PARAMETER)
  /\ failsWith (validateTop rt (JNum NaN) defaultValue MAX_TOP) INVALID_PARAMETER
  /\ (forall negative,
        failsWith (validateTop rt (JNum (Inf negative)) defaultValue MAX_TOP)
          INVALID_PARAMETER)
  /\ (forall v, nullish v = false -> (forall n, v <> JNum n) ->
        failsWith (validateTop rt v defaultValue MAX_TOP) INVALID_PARAMETER)
  /\ validateTop rt JUndefined defaultValue MAX_TOP = Ok defaultValue
  /\ validateTop rt JNull defaultValue MAX_TOP = Ok defaultValue.
Proof.
  repeat split.
  - intros q Hw H1 H999. unfold validateTop. simpl nullish. cbv iota.
    apply isInteger_whole in Hw. rewrite Hw. simpl negb. cbv iota.
    assert (Hlo : lt (Fin q) (ofZ 1) = false) by (apply lt_Fin_false; exact H1).
    rewrite Hlo.
    assert (Hhi : gt (Fin q) MAX_TOP = false)
      by (unfold gt; apply lt_Fin_false; exact H999).
    rewrite Hhi. reflexivity.
  - intros q Hq. unfold validateTop. simpl nullish. cbv iota.
    destruct (isInteger (Fin q)) eqn:Hint; simpl negb; cbv iota;
      [|apply invalid_failsWith].
    destruct (lt (Fin q) (ofZ 1)) eqn:Hlo; [apply invalid_failsWith|].
    destruct (gt (Fin q) MAX_TOP) eqn:Hhi; [apply invalid_failsWith|].
    exfalso. apply lt_Fin_false in Hlo. unfold gt in Hhi.
    apply lt_Fin_false in Hhi. apply isInteger_whole in Hint.
    destruct Hq as [H0 | [Hneg | [Hnw | Hbig]]].
    + rewrite H0 in Hlo. revert Hlo. apply Qlt_not_le. reflexivity.
    + apply (Qlt_not_le _ _ Hneg). eapply Qle_trans; [|exact Hlo]. discriminate.
    + exact (Hnw Hint).
    + exact (Qlt_not_le _ _ Hbig Hhi).
  - apply invalid_failsWith.
  - intros negative. apply invalid_failsWith.
  - intros v Hn Hv. unfold validateTop. rewrite Hn.
    destruct v; try apply invalid_failsWith. exfalso. exact (Hv n eq_refl).
Qed.

(** A run of C8 at 5 (kept), 0 and 1000 (refused) and the string ["5"]
    (refused). *)
Lemma validateTop_contract_witness :
  let rt := fixedRuntime 0 EmptyString (Ok JNull) in
  validateTop rt (JNum (Fin 5)) DEFAULT_TOP_LARGE MAX_TOP = Ok (Fin 5)
  /\ failsWith (validateTop rt (JNum (Fin 0)) DEFAULT_TOP_LARGE MAX_TOP)
       INVALID_PARAMETER
  /\ failsWith (validateTop rt (JNum (Fin 1000)) DEFAULT_TOP_LARGE MAX_TOP)
       INVALID_PARAMETER
  /\ failsWith (validateTop rt (JStr "5") DEFAULT_TOP_LARGE MAX_TOP)
       INVALID_PARAMETER.
Proof.
  intros rt.
  destruct (validateTop_contract rt DEFAULT_TOP_LARGE)
    as [Hkeep [Hrefuse [_ [_ [Hother _]]]]].
  split; [|split; [|split]].
  - apply Hkeep.
    + exists 5%Z. reflexivity.
    + discriminate.
    + discriminate.
  - apply Hrefuse. left. reflexivity.
  - apply Hrefuse. right. right. right. reflexivity.
  - apply Hother; [reflexivity | discriminate].
Defined.

(* ------------------------------------------------------------------ *)
(** ** validateFilter *)

Lemma toLowerCase_app (a b : string) :
  Str.toLowerCase (a ++ b) = Str.toLowerCase a ++ Str.toLowerCase b.
Proof.
  induction a as [|c a IH]; simpl; [reflexivity|]. rewrite IH. reflexivity.
Qed.

Lemma toLowerCase_length (s : string) :
  String.length (Str.toLowerCase s) = String.length s.
Proof.
  induction s as [|c s IH]; simpl; [reflexivity|]. rewrite IH. reflexivity.
Qed.

(** A lowered string that splits in two comes from a split of the
    original. *)
Lemma toLowerCase_split (s x y : string) :
  Str.toLowerCase s = x ++ y ->
  exists a b, s = a ++ b /\ Str.toLowerCase a = x /\ Str.toLowerCase b = y.
Proof.
  revert s. induction x as [|c x IH]; intros s H.
  - exists EmptyString, s. simpl in H. auto.
  - destruct s as [|d s]; simpl in H; [discriminate|].
    injection H as Hc Hrest.
    destruct (IH s Hrest) as [a [b [Hs [Ha Hb]]]].
    exists (String d a), b. simpl. subst. auto.
Qed.

Lemma startsWith_spec (p s : string) :
  Str.startsWith p s = true <-> exists rest, s = p ++ rest.
Proof.
  revert s. induction p as [|a p IH]; intros s; simpl.
  - split; [intros _; exists s; reflexivity | reflexivity].
  - destruct s as [|b s].
    + split; [discriminate | intros [rest H]; discriminate].
    + rewrite andb_true_iff, Ascii.eqb_eq, IH. split.
      * intros [Hab [rest Hs]]. exists rest. subst. reflexivity.
      * intros [rest H]. injection H as Hb Hs. subst. split; [reflexivity|].
        exists rest. reflexivity.
Qed.

Lemma includes_spec (s p : string) :
  Str.includes s p = true <-> exists before after, s = before ++ p ++ after.
Proof.
  induction s as [|c s IH].
  - simpl. rewrite orb_false_r, startsWith_spec. split.
    + intros [rest H]. exists EmptyString, rest. exact H.
    + intros [before [after H]].
      destruct before; [exists after; exact H | discriminate].
  - simpl. rewrite orb_true_iff, startsWith_spec, IH. split.
    + intros [[rest H] | [before [after H]]].
      * exists EmptyString, rest. exact H.
      * exists (String c before), after. simpl. rewrite H. reflexivity.
    + intros [before [after H]]. destruct before as [|d before].
      * left. exists after. exact H.
      * right. injection H as Hc Hs. exists before, after. exact Hs.
Qed.

Lemma lowerChar_capital (c : ascii) :
  isCapital c -> Str.lowerChar c = ascii_of_nat (nat_of_ascii c + 32).
Proof.
  intros [Hlo Hhi]. unfold Str.lowerChar.
  apply Nat.leb_le in Hlo. apply Nat.leb_le in Hhi. rewrite Hlo, Hhi. reflexivity.
Qed.

Lemma lowerChar_other (c : ascii) : ~ isCapital c -> Str.lowerChar c = c.
Proof.
  intros Hc. unfold Str.lowerChar.
  destruct (Nat.leb_spec 65 (nat_of_ascii c));
    destruct (Nat.leb_spec (nat_of_ascii c) 90); simpl; try reflexivity.
  exfalso. apply Hc. split; assumption.
Qed.

Lemma isCapital_dec (c : ascii) : isCapital c \/ ~ isCapital c.
Proof. unfold isCapital. lia. Qed.

Lemma nat_of_ascii_inj (a b : ascii) : nat_of_ascii a = nat_of_ascii b -> a = b.
Proof.
  intros H. rewrite <- (ascii_nat_embedding a), <- (ascii_nat_embedding b), H.
  reflexivity.
Qed.

(** Two characters are the same letter exactly when [toLowerCase] sends
    them to the same character. *)
Lemma sameLetter_lower (a b : ascii) :
  sameLetter a b <-> Str.lowerChar a = Str.lowerChar b.
Proof.
  pose proof (nat_ascii_bounded a) as Ba. pose proof (nat_ascii_bounded b) as Bb.
  split.
  - intros [-> | [[Ha Hb] | [Hb Ha]]]; [reflexivity | |].
    + rewrite (lowerChar_capital a Ha), lowerChar_other.
      * rewrite <- Hb. apply ascii_nat_embedding.
      * unfold isCapital in *. lia.
    + rewrite (lowerChar_capital b Hb), lowerChar_other.
      * rewrite <- Ha. symmetry. apply ascii_nat_embedding.
      * unfold isCapital in *. lia.
  - intros H.
    destruct (isCapital_dec a) as [Ha | Ha]; destruct (isCapital_dec b) as [Hb | Hb].
    + rewrite (lowerChar_capital a Ha), (lowerChar_capital b Hb) in H.
      apply (f_equal nat_of_ascii) in H.
      unfold isCapital in *. rewrite !nat_ascii_embedding in H by lia.
      left. apply nat_of_ascii_inj. lia.
    + rewrite (lowerChar_capital a Ha), (lowerChar_other b Hb) in H.
      right. left. split; [exact Ha|]. rewrite <- H.
      unfold isCapital in *. apply nat_ascii_embedding. lia.
    + rewrite (lowerChar_other a Ha), (lowerChar_capital b Hb) in H.
      right. right. split; [exact Hb|]. rewrite H.
      unfold isCapital in *. apply nat_ascii_embedding. lia.
    + rewrite (lowerChar_other a Ha), (lowerChar_other b Hb) in H. left. exact H.
Qed.

Lemma equalIgnoringCase_lower (a b : string) :
  equalIgnoringCase a b <-> Str.toLowerCase a = Str.toLowerCase b.
Proof.
  revert b. induction a as [|x a IH]; intros [|y b]; simpl;
    try (split; [tauto | discriminate]); try tauto.
  rewrite sameLetter_lower, IH. split.
  - intros [-> ->]. reflexivity.
  - intros H. injection H as Hc Hs. auto.
Qed.

(** What the code tests is what the statement calls containing a token. *)
Lemma includes_lower_spec (s token : string) :
  Str.includes (Str.toLowerCase s) (Str.toLowerCase token) = true
  <-> containsIgnoringCase s token.
Proof.
  rewrite includes_spec. unfold containsIgnoringCase. split.
  - intros [x [y H]].
    destruct (toLowerCase_split _ _ _ H) as [a [r [Hs [Ha Hr]]]].
    destruct (toLowerCase_split _ _ _ Hr) as [m [b [Hr' [Hm Hb]]]].
    exists a, m, b. split; [subst; reflexivity|].
    apply equalIgnoringCase_lower. exact Hm.
  - intros [a [m [b [Hs Hm]]]]. apply equalIgnoringCase_lower in Hm.
    exists (Str.toLowerCase a), (Str.toLowerCase b).
    subst s. rewrite !toLowerCase_app, Hm. reflexivity.
Qed.

Lemma firstDangerous_some (l : string) (tokens : list string) :
  (exists d, In d tokens /\ Str.includes l (Str.toLowerCase d) = true) ->
  exists d, firstDangerous l tokens = Some d.
Proof.
  induction tokens as [|t tokens IH]; intros [d [Hin Hd]]; [destruct Hin|].
  simpl. destruct (Str.includes l (Str.toLowerCase t)) eqn:Ht.
  - exists t. reflexivity.
  - destruct Hin as [-> | Hin]; [congruence|].
    apply IH. exists d. auto.
Qed.

Lemma firstDangerous_none (l : string) (tokens : list string) :
  (forall d, In d tokens -> Str.includes l (Str.toLowerCase d) = false) ->
  firstDangerous l tokens = None.
Proof.
  induction tokens as [|t tokens IH]; intros H; [reflexivity|].
  simpl. rewrite (H t (or_introl eq_refl)). apply IH.
  intros d Hd. apply H. right. exact Hd.
Qed.

Lemma ascii_of_code (c : ascii) (n : nat) :
  (nat_of_ascii c =? n)%nat = true -> c = ascii_of_nat n.
Proof. intros H. apply Nat.eqb_eq in H. rewrite <- H. symmetry. apply ascii_nat_embedding. Qed.

Lemma isSpace_whiteSpace (a : ascii) :
  Str.isSpace a = true -> In (String a EmptyString) whiteSpace.
Proof.
  destruct a as [[] [] [] [] [] [] [] []]; vm_compute; intros H;
    first [discriminate H | tauto].
Qed.

Lemma isSpace2_whiteSpace (a b : ascii) :
  Str.isSpace2 a b = true -> In (String a (String b EmptyString)) whiteSpace.
Proof.
  unfold Str.isSpace2. intros H. apply andb_prop in H. destruct H as [Ha Hb].
  apply ascii_of_code in Ha. apply ascii_of_code in Hb. subst. vm_compute. tauto.
Qed.

Lemma isSpace3_whiteSpace (a b c : ascii) :
  Str.isSpace3 a b c = true ->
  In (String a (String b (String c EmptyString))) whiteSpace.
Proof.
  unfold Str.isSpace3. cbv zeta. intros H.
  repeat (apply orb_prop in H; destruct H as [H | H]);
    repeat (apply andb_prop in H; destruct H as [H ?]);
    repeat match goal with
    | Hc : (nat_of_ascii _ =? _)%nat = true |- _ => apply ascii_of_code in Hc; subst
    end.
  - vm_compute. tauto.
  - revert H0. destruct c as [[] [] [] [] [] [] [] []]; vm_compute;
      intros H; first [discriminate H | tauto].
  - vm_compute. tauto.
  - vm_compute. tauto.
  - vm_compute. tauto.
Qed.

Lemma allSpace_blank_bounded (n : nat) :
  forall s, String.length s <= n -> Str.allSpace s = true -> blank s.
Proof.
  induction n as [|n IH]; intros s Hn.
  - destruct s; [intros _; constructor | simpl in Hn; lia].
  - destruct s as [|a rest]; [intros _; constructor|]. simpl in Hn. simpl.
    destruct (Str.isSpace a) eqn:H1.
    { intros H. apply (blank_space (String a EmptyString) rest).
      - apply isSpace_whiteSpace. exact H1.
      - apply IH; [lia | exact H]. }
    destruct rest as [|b rest2]; [discriminate|]. simpl in Hn.
    destruct (Str.isSpace2 a b) eqn:H2.
    { intros H. apply (blank_space (String a (String b EmptyString)) rest2).
      - apply isSpace2_whiteSpace. exact H2.
      - apply IH; [lia | exact H]. }
    destruct rest2 as [|c rest3]; [discriminate|]. simpl in Hn.
    intros H. apply andb_prop in H. destruct H as [H3 H].
    apply (blank_space (String a (String b (String c EmptyString))) rest3).
    + apply isSpace3_whiteSpace. exact H3.
    + apply IH; [lia | exact H].
Qed.

(** [allSpace] decides [blank]. *)
Lemma allSpace_blank (s : string) : Str.allSpace s = true <-> blank s.
Proof.
  split.
  - apply (allSpace_blank_bounded (String.length s)). lia.
  - induction 1 as [|w rest Hin _ IH]; [reflexivity|].
    unfold whiteSpace in Hin. simpl in Hin.
    repeat (destruct Hin as [<- | Hin]; [exact IH|]).
    destruct Hin.
Qed.

Lemma allSpace_trimStart_bounded (n : nat) :
  forall s, String.length s <= n -> Str.allSpace (Str.trimStart s) = Str.allSpace s.
Proof.
  induction n as [|n IH]; intros s Hn.
  - destruct s; [reflexivity | simpl in Hn; lia].
  - destruct s as [|a rest]; [reflexivity|]. simpl in Hn.
    cbn [Str.trimStart Str.allSpace].
    destruct (Str.isSpace a) eqn:H1; [apply IH; lia|].
    destruct rest as [|b rest2].
    { cbn [Str.allSpace]. rewrite H1. reflexivity. }
    simpl in Hn.
    destruct (Str.isSpace2 a b) eqn:H2; [apply IH; lia|].
    destruct rest2 as [|c rest3].
    { cbn [Str.allSpace]. rewrite H1, H2. reflexivity. }
    simpl in Hn.
    destruct (Str.isSpace3 a b c) eqn:H3; [rewrite IH by lia; reflexivity|].
    cbn [Str.allSpace]. rewrite H1, H2, H3. reflexivity.
Qed.

Lemma trimEnd_empty (s : string) :
  Str.trimEnd s = EmptyString <-> Str.allSpace s = true.
Proof.
  destruct s as [|c rest]; [simpl; tauto|].
  cbn [Str.trimEnd]. destruct (Str.allSpace (String c rest)).
  - tauto.
  - split; discriminate.
Qed.

(** [s.trim() === ''] exactly when [s] is blank. *)
Lemma trim_blank (s : string) : Str.trim s = EmptyString <-> blank s.
Proof.
  unfold Str.trim. rewrite trimEnd_empty.
  rewrite (allSpace_trimStart_bounded (String.length s) s (Nat.le_refl _)).
  apply allSpace_blank.
Qed.

(** Blank or not, by computation. *)
Lemma blank_computed (s : string) : Str.allSpace s = true -> blank s.
Proof. apply allSpace_blank. Qed.

Lemma nonblank_computed (s : string) : Str.allSpace s = false -> ~ blank s.
Proof. intros H Hb. apply allSpace_blank in Hb. congruence. Qed.

Lemma blank_bytes (s : string) :
  blank s -> forall c, In c (list_ascii_of_string s) -> spaceByte c = true.
Proof.
  induction 1 as [|w rest Hin _ IH]; intros c Hc; [destruct Hc|].
  assert (Hsplit : In c (list_ascii_of_string w) \/ In c (list_ascii_of_string rest)).
  { clear -Hc. induction w as [|a w IHw]; simpl in *; [right; exact Hc|].
    destruct Hc as [-> | Hc]; [left; left; reflexivity|].
    destruct (IHw Hc); [left; right; assumption | right; assumption]. }
  destruct Hsplit as [Hw | Hr]; [|exact (IH c Hr)].
  unfold spaceByte. apply existsb_exists. exists w. split; [exact Hin|].
  apply existsb_exists. exists c. split; [exact Hw | apply Ascii.eqb_refl].
Qed.

(** Only [$] lowers to [$]. *)
Lemma lowerChar_dollar (c : ascii) : Str.lowerChar c = "$"%char -> c = "$"%char.
Proof.
  destruct c as [[] [] [] [] [] [] [] []]; vm_compute; intros H;
    first [reflexivity | discriminate H].
Qed.

(** A denylisted token starts with [$], so a string that contains one is
    not blank. *)
Lemma dangerous_not_blank (s token : string) :
  In token dangerous -> containsIgnoringCase s token -> ~ blank s.
Proof.
  intros Hin [a [m [b [Hs Hm]]]] Hb. subst s.
  apply equalIgnoringCase_lower in Hm.
  assert (Hd : exists rest, Str.toLowerCase token = String "$" rest).
  { simpl in Hin.
    repeat (destruct Hin as [<- | Hin]; [eexists; reflexivity|]).
    destruct Hin. }
  destruct Hd as [rest Hd]. rewrite Hd in Hm.
  destruct m as [|c m]; simpl in Hm; [discriminate|].
  injection Hm as Hc _. apply lowerChar_dollar in Hc. subst c.
  assert (Hsp : spaceByte "$"%char = true).
  { apply (blank_bytes _ Hb). clear.
    induction a as [|x a IH]; simpl; [left; reflexivity | right; exact IH]. }
  vm_compute in Hsp. discriminate Hsp.
Qed.

(** C7.  A string that contains a denylisted token, letter case ignored and
    at any position, fails with [INVALID_PARAMETER]; a string that is not
    blank and contains none of them is returned as it is; [undefined],
    [null] and a blank string give no value. *)
Theorem validateFilter_contract :
  (forall s token, In token dangerous -> containsIgnoringCase s token ->
     failsWith (validateFilter (JStr s)) INVALID_PARAMETER)
  /\ (forall s, ~ blank s ->
        (forall token, In token dangerous -> ~ containsIgnoringCase s token) ->
        validateFilter (JStr s) = Ok (Some s))
  /\ validateFilter JUndefined = Ok None
  /\ validateFilter JNull = Ok None
  /\ (forall s, blank s -> validateFilter (JStr s) = Ok None).
Proof.
  repeat split.
  - intros s token Hin Hc. unfold validateFilter. simpl nullish. cbv iota.
    assert (Hnb : String.eqb (Str.trim s) EmptyString = false).
    { apply String.eqb_neq. intros E. apply trim_blank in E.
      exact (dangerous_not_blank s token Hin Hc E). }
    rewrite Hnb.
    destruct (firstDangerous_some (Str.toLowerCase s) dangerous) as [d Hd].
    { exists token. split; [exact Hin|]. apply includes_lower_spec. exact Hc. }
    rewrite Hd. apply invalid_failsWith.
  - intros s Hnb Hnone. unfold validateFilter. simpl nullish. cbv iota.
    assert (E : String.eqb (Str.trim s) EmptyString = false).
    { apply String.eqb_neq. intros E. apply trim_blank in E. exact (Hnb E). }
    rewrite E. rewrite firstDangerous_none; [reflexivity|].
    intros d Hd.
    destruct (Str.includes (Str.toLowerCase s) (Str.toLowerCase d)) eqn:Hi;
      [|reflexivity].
    apply includes_lower_spec in Hi. exfalso. exact (Hnone d Hd Hi).
  - intros s Hb. unfold validateFilter. simpl nullish. cbv iota.
    apply trim_blank in Hb. rewrite Hb. reflexivity.
Qed.

(** A run of C7: a filter with [$Count] inside a word is refused, a plain
    filter is kept, a filter of spaces gives no value, and neither does a
    filter made of U+00A0, a space and U+2028. *)
Lemma validateFilter_contract_witness :
  failsWith (validateFilter (JStr "a$Counter eq 1")) INVALID_PARAMETER
  /\ validateFilter (JStr "accountEnabled eq true")
     = Ok (Some "accountEnabled eq true")
  /\ validateFilter (JStr "  ") = Ok None
  /\ validateFilter (JStr (bytes [194; 160; 32; 226; 128; 168])) = Ok None.
Proof.
  destruct validateFilter_contract as [Hbad [Hgood [_ [_ Hblank]]]].
  split; [|split; [|split]]; [| | |apply Hblank; apply blank_computed; reflexivity].
  - apply (Hbad "a$Counter eq 1" "$count").
    + left. reflexivity.
    + exists "a", "$Count", "er eq 1". split; [reflexivity|].
      apply equalIgnoringCase_lower. reflexivity.
  - apply Hgood.
    + apply nonblank_computed. reflexivity.
    + intros token Hin Hc. apply includes_lower_spec in Hc.
      simpl in Hin.
      repeat (destruct Hin as [<- | Hin]; [vm_compute in Hc; discriminate|]).
      destruct Hin.
  - apply Hblank. apply blank_computed. reflexivity.
Defined.

(* ------------------------------------------------------------------ *)
(** ** The retry engine *)



Lemma handleGraphError_vendor (e : Thrown) (vendorCode : string) :
  hasVendorCode e vendorCode ->
  code (handleGraphError e) = mapGraphErrorCode (orElse (Some vendorCode) EmptyString).
Proof.
  intros [resp [ge [Hr [He Hc]]]]. unfold handleGraphError. rewrite Hr.
  destruct resp as [oe st hd]. simpl in He. subst oe. simpl. rewrite Hc.
  reflexivity.
Qed.

Lemma surface_raw (e : Thrown) :
  isMCPError e = false -> surface e = ThrownMCP (handleGraphError e).
Proof. intros H. unfold surface. rewrite H. reflexivity. Qed.

Lemma hasStatus_raw (e : Thrown) (s : Z) : hasStatus e s -> isMCPError e = false.
Proof. intros [raw [resp [-> _]]]. reflexivity. Qed.

Lemma invocations_cons_Invoked (events : list Event) :
  invocations (Invoked :: events) = S (invocations events).
Proof. reflexivity. Qed.

Lemma invocations_app (a b : list Event) :
  invocations (a ++ b) = invocations a + invocations b.
Proof.
  unfold invocations. rewrite List.filter_app, List.length_app. reflexivity.
Qed.

Lemma invocations_Requested (sent : list Request) :
  invocations (map Requested sent) = 0.
Proof. induction sent as [|r sent IH]; [reflexivity | exact IH]. Qed.

Lemma invocations_Slept (d : JsNumber) (events : list Event) :
  invocations (Slept d :: events) = invocations events.
Proof. reflexivity. Qed.

Lemma sleeps_app (a b : list Event) : sleeps (a ++ b) = (sleeps a ++ sleeps b)%list.
Proof.
  induction a as [|e a IH]; [reflexivity|].
  destruct e; simpl; rewrite IH; reflexivity.
Qed.

Lemma sleeps_Requested (sent : list Request) : sleeps (map Requested sent) = [].
Proof. induction sent as [|r sent IH]; [reflexivity | exact IH]. Qed.

Lemma sleeps_seen (sent : list Request) :
  sleeps (Invoked :: map Requested sent) = [].
Proof. simpl. apply sleeps_Requested. Qed.

Lemma requests_map (sent : list Request) : requests (map Requested sent) = sent.
Proof. induction sent as [|r sent IH]; simpl; [|rewrite IH]; reflexivity. Qed.

Section RetryLoop.

Variable rt : Runtime.
Context {A : Type}.
Variable fn : Op A.
Variable opts : RequiredRetryOptions.

(** One iteration that ends the loop with a result. *)
Lemma retryLoop_success budget attempt lastError h a sent :
  fn (h ++ [Invoked])%list = (Ok a, sent) ->
  retryLoop rt fn opts (S budget) attempt lastError h
  = (Ok a, Invoked :: map Requested sent).
Proof. intros H. simpl. rewrite H. reflexivity. Qed.

(** One iteration that gives up: the last attempt, or a failure that is not
    retryable. *)
Lemma retryLoop_give_up budget attempt lastError h e sent :
  fn (h ++ [Invoked])%list = (Throw e, sent) ->
  attempt = maxRetries opts \/ isRetryable e opts = false ->
  retryLoop rt fn opts (S budget) attempt lastError h
  = (Throw (surface e), Invoked :: map Requested sent).
Proof.
  intros H Hstop. simpl. rewrite H.
  destruct (Nat.eqb_spec attempt (maxRetries opts)) as [_ | Hne]; [reflexivity|].
  destruct Hstop as [Heq | Hnr]; [contradiction|].
  rewrite Hnr. reflexivity.
Qed.

(** One iteration that sleeps and goes on. *)
Lemma retryLoop_retry budget attempt lastError h e sent :
  fn (h ++ [Invoked])%list = (Throw e, sent) ->
  attempt <> maxRetries opts -> isRetryable e opts = true ->
  let seen := Invoked :: map Requested sent in
  let delay := nextDelay rt opts attempt (h ++ seen)%list e in
  let next :=
    retryLoop rt fn opts budget (S attempt) (Some e)
      (h ++ seen ++ [Slept delay])%list in
  retryLoop rt fn opts (S budget) attempt lastError h
  = (fst next, (seen ++ Slept delay :: snd next)%list).
Proof.
  intros H Hne Hr seen delay next. simpl. rewrite H.
  apply Nat.eqb_neq in Hne. rewrite Hne, Hr. simpl negb. cbv iota.
  fold seen. fold delay. unfold next. destruct (retryLoop _ _ _ _ _ _ _).
  reflexivity.
Qed.


End RetryLoop.




(** C5.  An operation whose invocation fails with a failure of HTTP status
    400 carrying the vendor code [InvalidRequest], which the options do not
    make retryable, is invoked exactly once; the engine does not sleep and
    throws an [MCPError] of kind [INVALID_PARAMETER]. *)
Theorem retryWithBackoff_invalid_request_once (rt : Runtime) {A : Type}
  (fn : Op A) (options : RetryOptions) (h : History) (e : Thrown)
  (sent : list Request) :
  fn (h ++ [Invoked])%list = (Throw e, sent) ->
  hasStatus e 400 -> hasVendorCode e "InvalidRequest" ->
  isRetryable e (withDefaults options) = false ->
  invocations (snd (retryWithBackoff rt fn options h)) = 1
  /\ sleeps (snd (retryWithBackoff rt fn options h)) = []
  /\ failsWith (fst (retryWithBackoff rt fn options h)) INVALID_PARAMETER.
Proof.
  intros Hcall Hst Hvc Hnr. unfold retryWithBackoff.
  rewrite (retryLoop_give_up rt fn (withDefaults options) _ 0 None h e sent Hcall
             (or_intror Hnr)).
  cbn [fst snd]. rewrite invocations_cons_Invoked, invocations_Requested, sleeps_seen.
  repeat split.
  rewrite (surface_raw e (hasStatus_raw e 400 Hst)).
  eexists. split; [reflexivity|].
  rewrite (handleGraphError_vendor e "InvalidRequest" Hvc). reflexivity.
Qed.

(** A run of C5 under the default options. *)
Lemma retryWithBackoff_invalid_request_once_witness :
  let rt := fixedRuntime 0 EmptyString (Ok JNull) in
  let run :=
    retryWithBackoff rt
      (alwaysFailing (transportFailure 400 (Some "InvalidRequest") None))
      noOptions [] in
  invocations (snd run) = 1 /\ sleeps (snd run) = []
  /\ failsWith (fst run) INVALID_PARAMETER.
Proof.
  intros rt run.
  apply (retryWithBackoff_invalid_request_once rt
           (alwaysFailing (transportFailure 400 (Some "InvalidRequest") None))
           noOptions [] (transportFailure 400 (Some "InvalidRequest") None) []).
  - reflexivity.
  - eexists. eexists. repeat split.
  - eexists. eexists. repeat split.
  - reflexivity.
Defined.

(* ------------------------------------------------------------------ *)
(** ** Numbers *)

(** Equal rationals have the same Number value. *)
Lemma numberValue_compat (x y : Q) : (x == y)%Q -> numberValue x = numberValue y.
Proof.
  intros H. unfold numberValue. rewrite (Qred_complete x y H). reflexivity.
Qed.

Lemma Qred_inject_Z (z : Z) : Qred (inject_Z z) = inject_Z z.
Proof.
  unfold Qred, inject_Z.
  pose proof (Z.ggcd_gcd z 1) as Hg. pose proof (Z.ggcd_correct_divisors z 1) as Hd.
  destruct (Z.ggcd z 1) as [g [aa bb]]. simpl in Hg, Hd.
  rewrite Z.gcd_1_r in Hg. subst g. destruct Hd as [Ha Hb].
  rewrite Z.mul_1_l in Ha, Hb. subst aa bb. reflexivity.
Qed.

Lemma two_power (n : Z) : (0 <= n)%Z -> (2 ^ n == inject_Z (2 ^ n))%Q.
Proof.
  intros Hn. rewrite (Zpower_Qpower 2 n Hn). reflexivity.
Qed.

(** A whole number up to [2^53] is a double. *)
Lemma numberValue_whole (z : Z) :
  (Z.abs z <= 2 ^ 53)%Z -> numberValue (inject_Z z) = ofZ z.
Proof.
  intros Hz. unfold numberValue. rewrite Qred_inject_Z. cbv zeta.
  destruct (Qeq_bool (inject_Z z) 0) eqn:E0.
  { apply Qeq_bool_iff in E0. unfold Qeq in E0. simpl in E0.
    assert (z = 0%Z) by lia. subst z. reflexivity. }
  assert (Hnz : z <> 0%Z).
  { intros ->. discriminate E0. }
  set (A := Z.abs z) in *.
  assert (HA : (0 < A)%Z) by (unfold A; lia).
  assert (Habs : Qabs (inject_Z z) = inject_Z A) by reflexivity.
  rewrite Habs.
  set (L := Z.log2 A).
  assert (HL : (2 ^ L <= A < 2 ^ (L + 1))%Z).
  { unfold L. replace (L + 1)%Z with (Z.succ (Z.log2 A)) by (unfold L; lia).
    apply Z.log2_spec. exact HA. }
  assert (HL0 : (0 <= L)%Z) by apply Z.log2_nonneg.
  assert (HL53 : (L <= 53)%Z).
  { destruct (Z_le_gt_dec L 53) as [H | H]; [exact H|]. exfalso.
    assert ((2 ^ 54 <= 2 ^ L)%Z) by (apply Z.pow_le_mono_r; lia). lia. }
  assert (He : binaryExponent (inject_Z A) = L).
  { unfold binaryExponent. simpl Qnum. simpl Qden. change (Z.log2 1) with 0%Z.
    rewrite Z.sub_0_r. fold L.
    destruct (Qle_bool (2 ^ L) (inject_Z A)) eqn:E; [reflexivity|]. exfalso.
    assert (Hle : (2 ^ L <= inject_Z A)%Q).
    { rewrite (two_power L HL0). rewrite <- Zle_Qle. apply HL. }
    apply Qle_bool_iff in Hle. congruence. }
  rewrite He. rewrite Z.max_l by lia.
  set (u := (2 ^ (L - 52))%Q).
  assert (Hu : (0 < u)%Q).
  { unfold u. apply Qpower_0_lt. reflexivity. }
  assert (Hgrid : exists m, (inject_Z A == inject_Z m * u)%Q).
  { destruct (Z_le_gt_dec L 52) as [H | H].
    - exists (A * 2 ^ (52 - L))%Z. unfold u.
      replace (L - 52)%Z with (- (52 - L))%Z by lia.
      rewrite Qpower_opp, (two_power (52 - L)) by lia.
      assert (HP : (0 < 2 ^ (52 - L))%Z) by (apply Z.pow_pos_nonneg; lia).
      generalize dependent (2 ^ (52 - L))%Z. intros P HP.
      rewrite inject_Z_mult. field.
      intros Hz0. change 0%Q with (inject_Z 0) in Hz0.
      rewrite inject_Z_injective in Hz0. lia.
    - assert (L = 53%Z) by lia. exists (2 ^ 52)%Z. unfold u.
      replace (L - 52)%Z with 1%Z by lia.
      assert (A = (2 ^ 53)%Z).
      { apply Z.le_antisymm; [exact Hz|]. replace 53%Z with L by lia. apply HL. }
      subst A. rewrite H1. reflexivity. }
  destruct Hgrid as [m Hm].
  assert (Hscaled : (inject_Z A / u == inject_Z m)%Q).
  { rewrite Hm. field. intros Hu0. rewrite Hu0 in Hu. discriminate Hu. }
  assert (Hfloor : Qfloor (inject_Z A / u) = m).
  { rewrite (Qfloor_comp _ _ Hscaled). apply Qfloor_Z. }
  rewrite Hfloor.
  assert (Hrest : (inject_Z A / u - inject_Z m == 0)%Q) by (rewrite Hscaled; ring).
  assert (Hup : negb (Qle_bool (inject_Z A / u - inject_Z m) (1 # 2))
                || (Qeq_bool (inject_Z A / u - inject_Z m) (1 # 2) && Z.odd m) = false).
  { assert (H1 : Qle_bool (inject_Z A / u - inject_Z m) (1 # 2) = true).
    { apply Qle_bool_iff. rewrite Hrest. discriminate. }
    assert (H2 : Qeq_bool (inject_Z A / u - inject_Z m) (1 # 2) = false).
    { destruct (Qeq_bool (inject_Z A / u - inject_Z m) (1 # 2)) eqn:E; [|reflexivity].
      apply Qeq_bool_iff in E. rewrite Hrest in E. discriminate E. }
    rewrite H1, H2. reflexivity. }
  rewrite Hup.
  assert (Hr : (inject_Z m * u == inject_Z A)%Q) by (symmetry; exact Hm).
  assert (Hbig : Qle_bool (2 ^ 1024) (inject_Z m * u) = false).
  { destruct (Qle_bool (2 ^ 1024) (inject_Z m * u)) eqn:E; [|reflexivity].
    apply Qle_bool_iff in E. rewrite Hr in E. exfalso.
    rewrite (two_power 1024) in E by lia. rewrite <- Zle_Qle in E.
    assert ((2 ^ 53 < 2 ^ 1024)%Z) by (apply Z.pow_lt_mono_r; lia). lia. }
  rewrite Hbig. unfold ofZ. f_equal.
  etransitivity; [|apply Qred_inject_Z]. apply Qred_complete.
  unfold sign_negative.
  destruct (Qle_bool 0 (inject_Z z)) eqn:Es; simpl negb; cbv iota.
  - apply Qle_bool_iff in Es. change 0%Q with (inject_Z 0) in Es.
    rewrite <- (Zle_Qle 0 z) in Es.
    rewrite Hr. unfold A. rewrite Z.abs_eq by lia. reflexivity.
  - assert (Hneg : (z < 0)%Z).
    { destruct (Z_lt_ge_dec z 0) as [H | H]; [exact H|]. exfalso.
      assert (Hq : (0 <= inject_Z z)%Q).
      { change 0%Q with (inject_Z 0). rewrite <- (Zle_Qle 0 z). lia. }
      apply Qle_bool_iff in Hq. congruence. }
    rewrite Hr. unfold A. rewrite Z.abs_neq by lia.
    rewrite inject_Z_opp. ring.
Qed.

Lemma numberValue_not_NaN (x : Q) : isNaN (numberValue x) = false.
Proof.
  unfold numberValue. cbv zeta.
  repeat match goal with
  | |- context [if ?b then _ else _] => destruct b
  end; reflexivity.
Qed.

(** The product of two whole numbers is exact up to [2^53]. *)
Lemma mul_whole (a b : Z) :
  (Z.abs (a * b) <= 2 ^ 53)%Z -> mul (ofZ a) (ofZ b) = ofZ (a * b).
Proof.
  intros H. unfold mul, ofZ.
  rewrite (numberValue_compat _ (inject_Z (a * b))) by (rewrite inject_Z_mult; reflexivity).
  apply numberValue_whole. exact H.
Qed.

(* ------------------------------------------------------------------ *)
(** ** The retry-after hint in the loop *)

Lemma retryAfterHeader_carried (e : Thrown) (v : JsValue) :
  carriesRetryAfter e v -> retryAfterHeader e = v.
Proof.
  intros [resp [headers [Hr [Hh Hl]]]]. unfold retryAfterHeader.
  rewrite Hr, Hh, Hl. reflexivity.
Qed.

(** A numeric hint that is not zero is the delay: the seconds times 1000. *)
Lemma nextDelay_numeric_hint (rt : Runtime) (opts : RequiredRetryOptions)
  (attempt : nat) (h : History) (e : Thrown) (q : Q) :
  carriesRetryAfter e (JNum (Fin q)) -> ~ (q == 0)%Q ->
  nextDelay rt opts attempt h e = mul (Fin q) (ofZ 1000).
Proof.
  intros Hc Hq. unfold nextDelay, getRetryAfterDelay.
  rewrite (retryAfterHeader_carried e _ Hc). simpl truthy.
  destruct (Qeq_bool q 0) eqn:E; [apply Qeq_bool_iff in E; contradiction|].
  reflexivity.
Qed.

(** A hint written as a decimal number of seconds: what [getRetryAfterDelay]
    makes of it. *)
Lemma getRetryAfterDelay_digits (rt : Runtime) (h : History) (e : Thrown)
  (s : string) (seconds : Z) :
  carriesRetryAfter e (JStr s) -> Str.mathInt s = Some seconds ->
  getRetryAfterDelay rt h e
  = Some (mul (numberValue (inject_Z seconds)) (ofZ 1000)).
Proof.
  intros Hc Hp. unfold getRetryAfterDelay.
  rewrite (retryAfterHeader_carried e _ Hc). cbv zeta.
  destruct s as [|c s]; [discriminate Hp|]. simpl truthy. cbv iota.
  unfold Str.parseInt. rewrite Hp, numberValue_not_NaN. reflexivity.
Qed.

(** C6.  When the failure of attempt [attempt] is retryable, the attempt is
    not the last one and the response carries [retry-after] with value 2
    (the number, or the string ["2"]), the loop sleeps 2000 milliseconds and
    goes on with the next attempt, whatever the attempt number, the base
    delay, the maximum delay and the jitter. *)
Theorem retry_after_2_sleeps_2000 (rt : Runtime) {A : Type} (fn : Op A)
  (opts : RequiredRetryOptions) (budget attempt : nat)
  (lastError : option Thrown) (h : History) (e : Thrown) (sent : list Request)
  (v : JsValue) :
  fn (h ++ [Invoked])%list = (Throw e, sent) ->
  attempt <> maxRetries opts -> isRetryable e opts = true ->
  carriesRetryAfter e v ->
  (v = JStr "2" \/ exists q, v = JNum (Fin q) /\ (q == 2)%Q) ->
  exists delay,
    isMillis delay 2000
    /\ nextDelay rt opts attempt (h ++ Invoked :: map Requested sent)%list e = delay
    /\ let seen := Invoked :: map Requested sent in
       let next :=
         retryLoop rt fn opts budget (S attempt) (Some e)
           (h ++ seen ++ [Slept delay])%list in
       retryLoop rt fn opts (S budget) attempt lastError h
       = (fst next, (seen ++ Slept delay :: snd next)%list).
Proof.
  intros Hcall Hne Hretry Hc Hv.
  exists (nextDelay rt opts attempt (h ++ Invoked :: map Requested sent)%list e).
  split; [|split; [reflexivity|]].
  - destruct Hv as [-> | [q [-> Hq]]].
    + unfold nextDelay.
      rewrite (getRetryAfterDelay_digits rt _ e "2" 2 Hc eq_refl).
      rewrite (numberValue_whole 2) by (vm_compute; discriminate).
      rewrite (mul_whole 2 1000) by (vm_compute; discriminate).
      reflexivity.
    + rewrite (nextDelay_numeric_hint rt opts attempt _ e q Hc).
      * unfold mul, ofZ.
        rewrite (numberValue_compat _ (inject_Z 2000))
          by (rewrite Hq; reflexivity).
        rewrite (numberValue_whole 2000) by (vm_compute; discriminate).
        reflexivity.
      * rewrite Hq. discriminate.
  - exact (retryLoop_retry rt fn opts budget attempt lastError h e sent
             Hcall Hne Hretry).
Qed.

(** A run of C6: a 429 with [retry-after: 2], first attempt, default
    options. *)
Lemma retry_after_2_sleeps_2000_witness :
  let rt := fixedRuntime 0 EmptyString (Ok JNull) in
  let e := transportFailure 429 None (Some (JStr "2")) in
  exists delay,
    isMillis delay 2000
    /\ nextDelay rt DEFAULT_RETRY_OPTIONS 0 ([] ++ [Invoked])%list e = delay
    /\ let seen := [Invoked] in
       let next :=
         retryLoop rt (alwaysFailing e) DEFAULT_RETRY_OPTIONS 3 1 (Some e)
           ([] ++ seen ++ [Slept delay])%list in
       retryLoop rt (alwaysFailing e) DEFAULT_RETRY_OPTIONS 4 0 None []
       = (fst next, (seen ++ Slept delay :: snd next)%list).
Proof.
  intros rt e.
  apply (retry_after_2_sleeps_2000 rt (alwaysFailing e) DEFAULT_RETRY_OPTIONS
           3 0 None [] e [] (JStr "2")).
  - reflexivity.
  - discriminate.
  - reflexivity.
  - eexists. eexists. repeat split.
  - left. reflexivity.
Defined.

Lemma calculateDelay_capped (attempt : nat) (base cap : Q) (jitter : bool)
  (random : Q) :
  (calculateDelay attempt base cap jitter random <= cap)%Q.
Proof. unfold calculateDelay. apply Q.le_min_r. Qed.

(** C10.  Whatever hint [getRetryAfterDelay] reads from a retryable
    failure, the loop sleeps exactly that long before the next attempt,
    whatever the options' maximum delay; the hint is read from a number
    (the seconds times 1000), from a string of digits (the same, whatever
    follows the digits) or from a date (the time left until it), and in
    none of these forms is it compared with the maximum; the computed
    backoff never exceeds that maximum; under the default options (maximum
    30000) a retryable failure with a hint of 3600 seconds, given as the
    number or as the string ["3600"], makes the engine sleep 3600000
    milliseconds before each of the three retries. *)
Theorem retry_after_hint_is_not_capped :
  (forall rt (A : Type) (fn : Op A) opts budget attempt lastError h e sent hint,
      fn (h ++ [Invoked])%list = (Throw e, sent) ->
      attempt <> maxRetries opts -> isRetryable e opts = true ->
      getRetryAfterDelay rt (h ++ Invoked :: map Requested sent)%list e = Some hint ->
      nextDelay rt opts attempt (h ++ Invoked :: map Requested sent)%list e = hint
      /\ let seen := Invoked :: map Requested sent in
         let next :=
           retryLoop rt fn opts budget (S attempt) (Some e)
             (h ++ seen ++ [Slept hint])%list in
         retryLoop rt fn opts (S budget) attempt lastError h
         = (fst next, (seen ++ Slept hint :: snd next)%list))
  /\ (forall rt h e,
        (forall n, carriesRetryAfter e (JNum n) -> truthy (JNum n) = true ->
           getRetryAfterDelay rt h e = Some (mul n (ofZ 1000)))
        /\ (forall s seconds,
              carriesRetryAfter e (JStr s) -> Str.mathInt s = Some seconds ->
              getRetryAfterDelay rt h e
              = Some (mul (numberValue (inject_Z seconds)) (ofZ 1000)))
        /\ (forall s time,
              carriesRetryAfter e (JStr s) -> s <> EmptyString ->
              Str.mathInt s = None -> dateParse rt s = Some time ->
              getRetryAfterDelay rt h e
              = Some (ofZ (Z.max 0 (time - dateNow rt h)))))
  /\ (forall attempt base cap jitter random,
        (calculateDelay attempt base cap jitter random <= cap)%Q)
  /\ (forall v, v = JNum (ofZ 3600) \/ v = JStr "3600" ->
      let e := transportFailure 429 None (Some v) in
      isRetryable e DEFAULT_RETRY_OPTIONS = true
      /\ maxDelay DEFAULT_RETRY_OPTIONS = 30000%Q
      /\ forall rt h,
           sleeps (snd (retryWithBackoff rt (alwaysFailing e) noOptions h))
           = [ofZ 3600000; ofZ 3600000; ofZ 3600000]).
Proof.
  split; [|split; [|split]].
  - intros rt A fn opts budget attempt lastError h e sent hint
      Hcall Hne Hretry Hhint.
    assert (Hnext :
      nextDelay rt opts attempt (h ++ Invoked :: map Requested sent)%list e = hint).
    { unfold nextDelay. rewrite Hhint. reflexivity. }
    split; [exact Hnext|]. cbv zeta. rewrite <- Hnext.
    exact (retryLoop_retry rt fn opts budget attempt lastError h e sent
             Hcall Hne Hretry).
  - intros rt h e. split; [|split].
    + intros n Hc Ht. unfold getRetryAfterDelay.
      rewrite (retryAfterHeader_carried e _ Hc). cbv zeta. rewrite Ht.
      reflexivity.
    + intros s seconds Hc Hp. exact (getRetryAfterDelay_digits rt h e s seconds Hc Hp).
    + intros s time Hc Hs Hp Hd. unfold getRetryAfterDelay.
      rewrite (retryAfterHeader_carried e _ Hc). cbv zeta.
      destruct s as [|c s]; [contradiction|]. simpl truthy. cbv iota.
      unfold Str.parseInt. rewrite Hp, Hd. reflexivity.
  - exact calculateDelay_capped.
  - intros v Hv. cbv zeta.
    assert (Hhint : forall rt h,
      getRetryAfterDelay rt h (transportFailure 429 None (Some v))
      = Some (ofZ 3600000)).
    { intros rt h. destruct Hv as [-> | ->].
      - unfold getRetryAfterDelay. cbn [retryAfterHeader transportFailure response
          e_response r_headers lookup String.eqb Ascii.eqb Bool.eqb].
        simpl truthy. cbv iota.
        rewrite (mul_whole 3600 1000) by (vm_compute; discriminate). reflexivity.
      - rewrite (getRetryAfterDelay_digits rt h _ "3600" 3600).
        + rewrite (numberValue_whole 3600) by (vm_compute; discriminate).
          rewrite (mul_whole 3600 1000) by (vm_compute; discriminate). reflexivity.
        + eexists. eexists. repeat split.
        + reflexivity. }
    assert (Hretry :
      isRetryable (transportFailure 429 None (Some v)) DEFAULT_RETRY_OPTIONS = true).
    { destruct Hv as [-> | ->]; reflexivity. }
    split; [exact Hretry|]. split; [reflexivity|].
    intros rt h. unfold retryWithBackoff.
    change (withDefaults noOptions) with DEFAULT_RETRY_OPTIONS.
    change (S (maxRetries DEFAULT_RETRY_OPTIONS)) with 4.
    assert (Hstep : forall budget attempt lastError h',
      attempt <> 3 ->
      retryLoop rt (alwaysFailing (transportFailure 429 None (Some v)))
        DEFAULT_RETRY_OPTIONS (S budget) attempt lastError h'
      = (fst (retryLoop rt (alwaysFailing (transportFailure 429 None (Some v)))
                DEFAULT_RETRY_OPTIONS budget (S attempt)
                (Some (transportFailure 429 None (Some v)))
                (h' ++ [Invoked] ++ [Slept (ofZ 3600000)])%list),
         ([Invoked] ++ Slept (ofZ 3600000)
            :: snd (retryLoop rt
                      (alwaysFailing (transportFailure 429 None (Some v)))
                      DEFAULT_RETRY_OPTIONS budget (S attempt)
                      (Some (transportFailure 429 None (Some v)))
                      (h' ++ [Invoked] ++ [Slept (ofZ 3600000)])%list))%list)).
    { intros budget attempt lastError h' Hne.
      rewrite (retryLoop_retry rt _ DEFAULT_RETRY_OPTIONS budget attempt lastError h'
                 (transportFailure 429 None (Some v)) [] eq_refl Hne Hretry).
      cbv zeta. unfold nextDelay. rewrite Hhint. reflexivity. }
    rewrite (Hstep 3 0) by discriminate. cbn [snd].
    rewrite (Hstep 2 1) by discriminate. cbn [snd].
    rewrite (Hstep 1 2) by discriminate. cbn [snd].
    rewrite (retryLoop_give_up rt _ DEFAULT_RETRY_OPTIONS _ 3 _ _
               (transportFailure 429 None (Some v)) [] eq_refl
               (or_introl eq_refl)).
    reflexivity.
Qed.

(** A run of C10: the first retry after a 503 with [retry-after: 3600],
    given as a string, under the default options. *)
Lemma retry_after_hint_is_not_capped_witness :
  let rt := fixedRuntime 0 EmptyString (Ok JNull) in
  let e := transportFailure 503 None (Some (JStr "3600")) in
  nextDelay rt DEFAULT_RETRY_OPTIONS 0 ([] ++ Invoked :: map Requested [])%list e
  = ofZ 3600000
  /\ let seen := Invoked :: map Requested [] in
     let next :=
       retryLoop rt (alwaysFailing e) DEFAULT_RETRY_OPTIONS 3 1 (Some e)
         ([] ++ seen ++ [Slept (ofZ 3600000)])%list in
     retryLoop rt (alwaysFailing e) DEFAULT_RETRY_OPTIONS 4 0 None []
     = (fst next, (seen ++ Slept (ofZ 3600000) :: snd next)%list).
Proof.
  intros rt e.
  apply (proj1 retry_after_hint_is_not_capped rt JsValue (alwaysFailing e)
           DEFAULT_RETRY_OPTIONS 3 0 None [] e [] (ofZ 3600000)).
  - reflexivity.
  - discriminate.
  - reflexivity.
  - vm_compute. reflexivity.
Defined.

(* ------------------------------------------------------------------ *)
(** ** The query builders *)

(** *** Validators throw [INVALID_PARAMETER] only *)

Lemma onlyInvalid_invalid {A} (msg : string) : onlyInvalid (@invalid A msg).
Proof. eexists. split; reflexivity. Qed.

Lemma onlyInvalid_Ok {A} (a : A) : onlyInvalid (Ok a).
Proof. exact I. Qed.

Create HintDb validators.
#[local] Hint Resolve onlyInvalid_invalid onlyInvalid_Ok : validators.

Ltac validator_cases :=
  repeat match goal with
  | |- onlyInvalid (if ?b then _ else _) => destruct b
  | |- onlyInvalid (match ?x with _ => _ end) => destruct x
  end;
  auto with validators.

Lemma onlyInvalid_validateString value fieldName allowEmpty :
  onlyInvalid (validateString value fieldName allowEmpty).
Proof. unfold validateString. validator_cases. Qed.

Lemma onlyInvalid_validateOptionalString value fieldName :
  onlyInvalid (validateOptionalString value fieldName).
Proof.
  unfold validateOptionalString.
  destruct (nullish value); [exact I|].
  pose proof (onlyInvalid_validateString value fieldName false) as H.
  destruct (validateString value fieldName false); [exact I | exact H].
Qed.

Lemma onlyInvalid_validateTop rt value defaultValue maxValue :
  onlyInvalid (validateTop rt value defaultValue maxValue).
Proof. unfold validateTop. validator_cases. Qed.

Lemma onlyInvalid_validateDays rt value defaultValue :
  onlyInvalid (validateDays rt value defaultValue).
Proof. unfold validateDays. validator_cases. Qed.

Lemma onlyInvalid_validateStringArray value fieldName :
  onlyInvalid (validateStringArray value fieldName).
Proof. unfold validateStringArray. validator_cases. Qed.

Lemma onlyInvalid_validateFilter value : onlyInvalid (validateFilter value).
Proof. unfold validateFilter. validator_cases. Qed.

Lemma onlyInvalid_escapeODataString input : onlyInvalid (escapeODataString input).
Proof. unfold escapeODataString. validator_cases. Qed.

#[local] Hint Resolve onlyInvalid_validateString onlyInvalid_validateOptionalString
  onlyInvalid_validateTop onlyInvalid_validateDays onlyInvalid_validateStringArray
  onlyInvalid_validateFilter onlyInvalid_escapeODataString : validators.

(** *** What a body of the builder shape does *)

Lemma Builder_outcome rt post body :
  Builder rt post body ->
  forall h,
    (exists m, body h = (Throw (ThrownMCP m), []) /\ code m = INVALID_PARAMETER)
    \/ (exists request,
          body h = (match graphGet rt h request with
                    | Ok response => post response
                    | Throw e => Throw e
                    end, [request])).
Proof.
  induction 1 as [A post r k Hr _ IH | A post f k _ IH | request | request | request];
    intros h.
  - unfold bindResult. destruct r as [a | e].
    + apply IH.
    + destruct Hr as [m [-> Hm]]. left. exists m. auto.
  - unfold reading. apply IH.
  - right. exists request. unfold get. destruct (graphGet rt h request); reflexivity.
  - right. exists request. unfold bind, get, pure.
    destruct (graphGet rt h request); reflexivity.
  - right. exists request. unfold bind, get, pure, bindResult, checkedPage.
    destruct (graphGet rt h request) as [response | e]; [|reflexivity].
    destruct (validateResponse response true); reflexivity.
Qed.

(** *** What the engine does with a body wrapped in [try]/[catch] *)

Lemma handled_is_unknown (m : MCPError) :
  code (handleGraphError (ThrownMCP m)) = UNKNOWN_ERROR.
Proof. destruct m as [msg c d]. destruct c; reflexivity. Qed.

Lemma handled_not_retryable (m : MCPError) :
  isRetryable (ThrownMCP (handleGraphError (ThrownMCP m))) (withDefaults noOptions)
  = false.
Proof. destruct m as [msg c d]. destruct c; reflexivity. Qed.

Lemma handled_typeError msg :
  code (handleGraphError (typeError msg)) = UNKNOWN_ERROR
  /\ isRetryable (ThrownMCP (handleGraphError (typeError msg)))
       (withDefaults noOptions) = false.
Proof. split; reflexivity. Qed.

Section ToolRun.

Variable rt : Runtime.
Variable body : Op JsValue.
Variable h : History.

Lemma tool_returns a sent :
  body (h ++ [Invoked])%list = (Ok a, sent) ->
  retryWithBackoff rt (tryCatch body) noOptions h
  = (Ok a, Invoked :: map Requested sent).
Proof.
  intros H. unfold retryWithBackoff. apply retryLoop_success.
  unfold tryCatch. rewrite H. reflexivity.
Qed.

Lemma tool_throws e sent :
  body (h ++ [Invoked])%list = (Throw e, sent) ->
  isRetryable (ThrownMCP (handleGraphError e)) (withDefaults noOptions) = false ->
  retryWithBackoff rt (tryCatch body) noOptions h
  = (Throw (ThrownMCP (handleGraphError e)), Invoked :: map Requested sent).
Proof.
  intros H Hnr. unfold retryWithBackoff.
  rewrite (retryLoop_give_up rt (tryCatch body) (withDefaults noOptions) _ 0 None h
             (ThrownMCP (handleGraphError e)) sent).
  - reflexivity.
  - unfold tryCatch. rewrite H. reflexivity.
  - right. exact Hnr.
Qed.

End ToolRun.

(** *** Every operation has the builder shape *)

Ltac builder :=
  repeat (cbv zeta;
          first [ apply Builder_whole
                | apply Builder_page
                | apply Builder_checked
                | apply Builder_reading; intros ?
                | apply Builder_validate; [auto with validators | intros ?] ]).

Lemma run_is_builder (rt : Runtime) (op : Operation) :
  exists body,
    run rt op = retryWithBackoff rt (tryCatch body) noOptions
    /\ Builder rt (postOf op) body.
Proof.
  destruct op; eexists; (split; [reflexivity|]); unfold postOf; simpl; builder.
Qed.

(** The events of a run start with the first invocation and the requests
    it sent. *)
Lemma tool_first_attempt (rt : Runtime) (body : Op JsValue) (h : History) :
  exists rest,
    snd (retryWithBackoff rt (tryCatch body) noOptions h)
    = ((Invoked :: map Requested (snd (body (h ++ [Invoked])%list))) ++ rest)%list.
Proof.
  unfold retryWithBackoff.
  destruct (tryCatch body (h ++ [Invoked])%list) as [[a | e] sent] eqn:Hcall.
  - exists []. rewrite (retryLoop_success rt _ _ _ _ _ _ a sent Hcall).
    unfold tryCatch in Hcall.
    destruct (body (h ++ [Invoked])%list) as [[a' | e'] sent']; simpl in Hcall;
      [injection Hcall as _ <- | discriminate].
    cbn [snd]. rewrite List.app_nil_r. reflexivity.
  - assert (Hsent : snd (body (h ++ [Invoked])%list) = sent).
    { unfold tryCatch in Hcall.
      destruct (body (h ++ [Invoked])%list) as [[a' | e'] sent']; simpl in Hcall;
        [discriminate | injection Hcall as _ <-; reflexivity]. }
    rewrite Hsent.
    destruct (isRetryable e (withDefaults noOptions)) eqn:Hr.
    + assert (Hne : 0 <> maxRetries (withDefaults noOptions)) by (cbv; discriminate).
      rewrite (retryLoop_retry rt _ _ _ _ _ _ e sent Hcall Hne Hr).
      cbv zeta. cbn [snd]. eexists. reflexivity.
    + rewrite (retryLoop_give_up rt _ _ _ _ _ _ e sent Hcall (or_intror Hr)).
      exists []. cbn [snd]. rewrite List.app_nil_r. reflexivity.
Qed.

Lemma requests_first_attempt (sent : list Request) (rest : list Event) :
  requests ((Invoked :: map Requested sent) ++ rest)%list
  = (sent ++ requests rest)%list.
Proof.
  simpl. induction sent as [|r sent IH]; simpl; [|rewrite IH]; reflexivity.
Qed.

(** In every operation, a failure before any request is sent surfaces as
    [UNKNOWN_ERROR], after a single invocation. *)
Lemma validation_failure_surfaces_unknown (rt : Runtime) (op : Operation)
  (h : History) :
  requests (snd (run rt op h)) = [] ->
  failsWith (fst (run rt op h)) UNKNOWN_ERROR /\ snd (run rt op h) = [Invoked].
Proof.
  destruct (run_is_builder rt op) as [body [-> Hb]]. intros Hnone.
  destruct (Builder_outcome rt _ body Hb (h ++ [Invoked])%list)
    as [[m [Hbody Hm]] | [request Hbody]].
  - rewrite (tool_throws rt body h (ThrownMCP m) [] Hbody (handled_not_retryable m)).
    split; [|reflexivity].
    eexists. split; [reflexivity | apply handled_is_unknown].
  - exfalso. destruct (tool_first_attempt rt body h) as [rest Hev].
    rewrite Hev, requests_first_attempt, Hbody in Hnone. discriminate.
Qed.

(** C1 (the code at the failing input).  [getUserGroups("x", 1000)]: the
    validator refuses 1000 with [INVALID_PARAMETER] and no request is sent,
    but the operation's [catch] hands the error to [handleGraphError], and
    what the operation throws, after one invocation, is an [MCPError] of
    kind [UNKNOWN_ERROR]. *)
Theorem getUserGroups_top_1000_surfaces_unknown_error (rt : Runtime) (h : History) :
  failsWith (validateTop rt (JNum (ofZ 1000)) DEFAULT_TOP_MEDIUM MAX_TOP)
    INVALID_PARAMETER
  /\ snd (GroupTools.getUserGroups rt (JStr "x") (JNum (ofZ 1000)) h) = [Invoked]
  /\ requests (snd (GroupTools.getUserGroups rt (JStr "x") (JNum (ofZ 1000)) h)) = []
  /\ failsWith (fst (GroupTools.getUserGroups rt (JStr "x") (JNum (ofZ 1000)) h))
       UNKNOWN_ERROR
  /\ ~ failsWith (fst (GroupTools.getUserGroups rt (JStr "x") (JNum (ofZ 1000)) h))
         INVALID_PARAMETER.
Proof.
  assert (Hrun : GroupTools.getUserGroups rt (JStr "x") (JNum (ofZ 1000)) h
                 = (Throw (ThrownMCP
                      (mkMCPError ("top cannot exceed " ++ numberToString rt MAX_TOP)
                         UNKNOWN_ERROR
                         (Some [("originalError",
                                 JStr ("top cannot exceed " ++ numberToString rt MAX_TOP))]))),
                    [Invoked])) by reflexivity.
  rewrite Hrun. cbn [fst snd].
  split; [eexists; split; reflexivity|].
  split; [reflexivity|]. split; [reflexivity|].
  split; [eexists; split; reflexivity|].
  intros [m [Hm Hc]]. injection Hm as <-. discriminate.
Qed.

(** C2 (the code at the failing input).  [getUserSignIns("o'brien")]: the
    first request carries the user id between quotes as it was given, its
    quote not doubled, whereas [escapeODataString] would have made it
    [o''brien]. *)
Theorem getUserSignIns_does_not_escape_userId (rt : Runtime) (h : History) :
  exists request rest,
    requests (snd (UserTools.getUserSignIns rt (JStr "o'brien") JUndefined h))
    = request :: rest
    /\ filter request
       = Some ("userId eq 'o'brien' and createdDateTime ge "
               ++ formatODataDate rt
                    (getDateOffset rt (h ++ [Invoked])%list DEFAULT_DAYS))
    /\ escapeODataString (JStr "o'brien") = Ok "o''brien".
Proof.
  unfold UserTools.getUserSignIns. cbv zeta.
  match goal with
  | |- context [retryWithBackoff rt (tryCatch ?body) noOptions h] =>
      destruct (tool_first_attempt rt body h) as [rest Hev];
      assert (Hsent : exists request,
                 snd (body (h ++ [Invoked])%list) = [request]
                 /\ filter request
                    = Some ("userId eq 'o'brien' and createdDateTime ge "
                            ++ formatODataDate rt
                                 (getDateOffset rt (h ++ [Invoked])%list DEFAULT_DAYS)))
  end.
  { exists (withOrderby (JStr "createdDateTime desc")
              (withFilter
                 ("userId eq 'o'brien' and createdDateTime ge "
                  ++ formatODataDate rt
                       (getDateOffset rt (h ++ [Invoked])%list DEFAULT_DAYS))
                 (api "/auditLogs/signIns"))).
    split; [|reflexivity].
    simpl. unfold reading, bind, get.
    match goal with
    | |- context [graphGet rt ?a ?b] =>
        destruct (graphGet rt a b) as [response | e]; [|reflexivity]
    end.
    unfold bindResult, pure.
    destruct (validateResponse response true); reflexivity. }
  destruct Hsent as [request [Hsent Hfilter]].
  exists request, (requests rest).
  rewrite Hev, requests_first_attempt, Hsent. auto.
Qed.

(** *** A page envelope without [value] *)

Lemma valueOrEmpty_missing (fields : list (string * JsValue)) :
  lookup "value" fields = None -> valueOrEmpty (JObj fields) = Ok (JArr []).
Proof. intros H. unfold valueOrEmpty, getValue. rewrite H. reflexivity. Qed.

Lemma checkedPage_missing (fields : list (string * JsValue)) :
  lookup "value" fields = None ->
  exists m, checkedPage (JObj fields) = Throw (ThrownMCP m).
Proof.
  intros H. unfold checkedPage, validateResponse. rewrite H.
  eexists. reflexivity.
Qed.

(** C3 (the claim as stated, at a failing input).  [listUsers()] against a
    remote API that answers with the empty object: the request is sent and
    answered, and the operation throws where the claim has it return the
    empty list. *)
Lemma listUsers_missing_value_throws :
  listShaped (ListUsers noQueryOptions) = true
  /\ requests (snd (run emptyPageRuntime (ListUsers noQueryOptions) []))
     = [withTop DEFAULT_TOP_LARGE (api "/users")]
  /\ graphGet emptyPageRuntime [Invoked] (withTop DEFAULT_TOP_LARGE (api "/users"))
     = Ok (JObj [])
  /\ lookup "value" [] = None
  /\ fst (run emptyPageRuntime (ListUsers noQueryOptions) [])
     = Throw (ThrownMCP
         (mkMCPError "Response does not contain expected value array"
            UNKNOWN_ERROR
            (Some [("originalError",
                    JStr "Response does not contain expected value array")])))
  /\ fst (run emptyPageRuntime (ListUsers noQueryOptions) []) <> Ok (JArr []).
Proof.
  repeat split; try reflexivity. discriminate.
Qed.

(** C3 (amended).  Against a remote API that answers every request with an
    object without [value]: a list-shaped operation that does not call
    [validateResponse] returns the empty list whenever it sent a request;
    the list-shaped operations of [UserTools], which call
    [validateResponse] first, throw an [MCPError] instead. *)
Theorem missing_value_page (rt : Runtime) (op : Operation) (h : History) :
  listShaped op = true ->
  (forall h' request, exists fields,
      graphGet rt h' request = Ok (JObj fields) /\ lookup "value" fields = None) ->
  (checksEnvelope op = false ->
   requests (snd (run rt op h)) <> [] -> fst (run rt op h) = Ok (JArr []))
  /\ (checksEnvelope op = true ->
      exists m, fst (run rt op h) = Throw (ThrownMCP m)).
Proof.
  intros Hlist Hremote.
  destruct (run_is_builder rt op) as [body [Hrun Hb]].
  unfold postOf in Hb. rewrite Hlist in Hb. rewrite Hrun.
  destruct (Builder_outcome rt _ body Hb (h ++ [Invoked])%list)
    as [[m [Hbody Hm]] | [request Hbody]].
  - rewrite (tool_throws rt body h (ThrownMCP m) [] Hbody (handled_not_retryable m)).
    cbn [fst snd map requests]. split.
    + intros _ Hsent. exfalso. apply Hsent. reflexivity.
    + intros _. eexists. reflexivity.
  - destruct (Hremote (h ++ [Invoked])%list request) as [fields [Hget Hmissing]].
    rewrite Hget in Hbody. split; intros Hcheck; rewrite Hcheck in Hbody.
    + intros _. rewrite (valueOrEmpty_missing fields Hmissing) in Hbody.
      rewrite (tool_returns rt body h _ _ Hbody). reflexivity.
    + destruct (checkedPage_missing fields Hmissing) as [m Hm].
      rewrite Hm in Hbody.
      rewrite (tool_throws rt body h (ThrownMCP m) [request] Hbody
                 (handled_not_retryable m)).
      eexists. reflexivity.
Qed.

(** A run of C3 as amended: [listGroups()] and [listUsers()] against the
    remote API that answers with the empty object. *)
Lemma missing_value_page_witness :
  fst (run emptyPageRuntime (ListGroups noQueryOptions) []) = Ok (JArr [])
  /\ exists m,
       fst (run emptyPageRuntime (ListUsers noQueryOptions) [])
       = Throw (ThrownMCP m).
Proof.
  assert (Hremote : forall (h' : History) (request : Request), exists fields,
             graphGet emptyPageRuntime h' request = Ok (JObj fields)
             /\ lookup "value" fields = None).
  { intros h' request. exists []. split; reflexivity. }
  split.
  - apply (proj1 (missing_value_page emptyPageRuntime (ListGroups noQueryOptions) []
                    eq_refl Hremote)).
    + reflexivity.
    + discriminate.
  - apply (proj2 (missing_value_page emptyPageRuntime (ListUsers noQueryOptions) []
                    eq_refl Hremote)).
    reflexivity.
Defined.

(** *** The search operations escape their term *)

Lemma validateString_nonblank (s fieldName : string) :
  ~ blank s -> validateString (JStr s) fieldName false = Ok s.
Proof.
  intros Hnb. unfold validateString. simpl.
  destruct (String.eqb_spec (Str.trim s) EmptyString) as [E | _]; [|reflexivity].
  apply trim_blank in E. contradiction.
Qed.

Lemma firstFilter_first_attempt (run : Result JsValue * list Event)
  (request : Request) (rest : list Event) :
  snd run = ((Invoked :: map Requested [request]) ++ rest)%list ->
  firstFilter run = filter request.
Proof. intros H. unfold firstFilter. rewrite H. reflexivity. Qed.

(** The first request of a search, from the shape of its body. *)
Ltac first_search_request Hnb :=
  cbv zeta;
  match goal with
  | |- firstFilter (retryWithBackoff ?rt (tryCatch ?body) noOptions ?h) = _ =>
      destruct (tool_first_attempt rt body h) as [rest Hev];
      generalize dependent (retryWithBackoff rt (tryCatch body) noOptions h);
      intros theRun Hev;
      unfold bindResult at 1 in Hev;
      rewrite (validateString_nonblank _ _ Hnb) in Hev;
      simpl in Hev; unfold bind, get in Hev;
      match type of Hev with
      | context [graphGet rt ?a ?b] =>
          destruct (graphGet rt a b) as [response | e] eqn:Hget
      end;
      [ unfold bindResult, pure in Hev;
        try match type of Hev with
            | context [validateResponse ?r true] =>
                destruct (validateResponse r true)
            end
      | ];
      cbn [snd app] in Hev;
      rewrite (firstFilter_first_attempt _ _ _ Hev); reflexivity
  end.

Section Searches.

Variable rt : Runtime.
Variable h : History.
Variable s : string.
Hypothesis Hnb : ~ blank s.

Let escaped : string := Str.replaceAll Str.quote "''" s.

Lemma searchUsers_escapes_term :
  firstFilter (UserTools.searchUsers rt (JStr s) JUndefined h)
  = Some ("startswith(displayName,'" ++ escaped
          ++ "') or startswith(givenName,'" ++ escaped
          ++ "') or startswith(surname,'" ++ escaped
          ++ "') or startswith(mail,'" ++ escaped
          ++ "') or startswith(userPrincipalName,'" ++ escaped ++ "')").
Proof. unfold UserTools.searchUsers. first_search_request Hnb. Qed.

Lemma searchGroups_escapes_term :
  firstFilter (GroupTools.searchGroups rt (JStr s) JUndefined h)
  = Some ("startswith(displayName,'" ++ escaped
          ++ "') or startswith(mail,'" ++ escaped ++ "')").
Proof. unfold GroupTools.searchGroups. first_search_request Hnb. Qed.

Lemma searchApplications_escapes_term :
  firstFilter (ApplicationTools.searchApplications rt (JStr s) JUndefined h)
  = Some ("startswith(displayName,'" ++ escaped
          ++ "') or startswith(appId,'" ++ escaped ++ "')").
Proof. unfold ApplicationTools.searchApplications. first_search_request Hnb. Qed.

Lemma searchDevices_escapes_term :
  firstFilter (DeviceTools.searchDevices rt (JStr s) JUndefined h)
  = Some ("startswith(displayName,'" ++ escaped
          ++ "') or startswith(deviceId,'" ++ escaped
          ++ "') or startswith(operatingSystem,'" ++ escaped ++ "')").
Proof. unfold DeviceTools.searchDevices. first_search_request Hnb. Qed.

(** [getUserSignIns] puts the user id between the quotes as it is. *)
Lemma getUserSignIns_filter :
  firstFilter (UserTools.getUserSignIns rt (JStr s) JUndefined h)
  = Some ("userId eq '" ++ s ++ "' and createdDateTime ge "
          ++ formatODataDate rt
               (getDateOffset rt (h ++ [Invoked])%list DEFAULT_DAYS)).
Proof.
  unfold UserTools.getUserSignIns. cbv zeta.
  match goal with
  | |- firstFilter (retryWithBackoff ?rt (tryCatch ?body) noOptions ?h) = _ =>
      destruct (tool_first_attempt rt body h) as [rest Hev];
      generalize dependent (retryWithBackoff rt (tryCatch body) noOptions h);
      intros theRun Hev
  end.
  unfold bindResult at 1 in Hev.
  rewrite (validateString_nonblank _ _ Hnb) in Hev.
  simpl in Hev. unfold reading, bind, get in Hev.
  match type of Hev with
  | context [graphGet rt ?a ?b] => destruct (graphGet rt a b) as [response | e]
  end.
  - unfold bindResult, pure in Hev.
    destruct (validateResponse response true); cbn [snd app] in Hev;
      rewrite (firstFilter_first_attempt _ _ _ Hev); reflexivity.
  - cbn [snd app] in Hev.
    rewrite (firstFilter_first_attempt _ _ _ Hev). reflexivity.
Qed.

End Searches.

(* ================================================================== *)
(** * Further properties of the sources *)

(* ------------------------------------------------------------------ *)
(** ** The other validators *)

(** X1.  [validateString] returns a string that is not blank as it is
    (nothing is trimmed), and every string when empty values are allowed;
    it fails with [INVALID_PARAMETER] on a blank string otherwise, and on
    every value that is not a string, [undefined] and [null] included. *)
Theorem validateString_contract :
  (forall s fieldName, ~ blank s ->
     validateString (JStr s) fieldName false = Ok s)
  /\ (forall s fieldName, validateString (JStr s) fieldName true = Ok s)
  /\ (forall s fieldName, blank s ->
        failsWith (validateString (JStr s) fieldName false) INVALID_PARAMETER)
  /\ (forall v fieldName allowEmpty, (forall s, v <> JStr s) ->
        failsWith (validateString v fieldName allowEmpty) INVALID_PARAMETER).
Proof.
  split; [|split; [|split]].
  - intros s fieldName Hnb. apply validateString_nonblank. exact Hnb.
  - intros s fieldName. reflexivity.
  - intros s fieldName Hb. unfold validateString. simpl.
    apply trim_blank in Hb. rewrite Hb. apply invalid_failsWith.
  - intros v fieldName allowEmpty Hv. unfold validateString.
    destruct v; simpl; try apply invalid_failsWith.
    exfalso. exact (Hv s eq_refl).
Qed.

(** A run of X1: a padded name is kept with its padding, a string of spaces
    is refused, a number is refused, and so is the string made of
    U+00A0. *)
Lemma validateString_contract_witness :
  validateString (JStr " ada ") "userId" false = Ok " ada "
  /\ failsWith (validateString (JStr "  ") "userId" false) INVALID_PARAMETER
  /\ failsWith (validateString (JNum (ofZ 7)) "userId" false) INVALID_PARAMETER
  /\ failsWith (validateString (JStr (bytes [194; 160])) "userId" false)
       INVALID_PARAMETER.
Proof.
  destruct validateString_contract as [Hkeep [_ [Hblank Hother]]].
  split; [|split; [|split]]; [| | |apply Hblank; apply blank_computed; reflexivity].
  - apply Hkeep. apply nonblank_computed. reflexivity.
  - apply Hblank. apply blank_computed. reflexivity.
  - apply Hother. discriminate.
Defined.

(** X2.  [validateOptionalString] gives no value for [undefined] and
    [null] and returns a string that is not blank as it is; a blank string
    is not taken for an absent one: it fails with [INVALID_PARAMETER], as
    every other value does. *)
Theorem validateOptionalString_contract :
  (forall fieldName, validateOptionalString JUndefined fieldName = Ok None)
  /\ (forall fieldName, validateOptionalString JNull fieldName = Ok None)
  /\ (forall s fieldName, ~ blank s ->
        validateOptionalString (JStr s) fieldName = Ok (Some s))
  /\ (forall s fieldName, blank s ->
        failsWith (validateOptionalString (JStr s) fieldName) INVALID_PARAMETER)
  /\ (forall v fieldName, nullish v = false -> (forall s, v <> JStr s) ->
        failsWith (validateOptionalString v fieldName) INVALID_PARAMETER).
Proof.
  split; [|split; [|split; [|split]]]; try reflexivity.
  - intros s fieldName Hnb. unfold validateOptionalString. simpl nullish. cbv iota.
    rewrite (validateString_nonblank s fieldName Hnb). reflexivity.
  - intros s fieldName Hb. unfold validateOptionalString, validateString. simpl.
    apply trim_blank in Hb. rewrite Hb. apply invalid_failsWith.
  - intros v fieldName Hn Hv. unfold validateOptionalString, validateString.
    rewrite Hn. destruct v; try apply invalid_failsWith.
    exfalso. exact (Hv s eq_refl).
Qed.

(** A run of X2: a category is kept, a space is refused, a boolean is
    refused, and so is the string made of U+FEFF. *)
Lemma validateOptionalString_contract_witness :
  validateOptionalString (JStr "UserManagement") "category"
  = Ok (Some "UserManagement")
  /\ failsWith (validateOptionalString (JStr " ") "category") INVALID_PARAMETER
  /\ failsWith (validateOptionalString (JBool true) "category") INVALID_PARAMETER
  /\ failsWith (validateOptionalString (JStr (bytes [239; 187; 191])) "category")
       INVALID_PARAMETER.
Proof.
  destruct validateOptionalString_contract as [_ [_ [Hkeep [Hblank Hother]]]].
  split; [|split; [|split]]; [| | |apply Hblank; apply blank_computed; reflexivity].
  - apply Hkeep. apply nonblank_computed. reflexivity.
  - apply Hblank. apply blank_computed. reflexivity.
  - apply Hother; [reflexivity | discriminate].
Defined.

(** X3.  [validateDays] returns a whole number between 1 and 365 as it is;
    zero, a negative number, a number that is not whole, a number above
    365, [NaN], an infinity and a value that is not a number fail with
    [INVALID_PARAMETER]; [undefined] and [null] give the default, whatever
    it is. *)
Theorem validateDays_contract (rt : Runtime) (defaultValue : JsNumber) :
  (forall q : Q, isWhole q -> (1 <= q)%Q -> (q <= 365)%Q ->
     validateDays rt (JNum (Fin q)) defaultValue = Ok (Fin q))
  /\ (forall q : Q, (q == 0 \/ q < 0 \/ ~ isWhole q \/ 365 < q)%Q ->
        failsWith (validateDays rt (JNum (Fin q)) defaultValue) INVALID_PARAMETER)
  /\ failsWith (validateDays rt (JNum NaN) defaultValue) INVALID_PARAMETER
  /\ (forall negative,
        failsWith (validateDays rt (JNum (Inf negative)) defaultValue)
          INVALID_PARAMETER)
  /\ (forall v, nullish v = false -> (forall n, v <> JNum n) ->
        failsWith (validateDays rt v defaultValue) INVALID_PARAMETER)
  /\ validateDays rt JUndefined defaultValue = Ok defaultValue
  /\ validateDays rt JNull defaultValue = Ok defaultValue.
Proof.
  repeat split.
  - intros q Hw H1 Hhi. unfold validateDays. simpl nullish. cbv iota.
    apply isInteger_whole in Hw. rewrite Hw. simpl negb. cbv iota.
    assert (Hlo : lt (Fin q) (ofZ 1) = false) by (apply lt_Fin_false; exact H1).
    rewrite Hlo.
    assert (Hup : gt (Fin q) MAX_DAYS = false)
      by (unfold gt; apply lt_Fin_false; exact Hhi).
    rewrite Hup. reflexivity.
  - intros q Hq. unfold validateDays. simpl nullish. cbv iota.
    destruct (isInteger (Fin q)) eqn:Hint; simpl negb; cbv iota;
      [|apply invalid_failsWith].
    destruct (lt (Fin q) (ofZ 1)) eqn:Hlo; [apply invalid_failsWith|].
    destruct (gt (Fin q) MAX_DAYS) eqn:Hup; [apply invalid_failsWith|].
    exfalso. apply lt_Fin_false in Hlo. unfold gt in Hup.
    apply lt_Fin_false in Hup. apply isInteger_whole in Hint.
    destruct Hq as [H0 | [Hneg | [Hnw | Hbig]]].
    + rewrite H0 in Hlo. revert Hlo. apply Qlt_not_le. reflexivity.
    + apply (Qlt_not_le _ _ Hneg). eapply Qle_trans; [|exact Hlo]. discriminate.
    + exact (Hnw Hint).
    + exact (Qlt_not_le _ _ Hbig Hup).
  - apply invalid_failsWith.
  - intros negative. apply invalid_failsWith.
  - intros v Hn Hv. unfold validateDays. rewrite Hn.
    destruct v; try apply invalid_failsWith. exfalso. exact (Hv n eq_refl).
Qed.

(** A run of X3 at 90 (kept), 366 and one half (refused). *)
Lemma validateDays_contract_witness :
  let rt := fixedRuntime 0 EmptyString (Ok JNull) in
  validateDays rt (JNum (Fin 90)) DEFAULT_DAYS = Ok (Fin 90)
  /\ failsWith (validateDays rt (JNum (Fin 366)) DEFAULT_DAYS) INVALID_PARAMETER
  /\ failsWith (validateDays rt (JNum (Fin (1 # 2))) DEFAULT_DAYS) INVALID_PARAMETER.
Proof.
  intros rt.
  destruct (validateDays_contract rt DEFAULT_DAYS) as [Hkeep [Hrefuse _]].
  split; [|split].
  - apply Hkeep; [exists 90%Z; reflexivity | discriminate | discriminate].
  - apply Hrefuse. right. right. right. reflexivity.
  - apply Hrefuse. right. right. left. intros [z Hz].
    unfold Qeq in Hz. simpl in Hz. lia.
Defined.

Lemma allStrings_map (l : list string) : allStrings (map JStr l) = Some l.
Proof. induction l as [|s l IH]; simpl; [|rewrite IH]; reflexivity. Qed.

Lemma allStrings_none (items : list JsValue) :
  (exists v, In v items /\ forall s, v <> JStr s) -> allStrings items = None.
Proof.
  induction items as [|x items IH]; intros [v [Hin Hv]]; [destruct Hin|].
  simpl. destruct Hin as [-> | Hin].
  - destruct v; try reflexivity. exfalso. exact (Hv s eq_refl).
  - rewrite IH by (exists v; auto). destruct (asString x); reflexivity.
Qed.

(** X4.  [validateStringArray] gives no value for [undefined], [null] and
    the empty array, returns the strings of an array of strings that is not
    empty, in order, and fails with [INVALID_PARAMETER] on an array with an
    element that is not a string and on a value that is not an array. *)
Theorem validateStringArray_contract (fieldName : string) :
  validateStringArray JUndefined fieldName = Ok None
  /\ validateStringArray JNull fieldName = Ok None
  /\ validateStringArray (JArr []) fieldName = Ok None
  /\ (forall l, l <> [] ->
        validateStringArray (JArr (map JStr l)) fieldName = Ok (Some l))
  /\ (forall items, (exists v, In v items /\ forall s, v <> JStr s) ->
        failsWith (validateStringArray (JArr items) fieldName) INVALID_PARAMETER)
  /\ (forall v, nullish v = false -> (forall items, v <> JArr items) ->
        failsWith (validateStringArray v fieldName) INVALID_PARAMETER).
Proof.
  split; [|split; [|split; [|split; [|split]]]]; try reflexivity.
  - intros l Hl. unfold validateStringArray. simpl nullish. cbv iota.
    rewrite allStrings_map. destruct l; [contradiction | reflexivity].
  - intros items Hbad. unfold validateStringArray. simpl nullish. cbv iota.
    rewrite (allStrings_none items Hbad). apply invalid_failsWith.
  - intros v Hn Hv. unfold validateStringArray. rewrite Hn.
    destruct v; try apply invalid_failsWith. exfalso. exact (Hv items eq_refl).
Qed.

(** A run of X4. *)
Lemma validateStringArray_contract_witness :
  validateStringArray (JArr [JStr "id"; JStr "mail"]) "select"
  = Ok (Some ["id"; "mail"])
  /\ failsWith (validateStringArray (JArr [JStr "id"; JNum (ofZ 1)]) "select")
       INVALID_PARAMETER
  /\ failsWith (validateStringArray (JStr "id") "select") INVALID_PARAMETER.
Proof.
  destruct (validateStringArray_contract "select")
    as [_ [_ [_ [Hkeep [Hbad Hother]]]]].
  split; [|split].
  - apply (Hkeep ["id"; "mail"]). discriminate.
  - apply Hbad. exists (JNum (ofZ 1)). split; [right; left; reflexivity|].
    discriminate.
  - apply Hother; [reflexivity | discriminate].
Defined.

(** X5.  [validateResponse], when an array is expected, returns the
    response as it is exactly when it is an object whose [value] is an
    array, and fails with [INVALID_RESPONSE] on anything else (an array, an
    object without [value] or with a [value] that is no array, a primitive,
    [null]); when no array is expected it accepts every object and every
    array and fails on the rest. *)
Theorem validateResponse_contract (response : JsValue) :
  ((exists items, pageEnvelope response items) ->
     validateResponse response true = Ok response)
  /\ (~ (exists items, pageEnvelope response items) ->
        failsWith (validateResponse response true) INVALID_RESPONSE)
  /\ (isObjectValue response -> validateResponse response false = Ok response)
  /\ (~ isObjectValue response ->
        failsWith (validateResponse response false) INVALID_RESPONSE).
Proof.
  assert (Hfail : forall A msg, failsWith (@invalidResponse A msg) INVALID_RESPONSE)
    by (intros A msg; eexists; split; reflexivity).
  split; [|split; [|split]].
  - intros [items [fields [-> Hl]]]. simpl. rewrite Hl. reflexivity.
  - intros Hno. destruct response; try apply Hfail.
    simpl. destruct (lookup "value" fields) as [v|] eqn:Hl; [|apply Hfail].
    destruct v; try apply Hfail.
    exfalso. apply Hno. exists items, fields. auto.
  - intros [[fields ->] | [items ->]]; reflexivity.
  - intros Hno. destruct response; try apply Hfail; exfalso; apply Hno.
    + right. eexists. reflexivity.
    + left. eexists. reflexivity.
Qed.

(** A run of X5. *)
Lemma validateResponse_contract_witness :
  validateResponse (JObj [("value", JArr [])]) true = Ok (JObj [("value", JArr [])])
  /\ failsWith (validateResponse (JObj [("value", JStr "x")]) true) INVALID_RESPONSE
  /\ validateResponse (JArr []) false = Ok (JArr [])
  /\ failsWith (validateResponse JNull false) INVALID_RESPONSE.
Proof.
  split; [|split; [|split]].
  - apply (proj1 (validateResponse_contract _)). exists [], [("value", JArr [])].
    split; reflexivity.
  - apply (proj1 (proj2 (validateResponse_contract _))).
    intros [items [fields [Hf Hl]]]. injection Hf as <-. discriminate Hl.
  - apply (proj1 (proj2 (proj2 (validateResponse_contract _)))).
    right. eexists. reflexivity.
  - apply (proj2 (proj2 (proj2 (validateResponse_contract _)))).
    intros [[fields H] | [items H]]; discriminate H.
Defined.

(** X6.  What [validateTop] returns, under the maximum 999, is either the
    default (for [undefined] and [null]; the default is not checked) or the
    number it was given, which is then whole and between 1 and 999 and
    which [validateTop] returns again when it is validated once more,
    whatever the default. *)
Theorem validateTop_result (rt : Runtime) (v : JsValue) (defaultValue n : JsNumber) :
  validateTop rt v defaultValue MAX_TOP = Ok n ->
  (nullish v = true /\ n = defaultValue)
  \/ (v = JNum n /\ wholeBetween1And 999 n
      /\ forall d, validateTop rt (JNum n) d MAX_TOP = Ok n).
Proof.
  unfold validateTop. destruct (nullish v) eqn:Hn.
  - intros H. injection H as <-. left. auto.
  - intros H. right.
    destruct v as [| | b | x | s | items | fields]; try discriminate H.
    simpl nullish. cbv iota.
    destruct (negb (isInteger x)) eqn:Hi; [discriminate H|].
    destruct (lt x (ofZ 1)) eqn:Hlo; [discriminate H|].
    destruct (gt x MAX_TOP) eqn:Hhi; [discriminate H|].
    injection H as <-. split; [reflexivity|].
    split; [|intros d; rewrite Hi, Hlo, Hhi; reflexivity].
    apply negb_false_iff in Hi. destruct x as [| negative | q]; try discriminate Hi.
    exists q. split; [reflexivity|]. split; [apply isInteger_whole; exact Hi|].
    split; [apply lt_Fin_false; exact Hlo|].
    unfold gt in Hhi. apply lt_Fin_false in Hhi. exact Hhi.
Qed.

(** A run of X6 at 25. *)
Lemma validateTop_result_witness :
  let rt := fixedRuntime 0 EmptyString (Ok JNull) in
  (nullish (JNum (Fin 25)) = true /\ Fin 25 = DEFAULT_TOP_LARGE)
  \/ (JNum (Fin 25) = JNum (Fin 25) /\ wholeBetween1And 999 (Fin 25)
      /\ forall d, validateTop rt (JNum (Fin 25)) d MAX_TOP = Ok (Fin 25)).
Proof.
  intros rt.
  apply (validateTop_result rt (JNum (Fin 25)) DEFAULT_TOP_LARGE (Fin 25)).
  reflexivity.
Defined.

(** X7.  A filter that [validateFilter] lets through is the string it was
    given, is not blank and contains no denylisted token, whatever the
    letter case; when [validateFilter] gives no value, the input was
    [undefined], [null] or a blank string. *)
Theorem validateFilter_result (v : JsValue) :
  (forall s, validateFilter v = Ok (Some s) ->
     v = JStr s /\ ~ blank s
     /\ forall token, In token dangerous -> ~ containsIgnoringCase s token)
  /\ (validateFilter v = Ok None ->
      nullish v = true \/ exists s, v = JStr s /\ blank s).
Proof.
  unfold validateFilter. destruct (nullish v) eqn:Hn.
  - split; [intros s H; discriminate H | intros _; left; reflexivity].
  - destruct v as [| | b | x | t | items | fields];
      try (split; [intros s H; discriminate H | intros H; discriminate H]).
    destruct (String.eqb_spec (Str.trim t) EmptyString) as [E | E].
    + split; [intros s H; discriminate H|]. intros _. right. exists t.
      split; [reflexivity | apply trim_blank; exact E].
    + destruct (firstDangerous (Str.toLowerCase t) dangerous) as [d|] eqn:Hd.
      * split; [intros s H; discriminate H | intros H; discriminate H].
      * split; [|intros H; discriminate H].
        intros s H. injection H as <-. split; [reflexivity|].
        split; [intros Hb; apply E; apply trim_blank; exact Hb|].
        intros token Hin Hc.
        destruct (firstDangerous_some (Str.toLowerCase t) dangerous) as [d' Hd'].
        { exists token. split; [exact Hin | apply includes_lower_spec; exact Hc]. }
        congruence.
Qed.

(** A run of X7. *)
Lemma validateFilter_result_witness :
  JStr "mail eq 'a@b.c'" = JStr "mail eq 'a@b.c'" /\ ~ blank "mail eq 'a@b.c'"
  /\ forall token, In token dangerous ->
       ~ containsIgnoringCase "mail eq 'a@b.c'" token.
Proof.
  apply (proj1 (validateFilter_result (JStr "mail eq 'a@b.c'"))). reflexivity.
Defined.

(* ------------------------------------------------------------------ *)
(** ** The classifier *)

Lemma mapGraphErrorCode_range (c : string) :
  In (mapGraphErrorCode c)
    [UNAUTHORIZED; FORBIDDEN; NOT_FOUND; RATE_LIMITED; INVALID_PARAMETER; TIMEOUT;
     GRAPH_API_ERROR].
Proof.
  unfold mapGraphErrorCode.
  repeat match goal with
  | |- context [if ?b then _ else _] => destruct b
  end; simpl; tauto.
Qed.

Lemma classifyStatus_range (s : Z) (m : MCPError) :
  classifyStatus s = Some m ->
  In (code m) [UNAUTHORIZED; FORBIDDEN; NOT_FOUND; RATE_LIMITED; GRAPH_API_ERROR].
Proof.
  unfold classifyStatus.
  repeat match goal with
  | |- context [if ?b then _ else _] => destruct b
  end; intros H; try discriminate H; injection H as <-; simpl; tauto.
Qed.

Lemma classifyNetwork_range (e : Thrown) :
  In (code (classifyNetwork e)) [NETWORK_ERROR; UNKNOWN_ERROR].
Proof.
  unfold classifyNetwork.
  destruct (codeIs e "ECONNREFUSED" || codeIs e "ENOTFOUND" || codeIs e "ETIMEDOUT");
    simpl; tauto.
Qed.

(** X8.  Whatever is thrown, what [handleGraphError] throws has one of nine
    kinds: it is never [INTERNAL_ERROR], [MISSING_PARAMETER] or
    [INVALID_RESPONSE], and [INVALID_PARAMETER] and [TIMEOUT] come from a
    vendor code only. *)
Theorem handleGraphError_kinds (e : Thrown) :
  In (code (handleGraphError e))
    [UNAUTHORIZED; FORBIDDEN; NOT_FOUND; RATE_LIMITED; INVALID_PARAMETER; TIMEOUT;
     GRAPH_API_ERROR; NETWORK_ERROR; UNKNOWN_ERROR]
  /\ ((code (handleGraphError e) = INVALID_PARAMETER
       \/ code (handleGraphError e) = TIMEOUT) ->
      exists vendorCode, hasVendorCode e vendorCode).
Proof.
  unfold handleGraphError.
  destruct (response e) as [[[ge|] st hd]|] eqn:Hr.
  - split.
    + pose proof (mapGraphErrorCode_range (orElse (ge_code ge) EmptyString)) as H.
      simpl in *. tauto.
    + intros Hk. simpl in Hk. destruct (ge_code ge) as [c|] eqn:Hc.
      * exists c. exists (mkResponse (Some ge) st hd), ge. auto.
      * exfalso. simpl in Hk. destruct Hk as [Hk | Hk]; discriminate Hk.
  - assert (Hkinds :
      In (code match truthyStatus e with
               | Some status =>
                   match classifyStatus status with
                   | Some thrown => thrown
                   | None => classifyNetwork e
                   end
               | None => classifyNetwork e
               end)
        [UNAUTHORIZED; FORBIDDEN; NOT_FOUND; RATE_LIMITED; GRAPH_API_ERROR;
         NETWORK_ERROR; UNKNOWN_ERROR]).
    { destruct (truthyStatus e) as [s|].
      - destruct (classifyStatus s) as [m|] eqn:Hs.
        + pose proof (classifyStatus_range s m Hs) as H. simpl in *. tauto.
        + pose proof (classifyNetwork_range e) as H. simpl in *. tauto.
      - pose proof (classifyNetwork_range e) as H. simpl in *. tauto. }
    split.
    + simpl in *. tauto.
    + intros [Hk | Hk]; rewrite Hk in Hkinds; simpl in Hkinds; exfalso;
        repeat (destruct Hkinds as [Hkinds | Hkinds]; [discriminate Hkinds|]);
        exact Hkinds.
  - assert (Ht : truthyStatus e = None) by (unfold truthyStatus; rewrite Hr; reflexivity).
    rewrite Ht. pose proof (classifyNetwork_range e) as H. split.
    + simpl in *. tauto.
    + intros [Hk | Hk]; rewrite Hk in H; simpl in H; exfalso;
        repeat (destruct H as [H | H]; [discriminate H|]); exact H.
Qed.

(** A run of X8: a failure classified [INVALID_PARAMETER] carries a vendor
    code. *)
Lemma handleGraphError_kinds_witness :
  exists vendorCode,
    hasVendorCode (transportFailure 400 (Some "InvalidFilter") None) vendorCode.
Proof.
  apply (proj2 (handleGraphError_kinds
                  (transportFailure 400 (Some "InvalidFilter") None))).
  left. reflexivity.
Defined.

(** X9.  Given an [MCPError], whatever its kind, [handleGraphError] throws
    an [MCPError] of kind [UNKNOWN_ERROR]: the kind is lost, the message is
    kept (or replaced by a fixed one when it is empty), and the details are
    replaced by the message under [originalError]. *)
Theorem handleGraphError_forgets_kind (m : MCPError) :
  code (handleGraphError (ThrownMCP m)) = UNKNOWN_ERROR
  /\ (message m <> EmptyString ->
      message (handleGraphError (ThrownMCP m)) = message m
      /\ details (handleGraphError (ThrownMCP m))
         = Some [("originalError", JStr (message m))])
  /\ (message m = EmptyString ->
      message (handleGraphError (ThrownMCP m)) = "An unexpected error occurred"
      /\ details (handleGraphError (ThrownMCP m))
         = Some [("originalError", JStr "MCPError")]).
Proof.
  destruct m as [msg c d]. split; [|split].
  - destruct c; reflexivity.
  - intros Hmsg. simpl in Hmsg. apply String.eqb_neq in Hmsg.
    destruct c; cbn; rewrite Hmsg; split; reflexivity.
  - intros Hmsg. simpl in Hmsg. subst msg. destruct c; split; reflexivity.
Qed.

(** A run of X9 on the error of a validator. *)
Lemma handleGraphError_forgets_kind_witness :
  message (handleGraphError
             (ThrownMCP (mkMCPError "days must be at least 1" INVALID_PARAMETER None)))
  = "days must be at least 1"
  /\ details (handleGraphError
                (ThrownMCP (mkMCPError "days must be at least 1" INVALID_PARAMETER None)))
     = Some [("originalError", JStr "days must be at least 1")].
Proof.
  apply (proj1 (proj2 (handleGraphError_forgets_kind
           (mkMCPError "days must be at least 1" INVALID_PARAMETER None)))).
  discriminate.
Defined.

Lemma handleGraphError_statusFailure status networkCode msg rendering :
  handleGraphError (statusFailure status networkCode msg rendering)
  = if (status =? 0)%Z
    then classifyNetwork (networkFailure networkCode msg rendering)
    else match classifyStatus status with
         | Some thrown => thrown
         | None => classifyNetwork (networkFailure networkCode msg rendering)
         end.
Proof.
  unfold handleGraphError, truthyStatus, statusFailure. simpl response. cbv iota beta.
  simpl r_status. cbv iota.
  destruct (status =? 0)%Z; [reflexivity|].
  destruct (classifyStatus status); reflexivity.
Qed.

Lemma classifyStatus_cases (status : Z) :
  (status = 401%Z -> option_map code (classifyStatus status) = Some UNAUTHORIZED)
  /\ (status = 403%Z -> option_map code (classifyStatus status) = Some FORBIDDEN)
  /\ (status = 404%Z -> option_map code (classifyStatus status) = Some NOT_FOUND)
  /\ (status = 429%Z -> option_map code (classifyStatus status) = Some RATE_LIMITED)
  /\ ((500 <= status)%Z ->
      option_map code (classifyStatus status) = Some GRAPH_API_ERROR)
  /\ ((status < 500)%Z -> ~ In status [401; 403; 404; 429]%Z ->
      classifyStatus status = None).
Proof.
  unfold classifyStatus.
  destruct (Z.eqb_spec status 401); destruct (Z.eqb_spec status 403);
    destruct (Z.eqb_spec status 404); destruct (Z.eqb_spec status 429);
    destruct (Z.geb_spec status 500); simpl;
    repeat split; intros; try reflexivity; try lia; tauto.
Qed.

(** X10.  For a failure that carries a status and no vendor envelope:
    401, 403, 404 and 429 give [UNAUTHORIZED], [FORBIDDEN], [NOT_FOUND] and
    [RATE_LIMITED], every status from 500 on gives [GRAPH_API_ERROR]; every
    other status (400 among them) is classified as if there were no status:
    by the network code, or as [UNKNOWN_ERROR]. *)
Theorem handleGraphError_status_table (status : Z) (networkCode msg : option string)
  (rendering : string) :
  let e := statusFailure status networkCode msg rendering in
  (status = 401%Z -> code (handleGraphError e) = UNAUTHORIZED)
  /\ (status = 403%Z -> code (handleGraphError e) = FORBIDDEN)
  /\ (status = 404%Z -> code (handleGraphError e) = NOT_FOUND)
  /\ (status = 429%Z -> code (handleGraphError e) = RATE_LIMITED)
  /\ ((500 <= status)%Z -> code (handleGraphError e) = GRAPH_API_ERROR)
  /\ ((status < 500)%Z -> ~ In status [401; 403; 404; 429]%Z ->
      handleGraphError e = handleGraphError (networkFailure networkCode msg rendering)).
Proof.
  intros e. unfold e. rewrite handleGraphError_statusFailure.
  destruct (classifyStatus_cases status) as [H401 [H403 [H404 [H429 [H500 Hother]]]]].
  repeat split.
  - intros Hs. specialize (H401 Hs). subst status. reflexivity.
  - intros Hs. subst status. reflexivity.
  - intros Hs. subst status. reflexivity.
  - intros Hs. subst status. reflexivity.
  - intros Hs. specialize (H500 Hs).
    destruct (Z.eqb_spec status 0); [lia|].
    destruct (classifyStatus status); simpl in H500; [|discriminate H500].
    injection H500 as H500. exact H500.
  - intros Hlt Hnot. rewrite (Hother Hlt Hnot).
    destruct (status =? 0)%Z; reflexivity.
Qed.

(** A run of X10: a bare 400 is classified [UNKNOWN_ERROR]. *)
Lemma handleGraphError_status_table_witness :
  handleGraphError (statusFailure 400 None (Some "Bad Request") "Error: Bad Request")
  = handleGraphError (networkFailure None (Some "Bad Request") "Error: Bad Request").
Proof.
  apply (proj2 (proj2 (proj2 (proj2 (proj2
           (handleGraphError_status_table 400 None (Some "Bad Request")
              "Error: Bad Request")))))).
  - reflexivity.
  - simpl. intros [H | [H | [H | [H | H]]]]; try discriminate H. exact H.
Defined.

(** X11.  For a failure without a response, under the default options:
    the five network codes [ECONNRESET], [ECONNREFUSED], [ETIMEDOUT],
    [ENOTFOUND] and [EAI_AGAIN] are exactly the retryable ones, while only
    [ECONNREFUSED], [ENOTFOUND] and [ETIMEDOUT] are classified
    [NETWORK_ERROR]; every other failure without a response, [ECONNRESET]
    and [EAI_AGAIN] included, is classified [UNKNOWN_ERROR]. *)
Theorem network_codes_retried_and_classified (networkCode msg : option string)
  (rendering : string) :
  let e := networkFailure networkCode msg rendering in
  (isRetryable e DEFAULT_RETRY_OPTIONS = true
   <-> exists c, networkCode = Some c
        /\ In c ["ECONNRESET"; "ECONNREFUSED"; "ETIMEDOUT"; "ENOTFOUND"; "EAI_AGAIN"])
  /\ (code (handleGraphError e) = NETWORK_ERROR
      <-> exists c, networkCode = Some c
           /\ In c ["ECONNREFUSED"; "ENOTFOUND"; "ETIMEDOUT"])
  /\ (code (handleGraphError e) = NETWORK_ERROR
      \/ code (handleGraphError e) = UNKNOWN_ERROR).
Proof.
  intros e. unfold e, networkFailure.
  unfold isRetryable, handleGraphError, classifyNetwork, truthyStatus, codeIs.
  simpl. destruct networkCode as [c|].
  - split; [|split].
    + split.
      * intros H. exists c. split; [reflexivity|]. simpl.
        repeat match type of H with
        | context [String.eqb c ?k] =>
            destruct (String.eqb_spec c k) as [-> | _]; [tauto|]
        end.
        discriminate H.
      * intros [c' [Hc Hin]]. injection Hc as <-. simpl in Hin.
        repeat (destruct Hin as [<- | Hin]; [reflexivity|]). destruct Hin.
    + split.
      * intros H. exists c. split; [reflexivity|]. simpl.
        repeat match type of H with
        | context [String.eqb c ?k] =>
            destruct (String.eqb_spec c k) as [-> | _]; [tauto|]
        end.
        discriminate H.
      * intros [c' [Hc Hin]]. injection Hc as <-. simpl in Hin.
        repeat (destruct Hin as [<- | Hin]; [reflexivity|]). destruct Hin.
    + destruct (String.eqb c "ECONNREFUSED" || String.eqb c "ENOTFOUND"
                || String.eqb c "ETIMEDOUT"); [left | right]; reflexivity.
  - split; [|split].
    + split; [discriminate | intros [c [H _]]; discriminate H].
    + split; [discriminate | intros [c [H _]]; discriminate H].
    + right. reflexivity.
Qed.

(** X12.  [withErrorHandling] leaves a result and the requests of the call
    as they are, rethrows an [MCPError] unchanged (kind, message and
    details), replaces every other failure by its classification, and
    wrapping twice is wrapping once. *)
Theorem withErrorHandling_contract {X A : Type} (fn : X -> Op A) (args : X)
  (h : History) :
  snd (withErrorHandling fn args h) = snd (fn args h)
  /\ (forall a, fst (fn args h) = Ok a -> fst (withErrorHandling fn args h) = Ok a)
  /\ (forall m, fst (fn args h) = Throw (ThrownMCP m) ->
        fst (withErrorHandling fn args h) = Throw (ThrownMCP m))
  /\ (forall raw, fst (fn args h) = Throw (ThrownRaw raw) ->
        fst (withErrorHandling fn args h)
        = Throw (ThrownMCP (handleGraphError (ThrownRaw raw))))
  /\ withErrorHandling (withErrorHandling fn) args h = withErrorHandling fn args h.
Proof.
  unfold withErrorHandling.
  destruct (fn args h) as [[a | [m | raw]] sent]; simpl;
    repeat split; intros; try congruence.
Qed.

(** A run of X12: the error of a validator keeps its kind. *)
Lemma withErrorHandling_contract_witness :
  fst (withErrorHandling
         (fun v : JsValue => pure (validateString v "userId" false)) JNull [])
  = Throw (ThrownMCP (mkMCPError "userId is required" INVALID_PARAMETER None)).
Proof.
  apply (proj1 (proj2 (proj2 (withErrorHandling_contract
           (fun v : JsValue => pure (validateString v "userId" false)) JNull [])))).
  reflexivity.
Defined.

(* ------------------------------------------------------------------ *)
(** ** The retry engine, in general *)

Lemma surface_isMCPError (e : Thrown) : isMCPError (surface e) = true.
Proof. unfold surface. destruct e; reflexivity. Qed.

Section RetryLoopInGeneral.

Variable rt : Runtime.
Context {A : Type}.
Variable fn : Op A.
Variable opts : RequiredRetryOptions.

Lemma retryLoop_budget budget :
  forall attempt lastError h,
    budget + attempt = S (maxRetries opts) -> budget <> 0 ->
    let run := retryLoop rt fn opts budget attempt lastError h in
    1 <= invocations (snd run) <= budget
    /\ length (sleeps (snd run)) = invocations (snd run) - 1.
Proof.
  induction budget as [|budget IH]; intros attempt lastError h Hsum Hpos;
    [contradiction|].
  cbv zeta.
  destruct (fn (h ++ [Invoked])%list) as [[a | e] sent] eqn:Hcall.
  - rewrite (retryLoop_success rt fn opts budget attempt lastError h a sent Hcall).
    cbn [snd]. rewrite invocations_cons_Invoked, invocations_Requested, sleeps_seen.
    simpl. lia.
  - destruct (Nat.eq_dec attempt (maxRetries opts)) as [Hlast | Hne];
      [|destruct (isRetryable e opts) eqn:Hr].
    + rewrite (retryLoop_give_up rt fn opts budget attempt lastError h e sent Hcall
                 (or_introl Hlast)).
      cbn [snd]. rewrite invocations_cons_Invoked, invocations_Requested, sleeps_seen.
      simpl. lia.
    + rewrite (retryLoop_retry rt fn opts budget attempt lastError h e sent
                 Hcall Hne Hr).
      cbv zeta. cbn [fst snd].
      rewrite invocations_app, invocations_cons_Invoked, invocations_Requested,
        invocations_Slept, sleeps_app, sleeps_seen, List.app_nil_l.
      cbn [sleeps length].
      match goal with
      | |- context [retryLoop rt fn opts budget (S attempt) ?l ?h'] =>
          destruct (IH (S attempt) l h' ltac:(lia) ltac:(lia)) as [Hinv Hsl]
      end.
      rewrite Hsl. lia.
    + rewrite (retryLoop_give_up rt fn opts budget attempt lastError h e sent Hcall
                 (or_intror Hr)).
      cbn [snd]. rewrite invocations_cons_Invoked, invocations_Requested, sleeps_seen.
      simpl. lia.
Qed.

Lemma retryLoop_throws_MCPError budget :
  forall attempt lastError h e,
    fst (retryLoop rt fn opts budget attempt lastError h) = Throw e ->
    isMCPError e = true.
Proof.
  induction budget as [|budget IH]; intros attempt lastError h e.
  - simpl. intros H. injection H as <-. apply surface_isMCPError.
  - destruct (fn (h ++ [Invoked])%list) as [[a | e'] sent] eqn:Hcall.
    + rewrite (retryLoop_success rt fn opts budget attempt lastError h a sent Hcall).
      discriminate.
    + destruct (Nat.eq_dec attempt (maxRetries opts)) as [Hlast | Hne];
        [|destruct (isRetryable e' opts) eqn:Hr].
      * rewrite (retryLoop_give_up rt fn opts budget attempt lastError h e' sent Hcall
                   (or_introl Hlast)).
        intros H. injection H as <-. apply surface_isMCPError.
      * rewrite (retryLoop_retry rt fn opts budget attempt lastError h e' sent
                   Hcall Hne Hr).
        cbv zeta. cbn [fst]. apply IH.
      * rewrite (retryLoop_give_up rt fn opts budget attempt lastError h e' sent Hcall
                   (or_intror Hr)).
        intros H. injection H as <-. apply surface_isMCPError.
Qed.

End RetryLoopInGeneral.

(** X13.  Whatever the operation, and for all options that keep to the
    interface (every field absent or of its declared type, [maxRetries] a
    whole number that is not negative, [shouldRetry] returning without
    throwing), [retryWithBackoff] invokes the operation at least once and
    at most [maxRetries + 1] times, and sleeps exactly once between two
    invocations: the number of sleeps is the number of invocations minus
    one. *)
Theorem retryWithBackoff_budget (rt : Runtime) {A : Type} (fn : Op A)
  (options : RetryOptions) (h : History) :
  1 <= invocations (snd (retryWithBackoff rt fn options h))
       <= S (maxRetries (withDefaults options))
  /\ length (sleeps (snd (retryWithBackoff rt fn options h)))
     = invocations (snd (retryWithBackoff rt fn options h)) - 1.
Proof.
  unfold retryWithBackoff.
  apply (retryLoop_budget rt fn (withDefaults options)
           (S (maxRetries (withDefaults options))) 0 None h).
  - lia.
  - discriminate.
Qed.

(** X14.  Whatever the operation throws, and for all options that keep to
    the interface (every field absent or of its declared type,
    [maxRetries] a whole number that is not negative, [shouldRetry]
    returning without throwing), what [retryWithBackoff] throws is an
    [MCPError]: a raw failure of the operation never crosses the engine. *)
Theorem retryWithBackoff_throws_MCPError (rt : Runtime) {A : Type} (fn : Op A)
  (options : RetryOptions) (h : History) (e : Thrown) :
  fst (retryWithBackoff rt fn options h) = Throw e ->
  exists m, e = ThrownMCP m.
Proof.
  intros H. apply retryLoop_throws_MCPError in H.
  destruct e as [m | raw]; [exists m; reflexivity | discriminate H].
Qed.

(** A run of X14: a connection reset, retried three times, surfaces as an
    [MCPError]. *)
Lemma retryWithBackoff_throws_MCPError_witness :
  exists m,
    ThrownMCP (handleGraphError
                 (networkFailure (Some "ECONNRESET") (Some "reset") "Error: reset"))
    = ThrownMCP m.
Proof.
  apply (retryWithBackoff_throws_MCPError
           (fixedRuntime 0 EmptyString (Ok JNull))
           (alwaysFailing
              (networkFailure (Some "ECONNRESET") (Some "reset") "Error: reset"))
           noOptions []).
  reflexivity.
Defined.

(** X15.  An operation that fails with a retryable failure at its first
    invocation and succeeds at the second is invoked exactly twice, with
    one sleep in between, and [retryWithBackoff] returns the value of the
    second invocation. *)
Theorem retryWithBackoff_recovers (rt : Runtime) {A : Type} (fn : Op A)
  (options : RetryOptions) (h : History) (e : Thrown) (a : A)
  (sent1 sent2 : list Request) :
  maxRetries (withDefaults options) <> 0 ->
  fn (h ++ [Invoked])%list = (Throw e, sent1) ->
  isRetryable e (withDefaults options) = true ->
  (forall delay,
      fn ((h ++ (Invoked :: map Requested sent1) ++ [Slept delay]) ++ [Invoked])%list
      = (Ok a, sent2)) ->
  fst (retryWithBackoff rt fn options h) = Ok a
  /\ invocations (snd (retryWithBackoff rt fn options h)) = 2
  /\ length (sleeps (snd (retryWithBackoff rt fn options h))) = 1
  /\ requests (snd (retryWithBackoff rt fn options h)) = (sent1 ++ sent2)%list.
Proof.
  intros Hmax Hfirst Hretry Hsecond. unfold retryWithBackoff.
  rewrite (retryLoop_retry rt fn (withDefaults options) _ 0 None h e sent1 Hfirst
             (fun E => Hmax (eq_sym E)) Hretry).
  cbv zeta. destruct (maxRetries (withDefaults options)) as [|n]; [contradiction|].
  rewrite (retryLoop_success rt fn (withDefaults options) n 1 (Some e) _ a sent2
             (Hsecond _)).
  cbn [fst snd]. split; [reflexivity|].
  rewrite invocations_app, !invocations_cons_Invoked, !invocations_Requested,
    invocations_Slept, invocations_cons_Invoked, invocations_Requested.
  rewrite sleeps_app, sleeps_seen, List.app_nil_l. cbn [sleeps].
  rewrite sleeps_Requested. repeat split.
  rewrite requests_first_attempt. cbn [requests]. rewrite requests_map. reflexivity.
Qed.

(** A run of X15: a 503, then a page. *)
Lemma retryWithBackoff_recovers_witness :
  let fn : Op JsValue :=
    fun h => match h with
             | [Invoked] => (Throw (transportFailure 503 None None), [])
             | _ => (Ok (JStr "page"), [])
             end in
  let run := retryWithBackoff (fixedRuntime 0 EmptyString (Ok JNull)) fn noOptions [] in
  fst run = Ok (JStr "page") /\ invocations (snd run) = 2
  /\ length (sleeps (snd run)) = 1 /\ requests (snd run) = ([] ++ [])%list.
Proof.
  intros fn run.
  apply (retryWithBackoff_recovers (fixedRuntime 0 EmptyString (Ok JNull)) fn
           noOptions [] (transportFailure 503 None None) (JStr "page") [] []).
  - discriminate.
  - reflexivity.
  - reflexivity.
  - intros delay. reflexivity.
Defined.

Lemma exponential_nonneg (attempt : nat) (base : Q) :
  (0 <= base)%Q -> (0 <= base * 2 ^ Z.of_nat attempt)%Q.
Proof.
  intros Hb. apply Qmult_le_0_compat; [exact Hb|].
  apply Qpower_0_le. discriminate.
Qed.

(** X16.  In exact arithmetic, for a base delay that is not negative and a
    random number between 0 and 1: the computed delay lies between three
    quarters and five quarters of [baseDelay * 2^attempt], both capped at
    the maximum delay; without jitter it is [baseDelay * 2^attempt] capped
    at the maximum delay; and it is never negative when the maximum delay
    is not. *)
Theorem calculateDelay_bounds (attempt : nat) (base cap random : Q) (jitter : bool) :
  (0 <= base)%Q -> (0 <= random)%Q -> (random <= 1)%Q ->
  let exponential := (base * 2 ^ Z.of_nat attempt)%Q in
  (Qmin ((3 # 4) * exponential) cap
   <= calculateDelay attempt base cap jitter random)%Q
  /\ (calculateDelay attempt base cap jitter random
      <= Qmin ((5 # 4) * exponential) cap)%Q
  /\ (jitter = false ->
      (calculateDelay attempt base cap jitter random == Qmin exponential cap)%Q)
  /\ ((0 <= cap)%Q -> (0 <= calculateDelay attempt base cap jitter random)%Q).
Proof.
  intros Hb Hr0 Hr1 exponential.
  pose proof (exponential_nonneg attempt base Hb) as He. fold exponential in He.
  unfold calculateDelay. fold exponential.
  set (j := if jitter then ((random - (1 # 2)) * (1 # 2) * exponential)%Q else 0%Q).
  assert (Hlo : ((3 # 4) * exponential <= exponential + j)%Q).
  { unfold j. destruct jitter; nra. }
  assert (Hhi : (exponential + j <= (5 # 4) * exponential)%Q).
  { unfold j. destruct jitter; nra. }
  split; [|split; [|split]].
  - apply Q.min_le_compat_r. exact Hlo.
  - apply Q.min_le_compat_r. exact Hhi.
  - intros ->. unfold j. rewrite Qplus_0_r. reflexivity.
  - intros Hc. apply Q.min_glb; [|exact Hc].
    eapply Qle_trans; [|exact Hlo]. nra.
Qed.

(** A run of X16: third attempt, default delays, the random number one
    quarter. *)
Lemma calculateDelay_bounds_witness :
  (Qmin ((3 # 4) * (1000 * 2 ^ Z.of_nat 2)) 30000
   <= calculateDelay 2 1000 30000 true (1 # 4))%Q
  /\ (calculateDelay 2 1000 30000 true (1 # 4)
      <= Qmin ((5 # 4) * (1000 * 2 ^ Z.of_nat 2)) 30000)%Q
  /\ (true = false ->
      (calculateDelay 2 1000 30000 true (1 # 4)
       == Qmin (1000 * 2 ^ Z.of_nat 2) 30000)%Q)
  /\ ((0 <= 30000)%Q -> (0 <= calculateDelay 2 1000 30000 true (1 # 4))%Q).
Proof.
  apply (calculateDelay_bounds 2 1000 30000 (1 # 4) true); discriminate.
Defined.

(* ------------------------------------------------------------------ *)
(** ** The retry-after hint *)

(** X17.  The hint of a failure: an [MCPError] has none; a string that
    starts (after white space and a sign) with decimal digits is read as
    that many seconds, whatever follows the digits and even when the string
    is a date: the delay is the Number value for that integer times 1000,
    rounded, which is exactly the seconds times 1000 when that product is
    at most [2^53] in magnitude, so that a negative number of seconds gives
    a negative delay; a string without such digits that is a date gives
    the time left until that date, and zero when the date is past. *)
Theorem retry_after_hint_readings (rt : Runtime) (h : History) :
  (forall m, getRetryAfterDelay rt h (ThrownMCP m) = None)
  /\ (forall e s seconds,
        carriesRetryAfter e (JStr s) -> Str.mathInt s = Some seconds ->
        getRetryAfterDelay rt h e
        = Some (mul (numberValue (inject_Z seconds)) (ofZ 1000))
        /\ ((Z.abs (seconds * 1000) <= 2 ^ 53)%Z ->
            getRetryAfterDelay rt h e = Some (ofZ (seconds * 1000))))
  /\ (forall e s time,
        carriesRetryAfter e (JStr s) -> s <> EmptyString ->
        Str.mathInt s = None -> dateParse rt s = Some time ->
        getRetryAfterDelay rt h e = Some (ofZ (Z.max 0 (time - dateNow rt h)))
        /\ (0 <= Z.max 0 (time - dateNow rt h))%Z
        /\ ((time <= dateNow rt h)%Z ->
            getRetryAfterDelay rt h e = Some (ofZ 0))).
Proof.
  split; [|split].
  - intros m. reflexivity.
  - intros e s seconds Hc Hp.
    rewrite (getRetryAfterDelay_digits rt h e s seconds Hc Hp).
    split; [reflexivity|]. intros Hsmall.
    rewrite (numberValue_whole seconds) by lia.
    rewrite (mul_whole seconds 1000 Hsmall). reflexivity.
  - intros e s time Hc Hs Hp Hd. unfold getRetryAfterDelay.
    rewrite (retryAfterHeader_carried e _ Hc). cbv zeta.
    destruct s as [|c s]; [contradiction|]. simpl truthy. cbv iota.
    unfold Str.parseInt. rewrite Hp, Hd. cbn [isNaN negb].
    split; [reflexivity|]. split; [lia|].
    intros Hpast. rewrite Z.max_l by lia. reflexivity.
Qed.

(** A run of X17: [retry-after: 2015-10-21T07:28:00Z] is read as 2015
    seconds, [retry-after: -5] as minus five seconds, and
    [retry-after: 9007199254740993], which is not a double, as
    9007199254740992 seconds. *)
Lemma retry_after_hint_readings_witness :
  let rt := fixedRuntime 0 EmptyString (Ok JNull) in
  getRetryAfterDelay rt []
    (transportFailure 429 None (Some (JStr "2015-10-21T07:28:00Z")))
  = Some (ofZ (2015 * 1000))
  /\ getRetryAfterDelay rt [] (transportFailure 429 None (Some (JStr "-5")))
     = Some (ofZ (-5 * 1000))
  /\ getRetryAfterDelay rt []
       (transportFailure 429 None (Some (JStr "9007199254740993")))
     = Some (ofZ 9007199254740992000).
Proof.
  intros rt.
  destruct (retry_after_hint_readings rt []) as [_ [Hseconds _]].
  split; [|split].
  - apply (Hseconds _ "2015-10-21T07:28:00Z" 2015%Z);
      [|reflexivity | vm_compute; discriminate].
    eexists. eexists. repeat split.
  - apply (Hseconds _ "-5" (-5)%Z); [|reflexivity | vm_compute; discriminate].
    eexists. eexists. repeat split.
  - refine (proj1 (Hseconds _ "9007199254740993" 9007199254740993%Z _ eq_refl)).
    eexists. eexists. repeat split.
Defined.

(* ------------------------------------------------------------------ *)
(** ** The query builders, in general *)

Lemma isRetryable_classified (m : MCPError) :
  isRetryable (ThrownMCP m) (withDefaults noOptions) = true
  <-> code m = RATE_LIMITED \/ code m = TIMEOUT.
Proof.
  destruct m as [msg c d]. destruct c; cbn; split; intros H;
    try reflexivity; try discriminate H; try tauto;
    destruct H as [H | H]; discriminate H.
Qed.

Lemma nextDelay_classified (rt : Runtime) (opts : RequiredRetryOptions)
  (attempt : nat) (h : History) (m : MCPError) :
  nextDelay rt opts attempt h (ThrownMCP m)
  = Fin (calculateDelay attempt (baseDelay opts) (maxDelay opts) (useJitter opts)
           (mathRandom rt h)).
Proof. reflexivity. Qed.

Lemma requests_seen (sent : list Request) :
  requests (Invoked :: map Requested sent) = sent.
Proof. simpl. apply requests_map. Qed.

Section RetryLoopOfClassified.

Variable rt : Runtime.
Variable fn : Op JsValue.
Variable opts : RequiredRetryOptions.
Variable P : Request -> Prop.

Hypothesis fn_classified :
  forall h e, fst (fn h) = Throw e -> exists m, e = ThrownMCP m.
Hypothesis fn_one_request : forall h, length (snd (fn h)) <= 1.
Hypothesis fn_requests : forall h, Forall P (snd (fn h)).

(** When the operation throws nothing but [MCPError]s, sends at most one
    request at an invocation and only requests that satisfy [P]: every
    sleep is a computed backoff, at most the maximum delay; there are no
    more requests than invocations; every request satisfies [P]. *)
Lemma retryLoop_of_classified budget :
  forall attempt lastError h,
    let run := retryLoop rt fn opts budget attempt lastError h in
    Forall (atMost (maxDelay opts)) (sleeps (snd run))
    /\ length (requests (snd run)) <= invocations (snd run)
    /\ Forall P (requests (snd run)).
Proof.
  induction budget as [|budget IH]; intros attempt lastError h; cbv zeta.
  - simpl. repeat split; constructor.
  - pose proof (fn_classified (h ++ [Invoked])%list) as Hc.
    pose proof (fn_one_request (h ++ [Invoked])%list) as H1.
    pose proof (fn_requests (h ++ [Invoked])%list) as HP.
    destruct (fn (h ++ [Invoked])%list) as [[a | e] sent] eqn:Hcall;
      cbn [fst snd] in Hc, H1, HP.
    + rewrite (retryLoop_success rt fn opts budget attempt lastError h a sent Hcall).
      cbn [snd]. rewrite sleeps_seen, invocations_cons_Invoked, invocations_Requested.
      rewrite !requests_seen.
      repeat split; [constructor | lia | exact HP].
    + destruct (Hc e eq_refl) as [m ->].
      destruct (Nat.eq_dec attempt (maxRetries opts)) as [Hlast | Hne];
        [|destruct (isRetryable (ThrownMCP m) opts) eqn:Hr].
      * rewrite (retryLoop_give_up rt fn opts budget attempt lastError h _ sent Hcall
                   (or_introl Hlast)).
        cbn [snd]. rewrite sleeps_seen, invocations_cons_Invoked, invocations_Requested.
        rewrite !requests_seen.
        repeat split; [constructor | lia | exact HP].
      * rewrite (retryLoop_retry rt fn opts budget attempt lastError h _ sent
                   Hcall Hne Hr).
        cbv zeta. cbn [fst snd].
        match goal with
        | |- context [retryLoop rt fn opts budget (S attempt) ?l ?h'] =>
            destruct (IH (S attempt) l h') as [Hsl [Hreq HPs]]
        end.
        rewrite sleeps_app, sleeps_seen, List.app_nil_l. cbn [sleeps].
        rewrite invocations_app, invocations_cons_Invoked, invocations_Requested,
          invocations_Slept.
        rewrite requests_first_attempt. cbn [requests].
        rewrite List.length_app. repeat split.
        -- constructor; [|exact Hsl]. rewrite nextDelay_classified.
           eexists. split; [reflexivity | apply calculateDelay_capped].
        -- lia.
        -- apply Forall_app. split; assumption.
      * rewrite (retryLoop_give_up rt fn opts budget attempt lastError h _ sent Hcall
                   (or_intror Hr)).
        cbn [snd]. rewrite sleeps_seen, invocations_cons_Invoked, invocations_Requested.
        rewrite !requests_seen.
        repeat split; [constructor | lia | exact HP].
Qed.

End RetryLoopOfClassified.

Lemma tryCatch_classified (body : Op JsValue) (h : History) (e : Thrown) :
  fst (tryCatch body h) = Throw e -> exists m, e = ThrownMCP m.
Proof.
  unfold tryCatch. destruct (body h) as [[a | e'] sent]; simpl; intros H;
    [discriminate H | injection H as <-; eexists; reflexivity].
Qed.

Lemma tryCatch_sent (body : Op JsValue) (h : History) :
  snd (tryCatch body h) = snd (body h).
Proof. unfold tryCatch. destruct (body h) as [[a | e] sent]; reflexivity. Qed.

Lemma Builder_one_request rt post body :
  Builder rt post body -> forall h, length (snd (body h)) <= 1.
Proof.
  intros Hb h.
  destruct (Builder_outcome rt post body Hb h) as [[m [-> _]] | [request ->]];
    simpl; lia.
Qed.

Lemma Sends_requests rt P body :
  Sends rt P body -> forall h, Forall P (snd (body h)).
Proof.
  induction 1 as [A r k _ IH | A f k _ IH | request HP | request HP | request HP];
    intros h.
  - unfold bindResult. destruct r as [a | e]; [apply (IH a eq_refl) | constructor].
  - unfold reading. apply IH.
  - unfold get. simpl. constructor; [exact HP | constructor].
  - unfold bind, get, pure.
    destruct (graphGet rt h request); simpl; constructor; (exact HP || constructor).
  - unfold bind, get, pure, bindResult.
    destruct (graphGet rt h request) as [response | e]; simpl.
    + destruct (validateResponse response true); simpl;
        constructor; (exact HP || constructor).
    + constructor; [exact HP | constructor].
Qed.

Lemma whole_in_range (z : Z) :
  (1 <= z <= 999)%Z -> wholeBetween1And 999 (ofZ z).
Proof.
  intros Hz. exists (inject_Z z). split; [reflexivity|].
  split; [exists z; reflexivity|].
  split; unfold Qle; simpl; lia.
Qed.

Lemma default_small_in_range : wholeBetween1And 999 DEFAULT_TOP_SMALL.
Proof. apply whole_in_range. lia. Qed.

Lemma default_medium_in_range : wholeBetween1And 999 DEFAULT_TOP_MEDIUM.
Proof. apply whole_in_range. lia. Qed.

Lemma default_large_in_range : wholeBetween1And 999 DEFAULT_TOP_LARGE.
Proof. apply whole_in_range. lia. Qed.

Lemma validateTop_inRange rt v d n :
  wholeBetween1And 999 d ->
  validateTop rt v d MAX_TOP = Ok n -> wholeBetween1And 999 n.
Proof.
  intros Hd. unfold validateTop. destruct (nullish v).
  - intros H. injection H as <-. exact Hd.
  - destruct v as [| | b | x | s | items | fields]; try discriminate.
    destruct (negb (isInteger x)) eqn:Hi; [discriminate|].
    destruct (lt x (ofZ 1)) eqn:Hlo; [discriminate|].
    destruct (gt x MAX_TOP) eqn:Hhi; [discriminate|].
    intros H. injection H as <-.
    apply negb_false_iff in Hi. destruct x as [| negative | q]; try discriminate Hi.
    exists q. split; [reflexivity|]. split; [apply isInteger_whole; exact Hi|].
    split; [apply lt_Fin_false; exact Hlo|].
    unfold gt in Hhi. apply lt_Fin_false in Hhi. exact Hhi.
Qed.

Lemma topInRange_api p : topInRange (api p).
Proof. exact I. Qed.

Lemma topInRange_withTop n r : wholeBetween1And 999 n -> topInRange (withTop n r).
Proof. intros H. exact H. Qed.

Lemma topInRange_topIf n r :
  wholeBetween1And 999 n -> topInRange r -> topInRange (topIf n r).
Proof. intros Hn Hr. unfold topIf. destruct (truthy (JNum n)); assumption. Qed.

Lemma topInRange_filterIf f r : topInRange r -> topInRange (filterIf f r).
Proof.
  intros Hr. unfold filterIf. destruct f as [s|]; [|exact Hr].
  destruct (truthy (JStr s)); exact Hr.
Qed.

Lemma topInRange_selectIf s r : topInRange r -> topInRange (selectIf s r).
Proof.
  intros Hr. unfold selectIf. destruct s as [[|x l]|]; exact Hr.
Qed.

Lemma topInRange_orderbyIf o r : topInRange r -> topInRange (orderbyIf o r).
Proof. intros Hr. unfold orderbyIf. destruct (truthy o); exact Hr. Qed.

Lemma topInRange_withFilter f r : topInRange r -> topInRange (withFilter f r).
Proof. intros Hr. exact Hr. Qed.

Lemma topInRange_withSelect s r : topInRange r -> topInRange (withSelect s r).
Proof. intros Hr. exact Hr. Qed.

Lemma topInRange_withExpand x r : topInRange r -> topInRange (withExpand x r).
Proof. intros Hr. exact Hr. Qed.

Lemma topInRange_withOrderby o r : topInRange r -> topInRange (withOrderby o r).
Proof. intros Hr. exact Hr. Qed.

Ltac top_in_range :=
  repeat lazymatch goal with
  | |- topInRange (api _) => apply topInRange_api
  | |- topInRange (withFilter _ _) => apply topInRange_withFilter
  | |- topInRange (withSelect _ _) => apply topInRange_withSelect
  | |- topInRange (withExpand _ _) => apply topInRange_withExpand
  | |- topInRange (withOrderby _ _) => apply topInRange_withOrderby
  | |- topInRange (filterIf _ _) => apply topInRange_filterIf
  | |- topInRange (selectIf _ _) => apply topInRange_selectIf
  | |- topInRange (orderbyIf _ _) => apply topInRange_orderbyIf
  | |- topInRange (topIf _ _) => apply topInRange_topIf
  | |- topInRange (withTop _ _) => apply topInRange_withTop
  | H : validateTop ?rt ?v ?d MAX_TOP = Ok ?n |- wholeBetween1And 999 ?n =>
      apply (validateTop_inRange rt v d n);
        [first [ exact default_small_in_range
               | exact default_medium_in_range
               | exact default_large_in_range ]
        | exact H]
  end.

Ltac sends :=
  repeat (cbv zeta;
          lazymatch goal with
          | |- Sends _ _ (bindResult _ _) => apply Sends_validate; intros ? ?
          | |- Sends _ _ (reading _ _) => apply Sends_reading; intros ?
          | |- Sends _ _ (get _ _) => apply Sends_whole
          | |- Sends _ _ (bind _ (fun response => pure _)) => apply Sends_page
          | |- Sends _ _ (bind _ _) => apply Sends_checked
          end).

Lemma run_sends_top_in_range (rt : Runtime) (op : Operation) :
  exists body,
    run rt op = retryWithBackoff rt (tryCatch body) noOptions
    /\ Builder rt (postOf op) body
    /\ Sends rt topInRange body.
Proof.
  destruct op; eexists; (split; [reflexivity|]);
    (split; [unfold postOf; simpl; builder | sends; top_in_range]).
Qed.

(** X18.  Whatever the operation, its arguments and the remote API: a run
    invokes the body between one and four times and sleeps once between
    two invocations; it sends at most one request at an invocation; every
    sleep lasts at most 30000 milliseconds (a retry-after hint of the
    remote API is never followed: the body has classified the failure
    before the engine sees it). *)
Theorem operation_budget (rt : Runtime) (op : Operation) (h : History) :
  1 <= invocations (snd (run rt op h)) <= 4
  /\ length (sleeps (snd (run rt op h))) = invocations (snd (run rt op h)) - 1
  /\ length (requests (snd (run rt op h))) <= invocations (snd (run rt op h))
  /\ Forall (atMost 30000) (sleeps (snd (run rt op h))).
Proof.
  destruct (run_sends_top_in_range rt op) as [body [-> [Hb Hs]]].
  unfold retryWithBackoff.
  pose proof (retryLoop_budget rt (tryCatch body) (withDefaults noOptions)
                (S (maxRetries (withDefaults noOptions))) 0 None h
                ltac:(lia) ltac:(discriminate)) as [Hinv Hsl].
  pose proof (retryLoop_of_classified rt (tryCatch body) (withDefaults noOptions)
                topInRange (tryCatch_classified body)) as Hcl.
  destruct (Hcl
              ltac:(intros h'; rewrite tryCatch_sent;
                    exact (Builder_one_request rt _ body Hb h'))
              ltac:(intros h'; rewrite tryCatch_sent;
                    exact (Sends_requests rt _ body Hs h'))
              (S (maxRetries (withDefaults noOptions))) 0 None h)
    as [Hcap [Hreq _]].
  repeat split; try assumption; apply Hinv.
Qed.


Lemma classified_not_retryable (e : Thrown) :
  code (handleGraphError e) <> RATE_LIMITED ->
  code (handleGraphError e) <> TIMEOUT ->
  isRetryable (ThrownMCP (handleGraphError e)) (withDefaults noOptions) = false.
Proof.
  intros H1 H2.
  destruct (isRetryable (ThrownMCP (handleGraphError e)) (withDefaults noOptions))
    eqn:Hr; [|reflexivity].
  apply isRetryable_classified in Hr. tauto.
Qed.

(** X20.  When the remote API fails the request of the first invocation
    with a failure that is classified neither [RATE_LIMITED] nor [TIMEOUT]
    (a 5xx status, a network failure, ...), the operation is invoked once,
    does not sleep and, if it sent the request, throws the classified
    failure: inside an operation such a failure is never retried. *)
Theorem operation_retries_rate_limits_only (rt : Runtime) (op : Operation)
  (h : History) (e : Thrown) :
  (forall request, graphGet rt (h ++ [Invoked])%list request = Throw e) ->
  code (handleGraphError e) <> RATE_LIMITED ->
  code (handleGraphError e) <> TIMEOUT ->
  invocations (snd (run rt op h)) = 1
  /\ sleeps (snd (run rt op h)) = []
  /\ (requests (snd (run rt op h)) <> [] ->
      fst (run rt op h) = Throw (ThrownMCP (handleGraphError e))).
Proof.
  intros Hremote Hrl Hto.
  destruct (run_is_builder rt op) as [body [-> Hb]].
  destruct (Builder_outcome rt _ body Hb (h ++ [Invoked])%list)
    as [[m [Hbody Hm]] | [request Hbody]].
  - rewrite (tool_throws rt body h (ThrownMCP m) [] Hbody (handled_not_retryable m)).
    cbn [fst snd map]. repeat split. intros Hsent. exfalso. apply Hsent. reflexivity.
  - rewrite Hremote in Hbody.
    rewrite (tool_throws rt body h e [request] Hbody
               (classified_not_retryable e Hrl Hto)).
    cbn [fst snd]. repeat split.
Qed.

(** A run of X20: [listGroups()] against a remote API that answers 503. *)
Lemma operation_retries_rate_limits_only_witness :
  let e := transportFailure 503 None (Some (JNum (ofZ 2))) in
  let result := run (failingRuntime e) (ListGroups noQueryOptions) [] in
  invocations (snd result) = 1 /\ sleeps (snd result) = []
  /\ (requests (snd result) <> [] ->
      fst result = Throw (ThrownMCP (handleGraphError e))).
Proof.
  intros e result.
  apply (operation_retries_rate_limits_only (failingRuntime e)
           (ListGroups noQueryOptions) [] e).
  - intros request. reflexivity.
  - discriminate.
  - discriminate.
Defined.

Lemma valueOrEmpty_value (fields : list (string * JsValue)) (v : JsValue) :
  lookup "value" fields = Some v ->
  valueOrEmpty (JObj fields) = Ok (if truthy v then v else JArr []).
Proof. intros H. unfold valueOrEmpty, getValue. rewrite H. reflexivity. Qed.

Lemma checkedPage_page (response : JsValue) (items : list JsValue) :
  pageEnvelope response items -> checkedPage response = Ok (JArr items).
Proof.
  intros [fields [-> Hl]]. unfold checkedPage, validateResponse. rewrite Hl.
  rewrite (valueOrEmpty_value fields _ Hl). reflexivity.
Qed.

(** X21.  When the remote API answers the request of the first invocation
    with a page envelope, a list-shaped operation that sent the request
    returns the array under [value] as it is (the empty array as well),
    after one invocation and without sleeping.  An operation that does not
    call [validateResponse] returns whatever truthy value stands under
    [value], array or not, and the empty array for a falsy one. *)
Theorem page_returned_as_is (rt : Runtime) (op : Operation) (h : History)
  (response : JsValue) :
  listShaped op = true ->
  (forall request, graphGet rt (h ++ [Invoked])%list request = Ok response) ->
  requests (snd (run rt op h)) <> [] ->
  (forall items, pageEnvelope response items ->
     fst (run rt op h) = Ok (JArr items)
     /\ invocations (snd (run rt op h)) = 1 /\ sleeps (snd (run rt op h)) = [])
  /\ (checksEnvelope op = false ->
      forall fields v, response = JObj fields -> lookup "value" fields = Some v ->
        fst (run rt op h) = Ok (if truthy v then v else JArr [])).
Proof.
  intros Hlist Hremote Hsent.
  destruct (run_is_builder rt op) as [body [Hrun Hb]].
  unfold postOf in Hb. rewrite Hlist in Hb. rewrite Hrun in *.
  destruct (Builder_outcome rt _ body Hb (h ++ [Invoked])%list)
    as [[m [Hbody Hm]] | [request Hbody]].
  - exfalso. apply Hsent.
    rewrite (tool_throws rt body h (ThrownMCP m) [] Hbody (handled_not_retryable m)).
    reflexivity.
  - rewrite Hremote in Hbody. split.
    + intros items Hpage.
      assert (Hpost : (if checksEnvelope op then checkedPage else valueOrEmpty) response
                      = Ok (JArr items)).
      { destruct (checksEnvelope op); [apply checkedPage_page; exact Hpage|].
        destruct Hpage as [fields [-> Hl]].
        rewrite (valueOrEmpty_value fields _ Hl). reflexivity. }
      rewrite Hpost in Hbody. rewrite (tool_returns rt body h _ _ Hbody).
      cbn [fst snd]. rewrite invocations_cons_Invoked, invocations_Requested, sleeps_seen.
      repeat split.
    + intros Hcheck fields v -> Hl. rewrite Hcheck in Hbody.
      rewrite (valueOrEmpty_value fields v Hl) in Hbody.
      rewrite (tool_returns rt body h _ _ Hbody). reflexivity.
Qed.

(** A run of X21: [getGroupMembers("g")] against a remote API that answers
    with a page of one member. *)
Lemma page_returned_as_is_witness :
  let member := JObj [("id", JStr "u1")] in
  let rt := fixedRuntime 0 EmptyString (Ok (JObj [("value", JArr [member])])) in
  let op := GetGroupMembers (JStr "g") JUndefined in
  fst (run rt op []) = Ok (JArr [member])
  /\ invocations (snd (run rt op [])) = 1 /\ sleeps (snd (run rt op [])) = [].
Proof.
  intros member rt op.
  apply (proj1 (page_returned_as_is rt op [] (JObj [("value", JArr [member])])
                  eq_refl (fun _ => eq_refl) ltac:(discriminate))).
  exists [("value", JArr [member])]. split; reflexivity.
Defined.

(** X22.  When the remote API answers the request of the first invocation,
    an operation that is not list-shaped (the get-by-id operations,
    [getApplicationPermissions], [getMFASummary]) returns the answer as it
    is, whatever it is, after one invocation. *)
Theorem single_object_returned_as_is (rt : Runtime) (op : Operation) (h : History)
  (response : JsValue) :
  listShaped op = false ->
  (forall request, graphGet rt (h ++ [Invoked])%list request = Ok response) ->
  requests (snd (run rt op h)) <> [] ->
  fst (run rt op h) = Ok response /\ invocations (snd (run rt op h)) = 1.
Proof.
  intros Hlist Hremote Hsent.
  destruct (run_is_builder rt op) as [body [Hrun Hb]].
  unfold postOf in Hb. rewrite Hlist in Hb. rewrite Hrun in *.
  destruct (Builder_outcome rt _ body Hb (h ++ [Invoked])%list)
    as [[m [Hbody Hm]] | [request Hbody]].
  - exfalso. apply Hsent.
    rewrite (tool_throws rt body h (ThrownMCP m) [] Hbody (handled_not_retryable m)).
    reflexivity.
  - rewrite Hremote in Hbody. rewrite (tool_returns rt body h _ _ Hbody).
    cbn [fst snd]. rewrite invocations_cons_Invoked, invocations_Requested.
    split; reflexivity.
Qed.

(** A run of X22: [getUserById("u1")] against a remote API that answers
    [null]. *)
Lemma single_object_returned_as_is_witness :
  let rt := fixedRuntime 0 EmptyString (Ok JNull) in
  fst (run rt (GetUserById (JStr "u1") JUndefined) []) = Ok JNull
  /\ invocations (snd (run rt (GetUserById (JStr "u1") JUndefined) [])) = 1.
Proof.
  intros rt.
  apply (single_object_returned_as_is rt (GetUserById (JStr "u1") JUndefined) []
           JNull eq_refl (fun _ => eq_refl)).
  discriminate.
Defined.

(** X23.  In every operation, a run that sent no request has failed in
    validation: it consists of one invocation, and what it throws is the
    [INVALID_PARAMETER] error of the validator after [handleGraphError] has
    wrapped it again, an [MCPError] of kind [UNKNOWN_ERROR]. *)
Theorem unsent_request_is_unknown_error (rt : Runtime) (op : Operation)
  (h : History) :
  requests (snd (run rt op h)) = [] ->
  exists refused,
    code refused = INVALID_PARAMETER
    /\ run rt op h
       = (Throw (ThrownMCP (handleGraphError (ThrownMCP refused))), [Invoked])
    /\ code (handleGraphError (ThrownMCP refused)) = UNKNOWN_ERROR.
Proof.
  destruct (run_is_builder rt op) as [body [-> Hb]]. intros Hnone.
  destruct (Builder_outcome rt _ body Hb (h ++ [Invoked])%list)
    as [[m [Hbody Hm]] | [request Hbody]].
  - exists m. split; [exact Hm|]. split; [|apply handled_is_unknown].
    exact (tool_throws rt body h (ThrownMCP m) [] Hbody (handled_not_retryable m)).
  - exfalso. destruct (tool_first_attempt rt body h) as [rest Hev].
    rewrite Hev, requests_first_attempt, Hbody in Hnone. discriminate Hnone.
Qed.

(** A run of X23: [getInactiveUsers(0)]. *)
Lemma unsent_request_is_unknown_error_witness :
  let rt := fixedRuntime 0 EmptyString (Ok JNull) in
  let op := GetInactiveUsers (JNum (ofZ 0)) JUndefined in
  exists refused,
    code refused = INVALID_PARAMETER
    /\ run rt op []
       = (Throw (ThrownMCP (handleGraphError (ThrownMCP refused))), [Invoked])
    /\ code (handleGraphError (ThrownMCP refused)) = UNKNOWN_ERROR.
Proof.
  intros rt op.
  apply (unsent_request_is_unknown_error rt op []). reflexivity.
Defined.

(* ------------------------------------------------------------------ *)
(** ** The requests the operations build *)

Lemma firstRequest_first_attempt (run : Result JsValue * list Event)
  (request : Request) (rest : list Event) :
  snd run = ((Invoked :: map Requested [request]) ++ rest)%list ->
  firstRequest run = Some request.
Proof. intros H. unfold firstRequest. rewrite H. reflexivity. Qed.

Lemma validateTop_whole rt q d :
  isWhole q -> (1 <= q)%Q -> (q <= 999)%Q ->
  validateTop rt (JNum (Fin q)) d MAX_TOP = Ok (Fin q).
Proof.
  intros Hw H1 H999. unfold validateTop. simpl nullish. cbv iota.
  apply isInteger_whole in Hw. rewrite Hw. simpl negb. cbv iota.
  assert (Hlo : lt (Fin q) (ofZ 1) = false) by (apply lt_Fin_false; exact H1).
  rewrite Hlo.
  assert (Hhi : gt (Fin q) MAX_TOP = false)
    by (unfold gt; apply lt_Fin_false; exact H999).
  rewrite Hhi. reflexivity.
Qed.

Lemma validateDays_ofZ rt n d :
  (1 <= n <= 365)%Z -> validateDays rt (JNum (ofZ n)) d = Ok (ofZ n).
Proof.
  intros Hn. unfold validateDays. simpl nullish. cbv iota.
  assert (Hi : isInteger (ofZ n) = true).
  { apply isInteger_whole. exists n. reflexivity. }
  rewrite Hi. simpl negb. cbv iota.
  assert (Hlo : lt (ofZ n) (ofZ 1) = false).
  { apply lt_Fin_false. unfold Qle. simpl. lia. }
  rewrite Hlo.
  assert (Hhi : gt (ofZ n) MAX_DAYS = false).
  { unfold gt. apply lt_Fin_false. unfold Qle. simpl. lia. }
  rewrite Hhi. reflexivity.
Qed.

Lemma validateTop_large rt :
  validateTop rt (JNum DEFAULT_TOP_LARGE) DEFAULT_TOP_LARGE MAX_TOP
  = Ok DEFAULT_TOP_LARGE.
Proof. reflexivity. Qed.

Lemma getDateOffset_ofZ rt h n :
  getDateOffset rt h (ofZ n) = (dateNow rt h - n * 86400000)%Z.
Proof.
  unfold getDateOffset, wholeDays, ofZ, inject_Z. simpl Qnum. simpl Qden.
  rewrite Z.div_1_r. lia.
Qed.

(** The first attempt of a run, with the run itself kept abstract. *)
Ltac open_run :=
  cbv zeta;
  match goal with
  | |- firstRequest (retryWithBackoff ?rt (tryCatch ?body) noOptions ?h) = _ =>
      destruct (tool_first_attempt rt body h) as [rest Hev];
      generalize dependent (retryWithBackoff rt (tryCatch body) noOptions h);
      intros theRun Hev
  end.

(** The request of the first attempt, once the validations are resolved. *)
Ltac close_run Hev :=
  unfold reading, bind, get in Hev;
  match type of Hev with
  | context [graphGet ?rt ?a ?b] =>
      destruct (graphGet rt a b) as [response | e]
  end;
  [ unfold bindResult, pure in Hev;
    try match type of Hev with
        | context [validateResponse ?r true] => destruct (validateResponse r true)
        end
  | ];
  cbn [snd app] in Hev;
  rewrite (firstRequest_first_attempt _ _ _ Hev); reflexivity.

(** X24.  For a search term that is not blank and a page size that is a
    whole number between 1 and 999, the four search operations send, as
    their first request, the collection with that page size and the filter
    that tests with [startswith] each searchable field against the term,
    every single quote of the term doubled. *)
Theorem search_requests (rt : Runtime) (h : History) (s : string) (q : Q) :
  ~ blank s -> isWhole q -> (1 <= q)%Q -> (q <= 999)%Q ->
  let term := Str.replaceAll Str.quote "''" s in
  firstRequest (UserTools.searchUsers rt (JStr s) (JNum (Fin q)) h)
  = Some (withTop (Fin q)
            (withFilter
               ("startswith(displayName,'" ++ term
                ++ "') or startswith(givenName,'" ++ term
                ++ "') or startswith(surname,'" ++ term
                ++ "') or startswith(mail,'" ++ term
                ++ "') or startswith(userPrincipalName,'" ++ term ++ "')")
               (api "/users")))
  /\ firstRequest (GroupTools.searchGroups rt (JStr s) (JNum (Fin q)) h)
     = Some (withTop (Fin q)
               (withFilter
                  ("startswith(displayName,'" ++ term
                   ++ "') or startswith(mail,'" ++ term ++ "')")
                  (api "/groups")))
  /\ firstRequest (ApplicationTools.searchApplications rt (JStr s) (JNum (Fin q)) h)
     = Some (withTop (Fin q)
               (withFilter
                  ("startswith(displayName,'" ++ term
                   ++ "') or startswith(appId,'" ++ term ++ "')")
                  (api "/applications")))
  /\ firstRequest (DeviceTools.searchDevices rt (JStr s) (JNum (Fin q)) h)
     = Some (withTop (Fin q)
               (withFilter
                  ("startswith(displayName,'" ++ term
                   ++ "') or startswith(deviceId,'" ++ term
                   ++ "') or startswith(operatingSystem,'" ++ term ++ "')")
                  (api "/devices"))).
Proof.
  intros Hnb Hw H1 H999 term. unfold term.
  split; [|split; [|split]].
  - unfold UserTools.searchUsers. open_run.
    unfold bindResult at 1 2 in Hev. simpl defaultArg in Hev.
    rewrite (validateString_nonblank _ _ Hnb), (validateTop_whole rt q _ Hw H1 H999)
      in Hev.
    simpl in Hev. close_run Hev.
  - unfold GroupTools.searchGroups. open_run.
    unfold bindResult at 1 2 in Hev. simpl defaultArg in Hev.
    rewrite (validateString_nonblank _ _ Hnb), (validateTop_whole rt q _ Hw H1 H999)
      in Hev.
    simpl in Hev. close_run Hev.
  - unfold ApplicationTools.searchApplications. open_run.
    unfold bindResult at 1 2 in Hev. simpl defaultArg in Hev.
    rewrite (validateString_nonblank _ _ Hnb), (validateTop_whole rt q _ Hw H1 H999)
      in Hev.
    simpl in Hev. close_run Hev.
  - unfold DeviceTools.searchDevices. open_run.
    unfold bindResult at 1 2 in Hev. simpl defaultArg in Hev.
    rewrite (validateString_nonblank _ _ Hnb), (validateTop_whole rt q _ Hw H1 H999)
      in Hev.
    simpl in Hev. close_run Hev.
Qed.

(** A run of X24: [searchUsers("Al", 5)]. *)
Lemma search_requests_witness :
  firstRequest
    (UserTools.searchUsers (fixedRuntime 0 EmptyString (Ok JNull))
       (JStr "Al") (JNum (Fin 5)) [])
  = Some (withTop (Fin 5)
            (withFilter
               "startswith(displayName,'Al') or startswith(givenName,'Al') or startswith(surname,'Al') or startswith(mail,'Al') or startswith(userPrincipalName,'Al')"
               (api "/users"))).
Proof.
  apply (proj1 (search_requests (fixedRuntime 0 EmptyString (Ok JNull)) [] "Al" 5
                  ltac:(apply nonblank_computed; reflexivity)
                  ltac:(exists 5%Z; reflexivity)
                  ltac:(discriminate) ltac:(discriminate))).
Defined.

(** X25.  For a number of days [n] between 1 and 365, the time-window
    operations compare the activity date with the date [n] days before the
    clock's time at the invocation, written as a quoted ISO string:
    [getInactiveDevices] and [getInactiveUsers] ask for dates at or before
    it, [getSignInsReport] for dates at or after it, newest first.  With
    no number of days, [getInactiveDevices] looks back 90 days and the
    others 30. *)
Theorem time_window_requests (rt : Runtime) (h : History) (n : Z) :
  (1 <= n <= 365)%Z ->
  let anchor days :=
    formatODataDate rt (dateNow rt (h ++ [Invoked])%list - days * 86400000)%Z in
  let devices days :=
    Some (withTop DEFAULT_TOP_LARGE
            (withSelect
               "id,displayName,deviceId,operatingSystem,operatingSystemVersion,approximateLastSignInDateTime"
               (withFilter ("approximateLastSignInDateTime le " ++ anchor days)
                  (api "/devices")))) in
  let users days :=
    Some (withTop DEFAULT_TOP_LARGE
            (withSelect "id,displayName,mail,userPrincipalName,signInActivity"
               (withFilter ("signInActivity/lastSignInDateTime le " ++ anchor days)
                  (api "/users")))) in
  let signIns days :=
    Some (withTop DEFAULT_TOP_LARGE
            (withOrderby (JStr "createdDateTime desc")
               (withFilter ("createdDateTime ge " ++ anchor days)
                  (api "/auditLogs/signIns")))) in
  firstRequest (DeviceTools.getInactiveDevices rt (JNum (ofZ n)) JUndefined h)
  = devices n
  /\ firstRequest (UserTools.getInactiveUsers rt (JNum (ofZ n)) JUndefined h)
     = users n
  /\ firstRequest (ReportTools.getSignInsReport rt (JNum (ofZ n)) JUndefined h)
     = signIns n
  /\ firstRequest (DeviceTools.getInactiveDevices rt JUndefined JUndefined h)
     = devices 90%Z
  /\ firstRequest (UserTools.getInactiveUsers rt JUndefined JUndefined h)
     = users 30%Z
  /\ firstRequest (ReportTools.getSignInsReport rt JUndefined JUndefined h)
     = signIns 30%Z.
Proof.
  intros Hn anchor devices users signIns. unfold devices, users, signIns, anchor.
  assert (H90 : (1 <= 90 <= 365)%Z) by lia.
  assert (H30 : (1 <= 30 <= 365)%Z) by lia.
  repeat split.
  - unfold DeviceTools.getInactiveDevices. open_run.
    unfold bindResult at 1 2 in Hev. simpl defaultArg in Hev.
    rewrite (validateDays_ofZ rt n _ Hn) in Hev.
    rewrite validateTop_large in Hev.
    unfold reading in Hev. rewrite getDateOffset_ofZ in Hev. close_run Hev.
  - unfold UserTools.getInactiveUsers. open_run.
    unfold bindResult at 1 2 in Hev. simpl defaultArg in Hev.
    rewrite (validateDays_ofZ rt n _ Hn) in Hev.
    rewrite validateTop_large in Hev.
    unfold reading in Hev. rewrite getDateOffset_ofZ in Hev. close_run Hev.
  - unfold ReportTools.getSignInsReport. open_run.
    unfold bindResult at 1 2 in Hev. simpl defaultArg in Hev.
    rewrite (validateDays_ofZ rt n _ Hn) in Hev.
    rewrite validateTop_large in Hev.
    unfold reading in Hev. rewrite getDateOffset_ofZ in Hev. close_run Hev.
  - unfold DeviceTools.getInactiveDevices. open_run.
    unfold bindResult at 1 2 in Hev. simpl defaultArg in Hev.
    rewrite (validateDays_ofZ rt 90 _ H90) in Hev.
    rewrite validateTop_large in Hev.
    unfold reading in Hev. rewrite getDateOffset_ofZ in Hev. close_run Hev.
  - unfold UserTools.getInactiveUsers. open_run.
    unfold bindResult at 1 2 in Hev. simpl defaultArg in Hev.
    rewrite (validateDays_ofZ rt 30 _ H30) in Hev.
    rewrite validateTop_large in Hev.
    unfold reading in Hev. rewrite getDateOffset_ofZ in Hev. close_run Hev.
  - unfold ReportTools.getSignInsReport. open_run.
    unfold bindResult at 1 2 in Hev. simpl defaultArg in Hev.
    rewrite (validateDays_ofZ rt 30 _ H30) in Hev.
    rewrite validateTop_large in Hev.
    unfold reading in Hev. rewrite getDateOffset_ofZ in Hev. close_run Hev.
Qed.

(** A run of X25: [getInactiveDevices(90)] when the clock stands at 0. *)
Lemma time_window_requests_witness :
  let rt := fixedRuntime 0 "1969-10-03T00:00:00.000Z" (Ok JNull) in
  firstRequest (DeviceTools.getInactiveDevices rt (JNum (ofZ 90)) JUndefined [])
  = Some (withTop DEFAULT_TOP_LARGE
            (withSelect
               "id,displayName,deviceId,operatingSystem,operatingSystemVersion,approximateLastSignInDateTime"
               (withFilter
                  ("approximateLastSignInDateTime le "
                   ++ formatODataDate rt (0 - 90 * 86400000)%Z)
                  (api "/devices")))).
Proof.
  intros rt.
  apply (proj1 (time_window_requests rt [] 90 ltac:(lia))).
Defined.

Lemma nonblank_nonempty (s : string) : ~ blank s -> String.eqb s EmptyString = false.
Proof.
  intros Hnb. apply String.eqb_neq. intros ->. apply Hnb. constructor.
Qed.

Lemma validateOptionalString_nonblank (s fieldName : string) :
  ~ blank s -> validateOptionalString (JStr s) fieldName = Ok (Some s).
Proof.
  intros Hnb. unfold validateOptionalString. simpl nullish. cbv iota.
  rewrite (validateString_nonblank s fieldName Hnb). reflexivity.
Qed.

Lemma validateOptionalString_undefined fieldName :
  validateOptionalString JUndefined fieldName = Ok None.
Proof. reflexivity. Qed.

Lemma validateOptionalString_null fieldName :
  validateOptionalString JNull fieldName = Ok None.
Proof. reflexivity. Qed.

Lemma validateDays_default rt :
  validateDays rt (JNum (ofZ 30)) DEFAULT_DAYS = Ok (ofZ 30).
Proof. reflexivity. Qed.

(** X26.  [getAuditLogs] with a category that is not blank adds to the date
    comparison the test [category eq '...'] on the category with every
    single quote doubled; without a category ([undefined] or [null]) the
    filter is the date comparison alone.  Either way the newest entries
    come first and the page size is the default, 100. *)
Theorem audit_log_requests (rt : Runtime) (h : History) (category : string) :
  ~ blank category ->
  let dates :=
    "activityDateTime ge "
    ++ formatODataDate rt (dateNow rt (h ++ [Invoked])%list - 30 * 86400000)%Z in
  let request filter :=
    Some (withTop DEFAULT_TOP_LARGE
            (withOrderby (JStr "activityDateTime desc")
               (withFilter filter (api "/auditLogs/directoryAudits")))) in
  firstRequest (ReportTools.getAuditLogs rt JUndefined JUndefined (JStr category) h)
  = request (dates ++ " and category eq '"
             ++ Str.replaceAll Str.quote "''" category ++ "'")
  /\ firstRequest (ReportTools.getAuditLogs rt JUndefined JUndefined JUndefined h)
     = request dates
  /\ firstRequest (ReportTools.getAuditLogs rt JUndefined JUndefined JNull h)
     = request dates.
Proof.
  intros Hnb dates request. unfold request, dates.
  split; [|split].
  - unfold ReportTools.getAuditLogs. open_run.
    unfold bindResult at 1 2 3 in Hev. simpl defaultArg in Hev.
    rewrite validateDays_default, validateTop_large,
      (validateOptionalString_nonblank _ _ Hnb) in Hev.
    unfold reading in Hev. rewrite getDateOffset_ofZ in Hev.
    simpl truthy in Hev. rewrite (nonblank_nonempty _ Hnb) in Hev.
    simpl negb in Hev. cbv iota in Hev. close_run Hev.
  - unfold ReportTools.getAuditLogs. open_run.
    unfold bindResult at 1 2 3 in Hev. simpl defaultArg in Hev.
    rewrite validateDays_default, validateTop_large in Hev.
    rewrite validateOptionalString_undefined in Hev.
    unfold reading in Hev. rewrite getDateOffset_ofZ in Hev. close_run Hev.
  - unfold ReportTools.getAuditLogs. open_run.
    unfold bindResult at 1 2 3 in Hev. simpl defaultArg in Hev.
    rewrite validateDays_default, validateTop_large in Hev.
    rewrite validateOptionalString_null in Hev.
    unfold reading in Hev. rewrite getDateOffset_ofZ in Hev. close_run Hev.
Qed.

(** A run of X26: the category [O'Neil]. *)
Lemma audit_log_requests_witness :
  let rt := fixedRuntime 0 "D" (Ok JNull) in
  firstRequest (ReportTools.getAuditLogs rt JUndefined JUndefined (JStr "O'Neil") [])
  = Some (withTop DEFAULT_TOP_LARGE
            (withOrderby (JStr "activityDateTime desc")
               (withFilter
                  (("activityDateTime ge "
                    ++ formatODataDate rt (0 - 30 * 86400000)%Z)
                   ++ " and category eq 'O''Neil'")
                  (api "/auditLogs/directoryAudits")))).
Proof.
  intros rt.
  apply (proj1 (audit_log_requests rt [] "O'Neil"
                  ltac:(apply nonblank_computed; reflexivity))).
Defined.

Lemma validateFilter_clean (f : string) :
  ~ blank f ->
  (forall token, In token dangerous -> ~ containsIgnoringCase f token) ->
  validateFilter (JStr f) = Ok (Some f).
Proof.
  intros Hnb Hnone. unfold validateFilter. simpl nullish. cbv iota.
  assert (E : String.eqb (Str.trim f) EmptyString = false).
  { apply String.eqb_neq. intros E. apply trim_blank in E. exact (Hnb E). }
  rewrite E. rewrite firstDangerous_none; [reflexivity|].
  intros d Hd.
  destruct (Str.includes (Str.toLowerCase f) (Str.toLowerCase d)) eqn:Hi;
    [|reflexivity].
  apply includes_lower_spec in Hi. exfalso. exact (Hnone d Hd Hi).
Qed.

Lemma validateStringArray_strings (x : string) (l : list string) (fieldName : string) :
  validateStringArray (JArr (map JStr (x :: l))) fieldName = Ok (Some (x :: l)).
Proof.
  unfold validateStringArray. simpl nullish. cbv iota.
  rewrite allStrings_map. reflexivity.
Qed.

Lemma validateStringArray_undefined (fieldName : string) :
  validateStringArray JUndefined fieldName = Ok None.
Proof. reflexivity. Qed.

Lemma validateFilter_undefined : validateFilter JUndefined = Ok None.
Proof. reflexivity. Qed.

Lemma validateTop_undefined rt d m : validateTop rt JUndefined d m = Ok d.
Proof. reflexivity. Qed.

Lemma truthy_at_least_one (q : Q) : (1 <= q)%Q -> truthy (JNum (Fin q)) = true.
Proof.
  intros Hq. simpl. destruct (Qeq_bool q 0) eqn:E; [|reflexivity].
  apply Qeq_bool_iff in E. rewrite E in Hq. exfalso. revert Hq.
  apply Qlt_not_le. reflexivity.
Qed.

Lemma truthy_nonblank (s : string) : ~ blank s -> truthy (JStr s) = true.
Proof. intros Hnb. simpl. rewrite (nonblank_nonempty s Hnb). reflexivity. Qed.

Lemma truthy_default_large : truthy (JNum DEFAULT_TOP_LARGE) = true.
Proof. reflexivity. Qed.

(** X27.  Given a page size that is a whole number between 1 and 999, a
    filter that is not blank and contains no denylisted token, a list of
    fields that is not empty and any truthy [orderBy], each of the five
    list operations sends, as its first request, its collection with that
    page size, that filter, the fields joined by commas and the [orderBy]
    as it was given (it is not validated); with no options at all the
    request is the collection with page size 100 and nothing else. *)
Theorem list_requests (rt : Runtime) (h : History) (q : Q) (f : string)
  (l : list string) (o : JsValue) :
  isWhole q -> (1 <= q)%Q -> (q <= 999)%Q ->
  ~ blank f ->
  (forall token, In token dangerous -> ~ containsIgnoringCase f token) ->
  l <> [] -> truthy o = true ->
  let options := mkQueryOptions (JNum (Fin q)) (JStr f) (JArr (map JStr l)) o in
  let composed path :=
    Some (mkRequest path (Some (Fin q)) (Some f) (Some (Str.join "," l)) None
            (Some o)) in
  let plain path :=
    Some (mkRequest path (Some DEFAULT_TOP_LARGE) None None None None) in
  (firstRequest (UserTools.listUsers rt options h) = composed "/users"
   /\ firstRequest (GroupTools.listGroups rt options h) = composed "/groups"
   /\ firstRequest (ApplicationTools.listApplications rt options h)
      = composed "/applications"
   /\ firstRequest (ApplicationTools.listServicePrincipals rt options h)
      = composed "/servicePrincipals"
   /\ firstRequest (DeviceTools.listDevices rt options h) = composed "/devices")
  /\ (firstRequest (UserTools.listUsers rt noQueryOptions h) = plain "/users"
      /\ firstRequest (GroupTools.listGroups rt noQueryOptions h) = plain "/groups"
      /\ firstRequest (ApplicationTools.listApplications rt noQueryOptions h)
         = plain "/applications"
      /\ firstRequest (ApplicationTools.listServicePrincipals rt noQueryOptions h)
         = plain "/servicePrincipals"
      /\ firstRequest (DeviceTools.listDevices rt noQueryOptions h)
         = plain "/devices").
Proof.
  intros Hw H1 H999 Hnb Hclean Hl Ho options composed plain.
  unfold options, composed, plain. destruct l as [|x l]; [contradiction|].
  assert (Hcomposed : forall path theRun rest,
    snd theRun
    = ((Invoked :: map Requested
          (snd ((bindResult
                   (validateTop rt (JNum (Fin q)) DEFAULT_TOP_LARGE MAX_TOP)
                   (fun top0 =>
                    bindResult (validateFilter (JStr f)) (fun filter0 =>
                    bindResult (validateStringArray (JArr (map JStr (x :: l))) "select")
                      (fun select0 =>
                       bind (get rt (orderbyIf o (selectIf select0
                                       (filterIf filter0 (topIf top0 (api path))))))
                         (fun response => pure (valueOrEmpty response))))))
                  (h ++ [Invoked])%list))) ++ rest)%list ->
    firstRequest theRun
    = Some (mkRequest path (Some (Fin q)) (Some f) (Some (Str.join "," (x :: l)))
              None (Some o))).
  { intros path theRun rest Hev. unfold bindResult in Hev.
    rewrite (validateTop_whole rt q _ Hw H1 H999) in Hev. cbv beta iota in Hev.
    rewrite (validateFilter_clean f Hnb Hclean) in Hev. cbv beta iota in Hev.
    rewrite validateStringArray_strings in Hev. cbv beta iota in Hev.
    unfold topIf, filterIf, selectIf, orderbyIf in Hev.
    rewrite (truthy_at_least_one q H1), (truthy_nonblank f Hnb), Ho in Hev.
    close_run Hev. }
  assert (Hplain : forall path theRun rest,
    snd theRun
    = ((Invoked :: map Requested
          (snd ((bindResult
                   (validateTop rt JUndefined DEFAULT_TOP_LARGE MAX_TOP)
                   (fun top0 =>
                    bindResult (validateFilter JUndefined) (fun filter0 =>
                    bindResult (validateStringArray JUndefined "select")
                      (fun select0 =>
                       bind (get rt (orderbyIf JUndefined (selectIf select0
                                       (filterIf filter0 (topIf top0 (api path))))))
                         (fun response => pure (valueOrEmpty response))))))
                  (h ++ [Invoked])%list))) ++ rest)%list ->
    firstRequest theRun
    = Some (mkRequest path (Some DEFAULT_TOP_LARGE) None None None None)).
  { intros path theRun rest Hev. unfold bindResult in Hev.
    rewrite validateTop_undefined in Hev. cbv beta iota in Hev.
    rewrite validateFilter_undefined in Hev. cbv beta iota in Hev.
    rewrite validateStringArray_undefined in Hev. cbv beta iota in Hev.
    unfold topIf, filterIf, selectIf, orderbyIf in Hev.
    rewrite truthy_default_large in Hev. simpl truthy in Hev. cbv iota in Hev.
    close_run Hev. }
  split.
  - split; [|split; [|split; [|split]]].
    + unfold UserTools.listUsers. open_run.
      unfold bindResult in Hev. cbn [opt_top opt_filter opt_select opt_orderBy] in Hev.
      rewrite (validateTop_whole rt q _ Hw H1 H999) in Hev. cbv beta iota in Hev.
      rewrite (validateFilter_clean f Hnb Hclean) in Hev. cbv beta iota in Hev.
      rewrite validateStringArray_strings in Hev. cbv beta iota in Hev.
      unfold topIf, filterIf, selectIf, orderbyIf in Hev.
      rewrite (truthy_at_least_one q H1), (truthy_nonblank f Hnb), Ho in Hev.
      close_run Hev.
    + unfold GroupTools.listGroups. open_run. exact (Hcomposed _ _ _ Hev).
    + unfold ApplicationTools.listApplications. open_run. exact (Hcomposed _ _ _ Hev).
    + unfold ApplicationTools.listServicePrincipals. open_run.
      exact (Hcomposed _ _ _ Hev).
    + unfold DeviceTools.listDevices. open_run. exact (Hcomposed _ _ _ Hev).
  - split; [|split; [|split; [|split]]].
    + unfold UserTools.listUsers. open_run.
      unfold bindResult, noQueryOptions in Hev.
      cbn [opt_top opt_filter opt_select opt_orderBy] in Hev.
      rewrite validateTop_undefined in Hev. cbv beta iota in Hev.
      rewrite validateFilter_undefined in Hev. cbv beta iota in Hev.
      rewrite validateStringArray_undefined in Hev. cbv beta iota in Hev.
      unfold topIf, filterIf, selectIf, orderbyIf in Hev.
      rewrite truthy_default_large in Hev. simpl truthy in Hev. cbv iota in Hev.
      close_run Hev.
    + unfold GroupTools.listGroups. open_run. exact (Hplain _ _ _ Hev).
    + unfold ApplicationTools.listApplications. open_run. exact (Hplain _ _ _ Hev).
    + unfold ApplicationTools.listServicePrincipals. open_run.
      exact (Hplain _ _ _ Hev).
    + unfold DeviceTools.listDevices. open_run. exact (Hplain _ _ _ Hev).
Qed.

(** A run of X27: [listGroups] with a page size of 25, a filter, two fields
    and an [orderBy]. *)
Lemma list_requests_witness :
  firstRequest
    (GroupTools.listGroups (fixedRuntime 0 EmptyString (Ok JNull))
       (mkQueryOptions (JNum (Fin 25)) (JStr "securityEnabled eq true")
          (JArr (map JStr ["id"; "mail"])) (JStr "displayName")) [])
  = Some (mkRequest "/groups" (Some (Fin 25)) (Some "securityEnabled eq true")
            (Some (Str.join "," ["id"; "mail"])) None (Some (JStr "displayName"))).
Proof.
  refine (proj1 (proj2 (proj1
    (list_requests (fixedRuntime 0 EmptyString (Ok JNull)) [] 25
       "securityEnabled eq true" ["id"; "mail"] (JStr "displayName")
       _ _ _ _ _ _ _)))).
  - exists 25%Z. reflexivity.
  - discriminate.
  - discriminate.
  - apply nonblank_computed. reflexivity.
  - intros token Hin Hc. apply includes_lower_spec in Hc. simpl in Hin.
    repeat (destruct Hin as [<- | Hin]; [vm_compute in Hc; discriminate|]).
    destruct Hin.
  - discriminate.
  - reflexivity.
Defined.

(* ------------------------------------------------------------------ *)
(** ** The handler of tool calls *)

Lemma handleGraphError_range (e : Thrown) :
  In (code (handleGraphError e)) handledKinds.
Proof.
  unfold handleGraphError, handledKinds.
  destruct (response e) as [[[ge|] st hd]|].
  - pose proof (mapGraphErrorCode_range (orElse (ge_code ge) EmptyString)) as H.
    simpl in *. tauto.
  - destruct (truthyStatus e) as [s|].
    + destruct (classifyStatus s) as [m|] eqn:Hs.
      * pose proof (classifyStatus_range s m Hs) as H. simpl in *. tauto.
      * pose proof (classifyNetwork_range e) as H. simpl in *. tauto.
    + pose proof (classifyNetwork_range e) as H. simpl in *. tauto.
  - destruct (truthyStatus e) as [s|].
    + destruct (classifyStatus s) as [m|] eqn:Hs.
      * pose proof (classifyStatus_range s m Hs) as H. simpl in *. tauto.
      * pose proof (classifyNetwork_range e) as H. simpl in *. tauto.
    + pose proof (classifyNetwork_range e) as H. simpl in *. tauto.
Qed.

Lemma surface_handled (e : Thrown) : handled e -> surface e = e.
Proof. intros [cause ->]. reflexivity. Qed.

Section RetryLoopOfHandled.

Variable rt : Runtime.
Variable fn : Op JsValue.
Variable opts : RequiredRetryOptions.

Hypothesis fn_handled : forall h e, fst (fn h) = Throw e -> handled e.

Lemma retryLoop_throws_handled budget :
  forall attempt lastError h e,
    (forall l, lastError = Some l -> handled l) ->
    fst (retryLoop rt fn opts budget attempt lastError h) = Throw e ->
    handled e.
Proof.
  induction budget as [|budget IH]; intros attempt lastError h e Hlast.
  - simpl. intros H. injection H as <-. destruct lastError as [l|].
    + simpl. rewrite (surface_handled l (Hlast l eq_refl)). exact (Hlast l eq_refl).
    + exists undefinedError. reflexivity.
  - pose proof (fn_handled (h ++ [Invoked])%list) as Hc.
    destruct (fn (h ++ [Invoked])%list) as [[a | e'] sent] eqn:Hcall;
      cbn [fst] in Hc.
    + rewrite (retryLoop_success rt fn opts budget attempt lastError h a sent Hcall).
      discriminate.
    + specialize (Hc e' eq_refl).
      destruct (Nat.eq_dec attempt (maxRetries opts)) as [Hl | Hne];
        [|destruct (isRetryable e' opts) eqn:Hr].
      * rewrite (retryLoop_give_up rt fn opts budget attempt lastError h e' sent Hcall
                   (or_introl Hl)).
        intros H. injection H as <-. rewrite (surface_handled e' Hc). exact Hc.
      * rewrite (retryLoop_retry rt fn opts budget attempt lastError h e' sent
                   Hcall Hne Hr).
        cbv zeta. cbn [fst]. apply IH. intros l Hl. injection Hl as <-. exact Hc.
      * rewrite (retryLoop_give_up rt fn opts budget attempt lastError h e' sent Hcall
                   (or_intror Hr)).
        intros H. injection H as <-. rewrite (surface_handled e' Hc). exact Hc.
Qed.

End RetryLoopOfHandled.

Lemma tryCatch_handled (body : Op JsValue) (h : History) (e : Thrown) :
  fst (tryCatch body h) = Throw e -> handled e.
Proof.
  unfold tryCatch. destruct (body h) as [[a | e'] sent]; simpl; intros H;
    [discriminate H | injection H as <-; exists e'; reflexivity].
Qed.

(** What an operation throws, [handleGraphError] made. *)
Lemma run_throws_handled (rt : Runtime) (op : Operation) (h : History) (e : Thrown) :
  fst (run rt op h) = Throw e -> handled e.
Proof.
  destruct (run_is_builder rt op) as [body [-> _]]. unfold retryWithBackoff.
  apply (retryLoop_throws_handled rt (tryCatch body) _ (tryCatch_handled body)).
  intros l Hl. discriminate Hl.
Qed.

Ltac dispatched_op :=
  lazymatch goal with
  | |- Dispatched _ _ (UserTools.listUsers _ ?o) =>
      exact (Dispatched_op _ _ (ListUsers o))
  | |- Dispatched _ _ (UserTools.getInactiveUsers _ ?d ?n) =>
      exact (Dispatched_op _ _ (GetInactiveUsers d n))
  | |- Dispatched _ _ (UserTools.getUsersWithMFAStatus _ ?n) =>
      exact (Dispatched_op _ _ (GetUsersWithMFAStatus n))
  | |- Dispatched _ _ (GroupTools.listGroups _ ?o) =>
      exact (Dispatched_op _ _ (ListGroups o))
  | |- Dispatched _ _ (ApplicationTools.listApplications _ ?o) =>
      exact (Dispatched_op _ _ (ListApplications o))
  | |- Dispatched _ _ (ApplicationTools.listServicePrincipals _ ?o) =>
      exact (Dispatched_op _ _ (ListServicePrincipals o))
  | |- Dispatched _ _ (DeviceTools.listDevices _ ?o) =>
      exact (Dispatched_op _ _ (ListDevices o))
  | |- Dispatched _ _ (DeviceTools.getInactiveDevices _ ?d ?n) =>
      exact (Dispatched_op _ _ (GetInactiveDevices d n))
  | |- Dispatched _ _ (ReportTools.getMFASummary _) =>
      exact (Dispatched_op _ _ GetMFASummary)
  | |- Dispatched _ _ (ReportTools.getUserRegistrationDetails _ ?n) =>
      exact (Dispatched_op _ _ (GetUserRegistrationDetails n))
  | |- Dispatched _ _ (ReportTools.getSignInsReport _ ?d ?n) =>
      exact (Dispatched_op _ _ (GetSignInsReport d n))
  | |- Dispatched _ _ (ReportTools.getFailedSignInsReport _ ?d ?n) =>
      exact (Dispatched_op _ _ (GetFailedSignInsReport d n))
  | |- Dispatched _ _ (ReportTools.getAuditLogs _ ?d ?n ?c) =>
      exact (Dispatched_op _ _ (GetAuditLogs d n c))
  | |- Dispatched _ _ (ReportTools.getRiskyUsers _ ?n) =>
      exact (Dispatched_op _ _ (GetRiskyUsers n))
  | |- Dispatched _ _ (ReportTools.getUsersWithAdminRoles _ ?n) =>
      exact (Dispatched_op _ _ (GetUsersWithAdminRoles n))
  | |- Dispatched _ _ (ReportTools.getLicenseUsageSummary _) =>
      exact (Dispatched_op _ _ GetLicenseUsageSummary)
  | |- Dispatched _ _ (ReportTools.getConditionalAccessPolicies _ ?n) =>
      exact (Dispatched_op _ _ (GetConditionalAccessPolicies n))
  | |- Dispatched _ _ (ReportTools.getRoleDefinitions _ ?n) =>
      exact (Dispatched_op _ _ (GetRoleDefinitions n))
  end.

Ltac dispatched_string :=
  apply Dispatched_string; intros s; cbv beta;
  lazymatch goal with
  | |- exists op, UserTools.getUserById _ ?a ?b = _ =>
      exists (GetUserById a b); reflexivity
  | |- exists op, UserTools.searchUsers _ ?a ?b = _ =>
      exists (SearchUsers a b); reflexivity
  | |- exists op, UserTools.getUserSignIns _ ?a ?b = _ =>
      exists (GetUserSignIns a b); reflexivity
  | |- exists op, GroupTools.getGroupMembers _ ?a ?b = _ =>
      exists (GetGroupMembers a b); reflexivity
  | |- exists op, GroupTools.getUserGroups _ ?a ?b = _ =>
      exists (GetUserGroups a b); reflexivity
  | |- exists op, GroupTools.searchGroups _ ?a ?b = _ =>
      exists (SearchGroups a b); reflexivity
  | |- exists op, ApplicationTools.searchApplications _ ?a ?b = _ =>
      exists (SearchApplications a b); reflexivity
  | |- exists op, ApplicationTools.getApplicationPermissions _ ?a = _ =>
      exists (GetApplicationPermissions a); reflexivity
  | |- exists op, DeviceTools.searchDevices _ ?a ?b = _ =>
      exists (SearchDevices a b); reflexivity
  | |- exists op, DeviceTools.getUserDevices _ ?a ?b = _ =>
      exists (GetUserDevices a b); reflexivity
  end.

Lemma selectTool_dispatched (rt : Runtime) (host : Host) (name : string)
  (params : list (string * JsValue)) (call : Run JsValue) :
  selectTool rt host name params = Some call -> Dispatched rt host call.
Proof.
  unfold selectTool. cbv zeta.
  repeat match goal with
  | |- (if String.eqb name ?k then _ else _) = Some call -> _ =>
      destruct (String.eqb name k);
      [intros H; injection H as <-;
       lazymatch goal with
       | |- Dispatched _ _ (withString _ _ _) => dispatched_string
       | _ => dispatched_op
       end|]
  end.
  intros H. discriminate H.
Qed.

Lemma selectTool_names (rt : Runtime) (host : Host) (name : string)
  (params : list (string * JsValue)) :
  selectTool rt host name params = None <-> ~ In name toolNames.
Proof.
  unfold selectTool, toolNames. cbv zeta. split.
  - repeat match goal with
    | |- (if String.eqb name ?k then _ else _) = None -> _ =>
        destruct (String.eqb_spec name k) as [-> | ?]; [intros H; discriminate H|]
    end.
    intros _ Hin. simpl in Hin.
    repeat (destruct Hin as [Hin | Hin]; [symmetry in Hin; contradiction|]).
    exact Hin.
  - intros Hnot.
    repeat match goal with
    | |- (if String.eqb name ?k then _ else _) = None =>
        destruct (String.eqb_spec name k) as [-> | ?];
        [exfalso; apply Hnot; simpl; tauto|]
    end.
    reflexivity.
Qed.

Lemma Dispatched_throws (rt : Runtime) (host : Host) (call : Run JsValue)
  (h : History) (e : Thrown) :
  Dispatched rt host call -> fst (call h) = Throw e ->
  handled e \/ hostThrows host.
Proof.
  intros [op | v k Hk] H.
  - left. exact (run_throws_handled rt op h e H).
  - unfold withString in H. destruct (jsString host v) as [s | e0] eqn:Hs.
    + destruct (Hk s) as [op Hop]. rewrite Hop in H. left.
      exact (run_throws_handled rt op h e H).
    + right. exists v, e0. left. exact Hs.
Qed.

(** X28.  A name that is not one of the twenty-eight tool names makes the
    handler throw an [MCPError] of kind [INVALID_PARAMETER] with the
    message [Unknown tool: ] followed by the name, whatever the arguments;
    no operation is invoked and nothing is requested. *)
Theorem callTool_unknown_tool (rt : Runtime) (host : Host) (name : string)
  (args : option (list (string * JsValue))) (h : History) :
  ~ In name toolNames ->
  callTool rt host name args h
  = (Throw (ThrownMCP (mkMCPError ("Unknown tool: " ++ name) INVALID_PARAMETER None)),
     []).
Proof.
  intros Hnot. unfold callTool.
  rewrite (proj2 (selectTool_names rt host name _) Hnot). reflexivity.
Qed.

(** A run of X28: a tool named [delete_user]. *)
Lemma callTool_unknown_tool_witness :
  callTool (fixedRuntime 0 EmptyString (Ok JNull)) plainHost "delete_user" None []
  = (Throw (ThrownMCP (mkMCPError "Unknown tool: delete_user" INVALID_PARAMETER None)),
     []).
Proof.
  apply (callTool_unknown_tool (fixedRuntime 0 EmptyString (Ok JNull)) plainHost
           "delete_user" None []).
  simpl. intros H.
  repeat (destruct H as [H | H]; [discriminate H|]). exact H.
Defined.

(** X29.  Whatever the handler throws is an [MCPError].  Unless [String] or
    the JSON printer throws on some value, its kind is one of the nine
    kinds of [handleGraphError]: never [INTERNAL_ERROR],
    [MISSING_PARAMETER] or [INVALID_RESPONSE]. *)
Theorem callTool_failures (rt : Runtime) (host : Host) (name : string)
  (args : option (list (string * JsValue))) (h : History) (e : Thrown) :
  fst (callTool rt host name args h) = Throw e ->
  exists m, e = ThrownMCP m /\ (In (code m) handledKinds \/ hostThrows host).
Proof.
  unfold callTool.
  destruct (selectTool rt host name (match args with Some a => a | None => [] end))
    as [call|] eqn:Hsel.
  - pose proof (selectTool_dispatched rt host name _ call Hsel) as Hd.
    pose proof (Dispatched_throws rt host call h) as Hthrows.
    destruct (call h) as [[value | e0] events]; cbn [fst] in Hthrows.
    + destruct (jsonStringify host value) as [text | e1] eqn:Hj; cbn [fst].
      * intros H. discriminate H.
      * intros H. injection H as <-. destruct e1 as [m | raw]; cbn [isMCPError].
        -- exists m. split; [reflexivity|]. right. exists value, (ThrownMCP m).
           right. exact Hj.
        -- eexists. split; [reflexivity|]. right. exists value, (ThrownRaw raw).
           right. exact Hj.
    + cbn [fst]. intros H. injection H as <-.
      destruct (Hthrows e0 Hd eq_refl) as [[cause ->] | Hhost].
      * exists (handleGraphError cause). split; [reflexivity|]. left.
        apply handleGraphError_range.
      * destruct e0 as [m | raw]; cbn [isMCPError]; eexists;
          (split; [reflexivity | right; exact Hhost]).
  - cbn [fst isMCPError]. intros H. injection H as <-. eexists.
    split; [reflexivity|]. left. simpl. tauto.
Qed.

(** A run of X29: [get_user] without arguments against a remote API that
    answers 404. *)
Lemma callTool_failures_witness :
  exists m,
    ThrownMCP (handleGraphError (transportFailure 404 None None)) = ThrownMCP m
    /\ (In (code m) handledKinds \/ hostThrows plainHost).
Proof.
  apply (callTool_failures (failingRuntime (transportFailure 404 None None)) plainHost
           "get_user" None []).
  reflexivity.
Defined.

Lemma callTool_events (rt : Runtime) (host : Host) (name : string)
  (args : option (list (string * JsValue))) (h : History) (call : Run JsValue) :
  selectTool rt host name (match args with Some a => a | None => [] end) = Some call ->
  snd (callTool rt host name args h) = snd (call h).
Proof.
  intros Hsel. unfold callTool. rewrite Hsel.
  destruct (call h) as [[value | e] events]; [|reflexivity].
  destruct (jsonStringify host value); reflexivity.
Qed.

Lemma firstRequest_callTool (rt : Runtime) (host : Host) (name : string)
  (args : option (list (string * JsValue))) (h : History) (call : Run JsValue) :
  selectTool rt host name (match args with Some a => a | None => [] end) = Some call ->
  firstRequest (callTool rt host name args h) = firstRequest (call h).
Proof.
  intros Hsel. unfold firstRequest. rewrite (callTool_events _ _ _ _ _ call Hsel).
  reflexivity.
Qed.

Lemma withString_printed (host : Host) (v : JsValue) (s : string)
  (k : JsValue -> Run JsValue) (h : History) :
  jsString host v = Ok s -> withString host v k h = k (JStr s) h.
Proof. intros H. unfold withString. rewrite H. reflexivity. Qed.

Lemma validateTop_medium rt :
  validateTop rt (JNum DEFAULT_TOP_MEDIUM) DEFAULT_TOP_MEDIUM MAX_TOP
  = Ok DEFAULT_TOP_MEDIUM.
Proof. reflexivity. Qed.

(** X30.  The handler passes an identifier through [String] before the
    operation validates it, so the operation is always given a string:
    whatever the argument is (a number, an object, or nothing at all), the
    text [String] prints for it, if not blank, is spliced into the path of
    the first request.  Shown for [get_user], [get_user_groups],
    [get_user_devices], [get_group_members] and
    [get_application_permissions], called without [select] and [top]. *)
Theorem printed_id_is_requested (rt : Runtime) (host : Host)
  (args : option (list (string * JsValue))) (h : History) (u g a : string) :
  let params := match args with Some given => given | None => [] end in
  jsString host (param params "userId") = Ok u -> ~ blank u ->
  jsString host (param params "groupId") = Ok g -> ~ blank g ->
  jsString host (param params "appId") = Ok a -> ~ blank a ->
  param params "select" = JUndefined -> param params "top" = JUndefined ->
  firstRequest (callTool rt host "get_user" args h) = Some (api ("/users/" ++ u))
  /\ firstRequest (callTool rt host "get_user_groups" args h)
     = Some (withTop DEFAULT_TOP_MEDIUM (api ("/users/" ++ u ++ "/memberOf")))
  /\ firstRequest (callTool rt host "get_user_devices" args h)
     = Some (withTop DEFAULT_TOP_MEDIUM (api ("/users/" ++ u ++ "/ownedDevices")))
  /\ firstRequest (callTool rt host "get_group_members" args h)
     = Some (withTop DEFAULT_TOP_MEDIUM (api ("/groups/" ++ g ++ "/members")))
  /\ firstRequest (callTool rt host "get_application_permissions" args h)
     = Some (withSelect
               "id,displayName,appId,requiredResourceAccess,api,oauth2PermissionScopes"
               (api ("/applications/" ++ a))).
Proof.
  intros params Hu Hnu Hg Hng Ha Hna Hselect Htop.
  split; [|split; [|split; [|split]]].
  - rewrite (firstRequest_callTool rt host "get_user" args h
               (withString host (param params "userId") (fun userId =>
                  UserTools.getUserById rt userId (param params "select")))
               eq_refl).
    rewrite (withString_printed host _ u _ h Hu), Hselect.
    unfold UserTools.getUserById. open_run.
    unfold bindResult at 1 2 in Hev.
    rewrite (validateString_nonblank _ _ Hnu), validateStringArray_undefined in Hev.
    simpl in Hev. unfold firstRequest. rewrite Hev. reflexivity.
  - rewrite (firstRequest_callTool rt host "get_user_groups" args h
               (withString host (param params "userId") (fun userId =>
                  GroupTools.getUserGroups rt userId (param params "top")))
               eq_refl).
    rewrite (withString_printed host _ u _ h Hu), Htop.
    unfold GroupTools.getUserGroups. open_run.
    unfold bindResult at 1 2 in Hev. simpl defaultArg in Hev.
    rewrite (validateString_nonblank _ _ Hnu), validateTop_medium in Hev.
    simpl in Hev. close_run Hev.
  - rewrite (firstRequest_callTool rt host "get_user_devices" args h
               (withString host (param params "userId") (fun userId =>
                  DeviceTools.getUserDevices rt userId (param params "top")))
               eq_refl).
    rewrite (withString_printed host _ u _ h Hu), Htop.
    unfold DeviceTools.getUserDevices. open_run.
    unfold bindResult at 1 2 in Hev. simpl defaultArg in Hev.
    rewrite (validateString_nonblank _ _ Hnu), validateTop_medium in Hev.
    simpl in Hev. close_run Hev.
  - rewrite (firstRequest_callTool rt host "get_group_members" args h
               (withString host (param params "groupId") (fun groupId =>
                  GroupTools.getGroupMembers rt groupId (param params "top")))
               eq_refl).
    rewrite (withString_printed host _ g _ h Hg), Htop.
    unfold GroupTools.getGroupMembers. open_run.
    unfold bindResult at 1 2 in Hev. simpl defaultArg in Hev.
    rewrite (validateString_nonblank _ _ Hng), validateTop_medium in Hev.
    simpl in Hev. close_run Hev.
  - rewrite (firstRequest_callTool rt host "get_application_permissions" args h
               (withString host (param params "appId") (fun appId =>
                  ApplicationTools.getApplicationPermissions rt appId))
               eq_refl).
    rewrite (withString_printed host _ a _ h Ha).
    unfold ApplicationTools.getApplicationPermissions. open_run.
    unfold bindResult at 1 in Hev.
    rewrite (validateString_nonblank _ _ Hna) in Hev.
    simpl in Hev. unfold firstRequest. rewrite Hev. reflexivity.
Qed.

(** A run of X30: [get_user] without arguments asks for the user named
    [undefined]. *)
Lemma printed_id_is_requested_witness :
  firstRequest
    (callTool (fixedRuntime 0 EmptyString (Ok JNull)) plainHost "get_user" None [])
  = Some (api "/users/undefined").
Proof.
  refine (proj1 (printed_id_is_requested (fixedRuntime 0 EmptyString (Ok JNull))
                   plainHost None [] "undefined" "undefined" "undefined"
                   _ _ _ _ _ _ _ _)).
  - reflexivity.
  - apply nonblank_computed. reflexivity.
  - reflexivity.
  - apply nonblank_computed. reflexivity.
  - reflexivity.
  - apply nonblank_computed. reflexivity.
  - reflexivity.
  - reflexivity.
Defined.
